(** * EXIF metadata extractor: a shallow embedding of [metadata_extractor.py]

    The development follows the Python module function by function:
    [get_exif_data], [convert_gps_coordinate], [extract_gps] and
    [extract_metadata].  Python values are an inductive type, exceptions
    are an explicit error result, dictionaries are insertion-ordered
    association lists, and a Python [float] is an IEEE 754 binary64 number
    in the integer-based specification of the standard library
    ([spec_float] with 53 bits of precision). *)

From Stdlib Require Import ZArith List String Ascii Bool Lia DecimalString.
From Stdlib Require Import Floats.SpecFloat.
Import ListNotations.

Open Scope Z_scope.
Open Scope string_scope.

(** ** Exceptions and results *)

Module Py.

(** The exception classes the modelled code can meet. *)
Inductive exc : Type :=
| TypeError
| ValueError
| IndexError
| KeyError
| OverflowError
| ZeroDivisionError
| AttributeError
| FileNotFoundError
| OSError.

(** A computation either returns or raises. *)
Inductive result (A : Type) : Type :=
| Ok (a : A)
| Raise (e : exc).

Arguments Ok {A} a.
Arguments Raise {A} e.

Definition bind {A B : Type} (r : result A) (k : A -> result B) : result B :=
  match r with
  | Ok a => k a
  | Raise e => Raise e
  end.

Definition is_ok {A : Type} (r : result A) : bool :=
  match r with Ok _ => true | Raise _ => false end.

(** [try: r  except Exception: h] *)
Definition try_except {A : Type} (r : result A) (h : result A) : result A :=
  match r with
  | Ok a => Ok a
  | Raise _ => h
  end.

End Py.

Export Py.

Notation "x <- c1 ;; c2" := (Py.bind c1 (fun x => c2))
  (at level 61, c1 at next level, right associativity).

(** ** Binary64 floating point *)

Module F64.

Definition prec : Z := 53.
Definition emax : Z := 1024.

Definition float : Type := spec_float.

Definition add : float -> float -> float := SFadd prec emax.
Definition div : float -> float -> float := SFdiv prec emax.
Definition neg : float -> float := SFopp.
Definition leb : float -> float -> bool := SFleb.
Definition ltb : float -> float -> bool := SFltb.
Definition eqb : float -> float -> bool := SFeqb.

Definition zero : float := S754_zero false.
Definition nan : float := S754_nan.

(** The binary64 number nearest to [n / d] (ties to even), with sign [s].
    Division of two exactly held integers is correctly rounded, whatever
    their size. *)
Definition nearest (s : bool) (n d : positive) : float :=
  SFdiv prec emax (S754_finite s n 0) (S754_finite false d 0).

(** The nearest binary64 number to the signed fraction [n / d], [d > 0]. *)
Definition of_fraction (n : Z) (d : positive) : float :=
  match n with
  | Z0 => S754_zero false
  | Zpos p => nearest false p d
  | Zneg p => nearest true p d
  end.

(** Integer literals of the program such as [60.0] and [3600.0]. *)
Definition of_Z (n : Z) : float := of_fraction n 1.

(** Round-half-even of the non-negative fraction [n / d] to an integer. *)
Definition round_half_even (n d : Z) : Z :=
  let q := n / d in
  let r := n mod d in
  match Z.compare (2 * r) d with
  | Lt => q
  | Gt => q + 1
  | Eq => if Z.even q then q else q + 1
  end.

(** The integer nearest to [m * 2^e * 10^ndigits], ties to even: the
    decimal digits that the interpreter's [round] keeps. *)
Definition scaled_digits (m : positive) (e : Z) (ndigits : Z) : Z :=
  let p := 10 ^ ndigits in
  match e with
  | Zneg k => round_half_even (Zpos m * p) (2 ^ Zpos k)
  | _ => Zpos m * 2 ^ e * p
  end.

(** [round(x, ndigits)] of a float, for [0 <= ndigits <= 323]: infinities
    and NaN round to themselves; a finite number is rounded, on its exact
    value, to [ndigits] decimal places (half to even), and the decimal
    result is converted back to the nearest binary64 number; the sign
    is carried over unchanged, also to a zero result. *)
Definition round (x : float) (ndigits : Z) : float :=
  match x with
  | S754_finite s m e =>
      match scaled_digits m e ndigits with
      | Zpos q => nearest s q (Z.to_pos (10 ^ ndigits))
      | _ => S754_zero s
      end
  | _ => x
  end.

(** Truth value of a float: false exactly for the two zeros. *)
Definition truthy (x : float) : bool :=
  match x with
  | S754_zero _ => false
  | _ => true
  end.

(** Sign bit. *)
Definition signbit (x : float) : bool :=
  match x with
  | S754_zero s | S754_infinity s | S754_finite s _ _ => s
  | S754_nan => false
  end.

(** [x] is a number (not NaN) whose sign bit is [s]. *)
Definition has_sign (s : bool) (x : float) : bool :=
  match x with
  | S754_nan => false
  | _ => Bool.eqb (signbit x) s
  end.

(** [0.0 <= x], [x <= 0.0] and [x < 0.0], as the comparisons evaluate. *)
Definition nonneg (x : float) : bool := leb zero x.
Definition nonpos (x : float) : bool := leb x zero.
Definition negative (x : float) : bool := ltb x zero.

End F64.

Abbreviation float := F64.float.

(** ** Python values *)

(** Dictionary keys met in EXIF data: tag names and numeric tag ids. *)
Inductive pykey : Type :=
| KStr (s : string)
| KInt (i : Z).

#[local] Set Warnings "-register-all".

(** The values an EXIF decoder hands over: [None], integers, floats, text,
    bytes, the decoder's rational numbers ([IFDRational]), tuples, and
    nested mappings such as the GPS directory. *)
Inductive pyval : Type :=
| PyNone
| PyInt (z : Z)
| PyFloat (f : float)
| PyStr (s : string)
| PyBytes (b : string)
| PyRational (n d : Z)
| PyTuple (items : list pyval)
| PyDict (items : list (pykey * pyval)).

(** ** Dictionaries: insertion-ordered association lists *)

Module Dict.

Definition key_eqb (a b : pykey) : bool :=
  match a, b with
  | KStr s, KStr t => String.eqb s t
  | KInt i, KInt j => Z.eqb i j
  | _, _ => false
  end.

Definition t (V : Type) : Type := list (pykey * V).

(** [d.get(k)] *)
Fixpoint get {V : Type} (k : pykey) (d : t V) : option V :=
  match d with
  | [] => None
  | (k', v) :: rest => if key_eqb k' k then Some v else get k rest
  end.

(** [k in d] *)
Definition mem {V : Type} (k : pykey) (d : t V) : bool :=
  match get k d with
  | Some _ => true
  | None => false
  end.

(** [d[k] = v]: an existing key keeps its position, a new key goes last. *)
Fixpoint set {V : Type} (k : pykey) (v : V) (d : t V) : t V :=
  match d with
  | [] => [(k, v)]
  | (k', v') :: rest =>
      if key_eqb k' k then (k', v) :: rest else (k', v') :: set k v rest
  end.

Definition keys {V : Type} (d : t V) : list pykey := map fst d.

(** A dictionary holds each key once. *)
Definition wf {V : Type} (d : t V) : Prop := NoDup (keys d).

(** Truth value of a dictionary: non-empty. *)
Definition truthy {V : Type} (d : t V) : bool :=
  match d with
  | [] => false
  | _ :: _ => true
  end.

(** [table.get(key, key)] for a table keyed by numeric ids, as in
    [TAGS.get(tag_id, tag_id)] and [GPSTAGS.get(key, key)]: a known id
    becomes its name, anything else stays as it is. *)
Definition resolve (table : Z -> option string) (k : pykey) : pykey :=
  match k with
  | KInt i =>
      match table i with
      | Some name => KStr name
      | None => KInt i
      end
  | KStr _ => k
  end.

End Dict.

(** ** Built-in operations on values *)

(** Truth value, as tested by [if x:] and [and].  A rational is true
    when it is not zero; one with a zero denominator holds NaN, which is
    true. *)
Definition py_truthy (v : pyval) : bool :=
  match v with
  | PyNone => false
  | PyInt z => negb (Z.eqb z 0)
  | PyFloat f => F64.truthy f
  | PyStr s | PyBytes s => negb (String.eqb s "")
  | PyRational n d => if Z.eqb d 0 then true else negb (Z.eqb n 0)
  | PyTuple items => match items with [] => false | _ :: _ => true end
  | PyDict items => Dict.truthy items
  end.

(** [hasattr(v, '__float__')] *)
Definition has_float (v : pyval) : bool :=
  match v with
  | PyInt _ | PyFloat _ | PyRational _ _ => true
  | _ => false
  end.

(** A float that overflowed to an infinity while converting an integer or
    a fraction raises [OverflowError]. *)
Definition checked (f : float) : result float :=
  match f with
  | S754_infinity _ => Raise OverflowError
  | _ => Ok f
  end.

(** [a / b] on integers (true division): correctly rounded. *)
Definition int_truediv (a b : Z) : result float :=
  match b with
  | Z0 => Raise ZeroDivisionError
  | Zpos d =>
      match a with
      | Z0 => Ok (S754_zero false)
      | _ => checked (F64.of_fraction a d)
      end
  | Zneg d =>
      match a with
      | Z0 => Ok (S754_zero true)
      | _ => checked (F64.of_fraction (- a) d)
      end
  end.

(** [v[i]] for the literal indices [0], [1], [2]. *)
Definition getitem (v : pyval) (i : nat) : result pyval :=
  match v with
  | PyTuple items =>
      match nth_error items i with
      | Some x => Ok x
      | None => Raise IndexError
      end
  | PyStr s =>
      match String.get i s with
      | Some c => Ok (PyStr (String c EmptyString))
      | None => Raise IndexError
      end
  | PyBytes b =>
      match String.get i b with
      | Some c => Ok (PyInt (Z.of_nat (nat_of_ascii c)))
      | None => Raise IndexError
      end
  | PyDict items =>
      match Dict.get (KInt (Z.of_nat i)) items with
      | Some x => Ok x
      | None => Raise KeyError
      end
  | PyNone | PyInt _ | PyFloat _ | PyRational _ _ => Raise TypeError
  end.

(** [v == s] for a string literal [s]: only a string can be equal to it. *)
Definition eq_str (v : pyval) (s : string) : bool :=
  match v with
  | PyStr t => String.eqb t s
  | _ => false
  end.

(** The characters of a text are the code points below 256: the decoder
    reads the text fields of EXIF as Latin-1, which gives no other.
    Among them [str.strip()] removes those for which [str.isspace()]
    holds: the space, the controls 9 to 13 and 28 to 31, the next-line
    control 133 (U+0085) and the no-break space 160 (U+00A0). *)
Definition is_space (c : ascii) : bool :=
  let n := nat_of_ascii c in
  orb (Nat.eqb n 32)
      (orb (andb (Nat.leb 9 n) (Nat.leb n 13))
           (orb (andb (Nat.leb 28 n) (Nat.leb n 31))
                (orb (Nat.eqb n 133) (Nat.eqb n 160)))).

Fixpoint lstrip (s : string) : string :=
  match s with
  | String c rest => if is_space c then lstrip rest else s
  | EmptyString => EmptyString
  end.

Fixpoint rstrip (s : string) : string :=
  match s with
  | String c rest =>
      match rstrip rest with
      | EmptyString => if is_space c then EmptyString else String c EmptyString
      | r => String c r
      end
  | EmptyString => EmptyString
  end.

(** [s.strip()] *)
Definition strip (s : string) : string := rstrip (lstrip s).

(** ** The runtime: library behaviour the program relies on

    Text conversion and the decoder's tag table are taken as given: [str]
    of a value (which may raise), the text of a float as an f-string prints
    it, the parsing of a numeric literal by [float], what [float] does on
    a rational whose denominator is zero (NaN or [ZeroDivisionError],
    depending on the decoder's version), the table [PIL.ExifTags.TAGS],
    and [os.path.abspath] and [os.path.basename]. *)
Class Runtime : Type := {
  py_str : pyval -> result string;
  float_str : float -> string;
  parse_float : string -> option float;
  float_of_zero_denominator : result float;
  TAGS : Z -> option string;
  abspath : string -> string;
  basename : string -> string
}.

(** [PIL.ExifTags.GPSTAGS] *)
Definition GPSTAGS (i : Z) : option string :=
  match i with
  | 0 => Some "GPSVersionID"
  | 1 => Some "GPSLatitudeRef"
  | 2 => Some "GPSLatitude"
  | 3 => Some "GPSLongitudeRef"
  | 4 => Some "GPSLongitude"
  | 5 => Some "GPSAltitudeRef"
  | 6 => Some "GPSAltitude"
  | 7 => Some "GPSTimeStamp"
  | 8 => Some "GPSSatellites"
  | 9 => Some "GPSStatus"
  | 10 => Some "GPSMeasureMode"
  | 11 => Some "GPSDOP"
  | 12 => Some "GPSSpeedRef"
  | 13 => Some "GPSSpeed"
  | 14 => Some "GPSTrackRef"
  | 15 => Some "GPSTrack"
  | 16 => Some "GPSImgDirectionRef"
  | 17 => Some "GPSImgDirection"
  | 18 => Some "GPSMapDatum"
  | 19 => Some "GPSDestLatitudeRef"
  | 20 => Some "GPSDestLatitude"
  | 21 => Some "GPSDestLongitudeRef"
  | 22 => Some "GPSDestLongitude"
  | 23 => Some "GPSDestBearingRef"
  | 24 => Some "GPSDestBearing"
  | 25 => Some "GPSDestDistanceRef"
  | 26 => Some "GPSDestDistance"
  | 27 => Some "GPSProcessingMethod"
  | 28 => Some "GPSAreaInformation"
  | 29 => Some "GPSDateStamp"
  | 30 => Some "GPSDifferential"
  | 31 => Some "GPSHPositioningError"
  | _ => None
  end.

(** Terminal colours used in the messages. *)
Definition ESC : string := String (ascii_of_nat 27) EmptyString.
Definition RED : string := ESC ++ "[91m".
Definition RESET : string := ESC ++ "[0m".

(** ** The file system and the image library, as the program sees them *)

(** What [img._getexif()] does on an opened image. *)
Inductive exif_reader : Type :=
| NoExifMethod                       (* the image class has no [_getexif] *)
| ExifNone                           (* returns [None] *)
| ExifTags (raw : Dict.t pyval).     (* returns the decoded tag directory *)

(** What a path leads to. *)
Inductive fs_entry : Type :=
| Missing                                   (* no such file *)
| Unreadable (size : Z) (msg : string)      (* exists, may not be read *)
| NotImage (size : Z) (msg : string)        (* readable, no valid image container *)
| ImageFile (size : Z) (r : exif_reader).   (* a decodable image *)

Definition filesystem : Type := string -> fs_entry.

(** [Image.open(path)]: the opened image, or the exception with its text. *)
Definition image_open (f : fs_entry) : exif_reader + exc * string :=
  match f with
  | Missing => inr (FileNotFoundError, "")
  | Unreadable _ msg => inr (OSError, msg)
  | NotImage _ msg => inr (OSError, msg)
  | ImageFile _ r => inl r
  end.

(** [os.path.getsize(path)]: needs the file to exist, not to be readable. *)
Definition os_path_getsize (f : fs_entry) : result Z :=
  match f with
  | Missing => Raise FileNotFoundError
  | Unreadable size _ | NotImage size _ | ImageFile size _ => Ok size
  end.

(** ** The report *)

Record file_info : Type := {
  path : string;
  filename : string;
  size_kb : float
}.

Record report : Type := {
  file : file_info;
  gps : option (Dict.t pyval);
  device : Dict.t pyval;
  datetime : Dict.t pyval;
  image : Dict.t pyval;
  other : Dict.t pyval
}.

Definition device_tags : list string :=
  ["Make"; "Model"; "Software"; "LensMake"; "LensModel"].

Definition datetime_tags : list string :=
  ["DateTime"; "DateTimeOriginal"; "DateTimeDigitized"].

Definition image_tags : list string :=
  ["ExifImageWidth"; "ExifImageHeight"; "Orientation";
   "Flash"; "FocalLength"; "ExposureTime"; "FNumber";
   "ISOSpeedRatings"; "WhiteBalance"; "ExposureMode"].

Definition excluded_tags : list string :=
  ["GPSInfo"; "MakerNote"; "UserComment"].

(** [skip = set(device_tags + datetime_tags + image_tags + [...])] *)
Definition skip : list string :=
  device_tags ++ datetime_tags ++ image_tags ++ excluded_tags.

(** [tag in names] for a list or set of strings. *)
Definition key_in (k : pykey) (names : list string) : bool :=
  existsb (fun n => Dict.key_eqb k (KStr n)) names.

(** How many of the listed conditions hold. *)
Definition count_true (l : list bool) : nat :=
  List.length (filter (fun b => b) l).

(** ** The program *)

Section Program.

Context {rt : Runtime}.

(** [float(v)]: a float is itself, an integer is rounded to the nearest
    float, a rational is its numerator divided by its denominator, text
    and bytes are parsed, and the other values have no conversion. *)
Definition py_float (v : pyval) : result float :=
  match v with
  | PyFloat f => Ok f
  | PyInt z => checked (F64.of_Z z)
  | PyRational n d =>
      if Z.eqb d 0 then float_of_zero_denominator else int_truediv n d
  | PyStr s | PyBytes s =>
      match parse_float s with
      | Some f => Ok f
      | None => Raise ValueError
      end
  | PyNone | PyTuple _ | PyDict _ => Raise TypeError
  end.

(** [get_exif_data(image_path)]: the messages printed and the result. *)
Definition get_exif_data (fs : filesystem) (image_path : string)
  : list string * result (Dict.t pyval) :=
  match image_open (fs image_path) with
  | inr (FileNotFoundError, _) =>
      ([RED ++ "Error: File not found: " ++ image_path ++ RESET], Ok [])
  | inr (_, msg) =>
      ([RED ++ "Error opening image: " ++ msg ++ RESET], Ok [])
  | inl img =>
      ([],
       match img with
       | NoExifMethod => Raise AttributeError
       | ExifNone => Ok []
       | ExifTags raw =>
           if negb (Dict.truthy raw) then Ok []
           else Ok (fold_left
                      (fun exif_data '(tag_id, value) =>
                         Dict.set (Dict.resolve TAGS tag_id) value exif_data)
                      raw [])
       end)
  end.

(** [ref in ["S", "W"]] *)
Definition ref_in_SW (ref : pyval) : bool :=
  orb (eq_str ref "S") (eq_str ref "W").

(** [convert_gps_coordinate(value, ref)] *)
Definition convert_gps_coordinate (value ref : pyval) : result float :=
  v0 <- getitem value 0 ;;
  degrees <- py_float v0 ;;
  v1 <- getitem value 1 ;;
  minutes <- py_float v1 ;;
  v2 <- getitem value 2 ;;
  seconds <- py_float v2 ;;
  let decimal :=
    F64.add (F64.add degrees (F64.div minutes (F64.of_Z 60)))
            (F64.div seconds (F64.of_Z 3600)) in
  let decimal := if ref_in_SW ref then F64.neg decimal else decimal in
  Ok (F64.round decimal 6).

(** [gps.get(name)]: [None] when the key is missing. *)
Definition get_or_none (name : string) (d : Dict.t pyval) : pyval :=
  match Dict.get (KStr name) d with
  | Some v => v
  | None => PyNone
  end.

(** The loop that renames the keys of the GPS directory. *)
Definition gps_named (gps_info : Dict.t pyval) : Dict.t pyval :=
  fold_left (fun gps '(key, val) => Dict.set (Dict.resolve GPSTAGS key) val gps)
            gps_info [].

(** The test of line 78: [lat and lat_ref and lon and lon_ref]. *)
Definition coordinates_present (gps : Dict.t pyval) : bool :=
  py_truthy (get_or_none "GPSLatitude" gps)
  && py_truthy (get_or_none "GPSLatitudeRef" gps)
  && py_truthy (get_or_none "GPSLongitude" gps)
  && py_truthy (get_or_none "GPSLongitudeRef" gps).

(** Lines 70 to 86 of [extract_gps]: the block built from the renamed
    GPS directory. *)
Definition gps_block (gps : Dict.t pyval) : result (option (Dict.t pyval)) :=
  let lat := get_or_none "GPSLatitude" gps in
  let lat_ref := get_or_none "GPSLatitudeRef" gps in
  let lon := get_or_none "GPSLongitude" gps in
  let lon_ref := get_or_none "GPSLongitudeRef" gps in
  let alt := get_or_none "GPSAltitude" gps in
  let result := [] in
  result <-
    (if coordinates_present gps
     then
       latitude <- convert_gps_coordinate lat lat_ref ;;
       let result := Dict.set (KStr "latitude") (PyFloat latitude) result in
       longitude <- convert_gps_coordinate lon lon_ref ;;
       let result := Dict.set (KStr "longitude") (PyFloat longitude) result in
       Ok (Dict.set (KStr "maps_url")
             (PyStr ("https://maps.google.com/?q=" ++ float_str latitude
                     ++ "," ++ float_str longitude))
             result)
     else Ok result) ;;
  result <-
    (if py_truthy alt
     then
       a <- py_float alt ;;
       Ok (Dict.set (KStr "altitude_meters") (PyFloat (F64.round a 2)) result)
     else Ok result) ;;
  Ok (if Dict.truthy result then Some result else None).


(** The coordinate fields are harmless: not all truthy, or convertible. *)
Definition coordinates_ok (gps : Dict.t pyval) : Prop :=
  coordinates_present gps = false \/
  exists la lo,
    convert_gps_coordinate (get_or_none "GPSLatitude" gps)
                           (get_or_none "GPSLatitudeRef" gps) = Ok la /\
    convert_gps_coordinate (get_or_none "GPSLongitude" gps)
                           (get_or_none "GPSLongitudeRef" gps) = Ok lo.

(** [extract_gps(exif_data)] *)
Definition extract_gps (exif_data : Dict.t pyval) : result (option (Dict.t pyval)) :=
  let gps_info := get_or_none "GPSInfo" exif_data in
  if negb (py_truthy gps_info) then Ok None
  else
    match gps_info with
    | PyDict items => gps_block (gps_named items)
    | _ => Raise AttributeError
    end.

(** The shape shared by the three allow-list loops:
    [for tag in tags: if tag in exif: bucket[tag] = f(exif[tag])]. *)
Fixpoint tag_loop (f : pyval -> result pyval) (tags : list string)
         (exif bucket : Dict.t pyval) : result (Dict.t pyval) :=
  match tags with
  | [] => Ok bucket
  | tag :: rest =>
      match Dict.get (KStr tag) exif with
      | Some val =>
          x <- f val ;;
          tag_loop f rest exif (Dict.set (KStr tag) x bucket)
      | None => tag_loop f rest exif bucket
      end
  end.

(** [str(val)], kept as a value. *)
Definition stringified (val : pyval) : result pyval :=
  s <- py_str val ;; Ok (PyStr s).

(** The device loop stores [str(exif[tag]).strip()]. *)
Definition device_value (val : pyval) : result pyval :=
  s <- py_str val ;; Ok (PyStr (strip s)).

Definition device_loop : list string -> Dict.t pyval -> Dict.t pyval
                         -> result (Dict.t pyval) :=
  tag_loop device_value.

(** The date loop stores [str(exif[tag])]. *)
Definition datetime_loop : list string -> Dict.t pyval -> Dict.t pyval
                           -> result (Dict.t pyval) :=
  tag_loop stringified.

(** The image-settings loop stores
    [float(val) if hasattr(val, '__float__') else str(val)], and
    [str(val)] when that raised. *)
Definition image_value (val : pyval) : result pyval :=
  try_except
    (if has_float val then (f <- py_float val ;; Ok (PyFloat f))
     else stringified val)
    (stringified val).

Definition image_loop : list string -> Dict.t pyval -> Dict.t pyval
                        -> result (Dict.t pyval) :=
  tag_loop image_value.

(** The value kept for an image-settings tag, as the specification words
    it: the float when the value supports the conversion and it
    succeeds, the string form otherwise. *)
Definition image_entry (val x : pyval) : Prop :=
  (has_float val = true /\ exists f, py_float val = Ok f /\ x = PyFloat f) \/
  ((has_float val = false \/ is_ok (py_float val) = false) /\
   exists s, py_str val = Ok s /\ x = PyStr s).

(** The value needs its string form: it has no float conversion, or
    the conversion raises. *)
Definition needs_str (val : pyval) : Prop :=
  has_float val = false \/ is_ok (py_float val) = false.

(** The catch-all loop over [exif.items()]. *)
Fixpoint other_loop (items : Dict.t pyval) (bucket : Dict.t pyval) : Dict.t pyval :=
  match items with
  | [] => bucket
  | (tag, val) :: rest =>
      if negb (key_in tag skip) then
        match py_str val with
        | Ok s => other_loop rest (Dict.set tag (PyStr s) bucket)
        | Raise _ => other_loop rest bucket
        end
      else other_loop rest bucket
  end.

(** Lines 108 to 144 of [extract_metadata]: the classification of a
    non-empty tag map into the blocks of [result]. *)
Definition classify (exif : Dict.t pyval) (init : report) : result report :=
  g <- extract_gps exif ;;
  dev <- device_loop device_tags exif (device init) ;;
  dat <- datetime_loop datetime_tags exif (datetime init) ;;
  img <- image_loop image_tags exif (image init) ;;
  Ok {| file := file init;
        gps := g;
        device := dev;
        datetime := dat;
        image := img;
        other := other_loop exif (other init) |}.

(** [extract_metadata(image_path)]: the messages printed and the result. *)
Definition extract_metadata (fs : filesystem) (image_path : string)
  : list string * result report :=
  let '(out, r) := get_exif_data fs image_path in
  (out,
   exif <- r ;;
   size <- os_path_getsize (fs image_path) ;;
   kb <- int_truediv size 1024 ;;
   let result :=
     {| file := {| path := abspath image_path;
                   filename := basename image_path;
                   size_kb := F64.round kb 2 |};
        gps := None;
        device := [];
        datetime := [];
        image := [];
        other := [] |} in
   if negb (Dict.truthy exif) then Ok result
   else classify exif result).

End Program.

(** ** The conversion formula, as the specification words it *)

(** [decimal = degrees + minutes/60 + seconds/3600] *)
Definition dms_decimal (d m s : float) : float :=
  F64.add (F64.add d (F64.div m (F64.of_Z 60))) (F64.div s (F64.of_Z 3600)).

(** The decimal rounded to 6 places and negated for the references
    [S] and [W]. *)
Definition signed_decimal (d m s : float) (south_or_west : bool) : float :=
  let r := F64.round (dms_decimal d m s) 6 in
  if south_or_west then F64.neg r else r.

(** ** The presentation layer *)

(** The other terminal colours, and the newline some lines carry. *)
Definition GREEN : string := ESC ++ "[92m".
Definition YELLOW : string := ESC ++ "[93m".
Definition CYAN : string := ESC ++ "[96m".
Definition BOLD : string := ESC ++ "[1m".
Definition DIM : string := ESC ++ "[2m".
Definition LF : string := String (ascii_of_nat 10) EmptyString.

(** [c * n] for a one-character string [c]. *)
Fixpoint repeat_char (c : ascii) (n : nat) : string :=
  match n with
  | O => EmptyString
  | S n' => String c (repeat_char c n')
  end.

(** [f"{s:<25}"]: text padded with spaces on the right, never cut. *)
Definition ljust (width : nat) (s : string) : string :=
  s ++ repeat_char " " (width - String.length s).

(** [str(i)] of an integer. *)
Definition int_str (i : Z) : string := NilZero.string_of_int (Z.to_int i).

(** [f"{key:<25}"] for a dictionary key. *)
Definition key_column (k : pykey) : string :=
  match k with
  | KStr s => ljust 25 s
  | KInt i => ljust 25 (int_str i)
  end.

(** [s.lower()]: among the code points below 256, the letters A to Z
    and the capital letters 192 to 222 of Latin-1 (the sign 215 is none)
    have a lower case, 32 further on; the others stay. *)
Definition lower_char (c : ascii) : ascii :=
  let n := nat_of_ascii c in
  if orb (andb (Nat.leb 65 n) (Nat.leb n 90))
         (andb (andb (Nat.leb 192 n) (Nat.leb n 222)) (negb (Nat.eqb n 215)))
  then ascii_of_nat (n + 32) else c.

Fixpoint lower (s : string) : string :=
  match s with
  | EmptyString => EmptyString
  | String c rest => String (lower_char c) (lower rest)
  end.

(** [d[name]]: a missing key raises. *)
Definition getkey (name : string) (d : Dict.t pyval) : result pyval :=
  match Dict.get (KStr name) d with
  | Some v => Ok v
  | None => Raise KeyError
  end.

(** Code that prints: the lines printed so far, in order, and the
    outcome.  A raise ends the printing and keeps what was printed. *)
Definition printing (A : Type) : Type := list string * result A.

Definition print (s : string) : printing unit := ([s], Ok tt).

Definition silent {A : Type} (r : result A) : printing A := ([], r).

Definition and_then {A B : Type} (c : printing A) (k : A -> printing B)
  : printing B :=
  match snd c with
  | Ok a => (fst c ++ fst (k a), snd (k a))%list
  | Raise e => (fst c, Raise e)
  end.

Notation "x <~ c1 ;; c2" := (and_then c1 (fun x => c2))
  (at level 61, c1 at next level, right associativity).

Notation "c1 >> c2" := (and_then c1 (fun _ => c2))
  (at level 61, right associativity).

Section Presentation.

Context {rt : Runtime}.

(** [f"{v}"]: text prints as it is and a float as [float_str] gives it;
    any other value goes through [str]. *)
Definition fmt (v : pyval) : result string :=
  match v with
  | PyStr s => Ok s
  | PyFloat f => Ok (float_str f)
  | _ => py_str v
  end.

Definition section_header (title : string) : string :=
  LF ++ BOLD ++ CYAN ++ "[ " ++ title ++ " ]" ++ RESET.

(** The loop of [print_section]: one line for each entry. *)
Fixpoint print_entries (data : Dict.t pyval) : printing unit :=
  match data with
  | [] => silent (Ok tt)
  | (key, val) :: rest =>
      s <~ silent (fmt val) ;;
      print ("  " ++ DIM ++ key_column key ++ RESET ++ " " ++ s) >>
      print_entries rest
  end.

(** [print_section(title, data)] *)
Definition print_section (title : string) (data : Dict.t pyval) : printing unit :=
  if negb (Dict.truthy data) then silent (Ok tt)
  else print (section_header title) >> print_entries data.

Definition rule : string := BOLD ++ repeat_char "=" 60 ++ RESET.

(** The truth value of [meta["gps"]]: [None] and an empty block are false. *)
Definition gps_truthy (g : option (Dict.t pyval)) : bool :=
  match g with
  | Some block => Dict.truthy block
  | None => false
  end.

(** Lines 168 to 179 of [print_report]: the GPS section. *)
Definition print_gps (g : option (Dict.t pyval)) : printing unit :=
  if gps_truthy g then
    let gps := match g with Some block => block | None => [] end in
    print (section_header "GPS Location") >>
    (if Dict.mem (KStr "latitude") gps then
       latitude <~ silent (v <- getkey "latitude" gps ;; fmt v) ;;
       print ("  " ++ ljust 25 "Latitude" ++ " " ++ latitude) >>
       longitude <~ silent (v <- getkey "longitude" gps ;; fmt v) ;;
       print ("  " ++ ljust 25 "Longitude" ++ " " ++ longitude) >>
       maps_url <~ silent (v <- getkey "maps_url" gps ;; fmt v) ;;
       print ("  " ++ GREEN ++ ljust 25 "Google Maps" ++ " " ++ maps_url ++ RESET)
     else silent (Ok tt)) >>
    (if Dict.mem (KStr "altitude_meters") gps then
       altitude <~ silent (v <- getkey "altitude_meters" gps ;; fmt v) ;;
       print ("  " ++ ljust 25 "Altitude (m)" ++ " " ++ altitude)
     else silent (Ok tt))
  else
    print (section_header "GPS Location") >>
    print ("  " ++ YELLOW ++ "No GPS data found." ++ RESET).

(** [print_report(meta)] *)
Definition print_report (meta : report) : printing unit :=
  print (LF ++ rule) >>
  print (BOLD ++ CYAN ++ "  EXIF METADATA REPORT" ++ RESET) >>
  print rule >>
  let f := file meta in
  print (section_header "File Info") >>
  print ("  " ++ ljust 25 "Filename" ++ " " ++ filename f) >>
  print ("  " ++ ljust 25 "Path" ++ " " ++ path f) >>
  print ("  " ++ ljust 25 "Size" ++ " " ++ float_str (size_kb f) ++ " KB") >>
  print_gps (gps meta) >>
  print_section "Device / Camera" (device meta) >>
  print_section "Date & Time" (datetime meta) >>
  print_section "Image Settings" (image meta) >>
  (if Dict.truthy (other meta)
   then print_section "Other Metadata" (other meta)
   else silent (Ok tt)) >>
  print (LF ++ rule ++ LF).

(** The lines a section takes when it prints: none for an empty block,
    the header and one line for each entry otherwise. *)
Definition section_size (data : Dict.t pyval) : nat :=
  match data with
  | [] => 0%nat
  | _ :: _ => S (List.length data)
  end.

(** The lines of the GPS section. *)
Definition gps_size (g : option (Dict.t pyval)) : nat :=
  if gps_truthy g then
    let gps := match g with Some block => block | None => [] end in
    (1 + (if Dict.mem (KStr "latitude") gps then 3 else 0)
       + (if Dict.mem (KStr "altitude_meters") gps then 1 else 0))%nat
  else 2%nat.

End Presentation.

(** ** The command line *)

(** What a run does to the outside, in order. *)
Inductive event : Type :=
| Print (s : string)                 (* a line written by [print] *)
| Prompt (s : string)                (* the prompt [input] writes before it reads *)
| WriteFile (name content : string). (* a file created with this content *)

(** How a run ends: [main] returns, or an exception escapes it;
    [input] raises [EOFError] when there is no line left to read. *)
Inductive ending : Type :=
| Returned
| Raised (e : exc)
| RaisedEOF.

(** Events first, then what follows them. *)
Definition after (pre : list event) (c : list event * ending)
  : list event * ending :=
  ((pre ++ fst c)%list, snd c).

(** The banner of lines 201 to 208.  Its block characters lie beyond the
    code points below 256 and stand as their UTF-8 bytes; the lines are
    printed and never examined. *)
Definition banner : list string :=
  [BOLD ++ CYAN;
   "  ███████╗██╗  ██╗██╗███████╗";
   "  ██╔════╝╚██╗██╔╝██║██╔════╝";
   "  █████╗   ╚███╔╝ ██║█████╗  ";
   "  ██╔══╝   ██╔██╗ ██║██╔══╝  ";
   "  ███████╗██╔╝ ██╗██║██║     ";
   "  ╚══════╝╚═╝  ╚═╝╚═╝╚═╝     ";
   "  Metadata Extractor v1.0" ++ RESET ++ LF].

Section CommandLine.

Context {rt : Runtime}.

(** The surroundings of a run: the text of the current time in the
    format [%Y-%m-%d_%H-%M-%S], the text [json.dump] writes for a report
    with [indent=2] and [default=str], and whether a file of a given name
    can be opened for writing in the current directory. *)
Variable now : string.
Variable json_dump : report -> string.
Variable open_for_writing : string -> result unit.

(** [save_report(meta)] *)
Definition save_report (meta : report) : list event * ending :=
  let name := filename (file meta) ++ "_metadata_" ++ now ++ ".json" in
  match open_for_writing name with
  | Raise e => ([], Raised e)
  | Ok _ =>
      ([WriteFile name (json_dump meta);
        Print (GREEN ++ "Report saved to: " ++ name ++ RESET ++ LF)],
       Returned)
  end.

(** Lines 210 to 213 of [main]: the path is the first argument when
    there is one, and else the line typed at the prompt, stripped.  Gives
    the events, the path, and the lines still to be read. *)
Definition choose_path (argv stdin : list string)
  : list event * option (string * list string) :=
  match argv with
  | _ :: image_path :: _ => ([], Some (image_path, stdin))
  | _ =>
      ([Prompt (BOLD ++ "Enter path to image file:" ++ RESET ++ " ")],
       match stdin with
       | line :: rest => Some (strip line, rest)
       | [] => None
       end)
  end.

(** Lines 223 to 225 of [main]: the question and what follows it. *)
Definition ask_to_save (meta : report) (stdin : list string)
  : list event * ending :=
  after [Prompt "Save report as JSON? (y/n): "]
    match stdin with
    | line :: _ =>
        if String.eqb (lower (strip line)) "y" then save_report meta
        else ([], Returned)
    | [] => ([], RaisedEOF)
    end.

(** Lines 219 to 225 of [main]: the analysis of a path. *)
Definition analyse (fs : filesystem) (image_path : string) (stdin : list string)
  : list event * ending :=
  after [Print (LF ++ CYAN ++ "Analyzing: " ++ image_path ++ RESET)]
    (let '(messages, r) := extract_metadata fs image_path in
     after (map Print messages)
       match r with
       | Raise e => ([], Raised e)
       | Ok meta =>
           let '(lines, printed) := print_report meta in
           after (map Print lines)
             match printed with
             | Raise e => ([], Raised e)
             | Ok _ => ask_to_save meta stdin
             end
       end).

(** [main()], given the file system, [sys.argv] and the lines typed. *)
Definition main (fs : filesystem) (argv stdin : list string)
  : list event * ending :=
  after (map Print banner)
    (let '(asked, chosen) := choose_path argv stdin in
     after asked
       match chosen with
       | None => ([], RaisedEOF)
       | Some (image_path, stdin) =>
           if String.eqb image_path ""
           then ([Print (RED ++ "No file provided. Exiting." ++ RESET)], Returned)
           else analyse fs image_path stdin
       end).

End CommandLine.

(** ** Notions used in the statements *)

(** The entries of a directory under their resolved keys, in order. *)
Definition renamed (table : Z -> option string) (items : Dict.t pyval)
  : Dict.t pyval :=
  map (fun kv => (Dict.resolve table (fst kv), snd kv)) items.

(** The value a key holds after the assignments [d[k] = v] listed in
    [entries] were made in order: that of the last one for this key. *)
Definition last_assigned (k : pykey) (entries : Dict.t pyval) : option pyval :=
  Dict.get k (rev entries).

(** The five fields of the renamed GPS directory that [extract_gps] reads. *)
Definition gps_fields : list string :=
  ["GPSLatitude"; "GPSLatitudeRef"; "GPSLongitude"; "GPSLongitudeRef";
   "GPSAltitude"].

(** The first and the last character of a text are whitespace. *)
Definition starts_with_space (s : string) : bool :=
  match s with
  | String c _ => is_space c
  | EmptyString => false
  end.

Fixpoint ends_with_space (s : string) : bool :=
  match s with
  | EmptyString => false
  | String c EmptyString => is_space c
  | String _ rest => ends_with_space rest
  end.

(** A number that is zero: the integer 0, a float zero, or a rational
    with numerator 0 and a denominator that is not 0. *)
Definition zero_number (v : pyval) : bool :=
  match v with
  | PyInt z => Z.eqb z 0
  | PyFloat f => negb (F64.truthy f)
  | PyRational n d => negb (Z.eqb d 0) && Z.eqb n 0
  | _ => false
  end.

(** A value an f-string prints without calling [str]: text or a float. *)
Definition printable (v : pyval) : bool :=
  match v with
  | PyStr _ | PyFloat _ => true
  | _ => false
  end.

Section Initial.

Context {rt : Runtime}.

(** The report of lines 92 to 103, before the classification. *)
Definition initial (image_path : string) (kb : float) : report :=
  {| file := {| path := abspath image_path;
                filename := basename image_path;
                size_kb := F64.round kb 2 |};
     gps := None; device := []; datetime := []; image := []; other := [] |}.

End Initial.

(** ** A sample runtime, for running the model on examples *)

Module Sample.

(** [10^t <= n / d], for positive [n] and [d]. *)
Definition pow10_le (t n d : Z) : bool :=
  if Z.leb 0 t then Z.leb (10 ^ t * d) n else Z.leb d (n * 10 ^ (- t)).

Fixpoint adjust_up (fuel : nat) (t n d : Z) : Z :=
  match fuel with
  | O => t
  | S fuel' => if pow10_le (t + 1) n d then adjust_up fuel' (t + 1) n d else t
  end.

(** The decimal exponent of [n / d]: the largest [t] with [10^t <= n/d]. *)
Definition decimal_exponent (n d : Z) : Z :=
  let guess := ((Z.log2 n - Z.log2 d - 1) * 30102) / 100000 - 1 in
  adjust_up 8 guess n d.

(** [n / d] rounded (half to even) to a multiple of [10^p], as the
    multiplier. *)
Definition round_at (n d p : Z) : Z :=
  if Z.leb 0 p then F64.round_half_even n (d * 10 ^ p)
  else F64.round_half_even (n * 10 ^ (- p)) d.

(** The float nearest to [q * 10^p]. *)
Definition read_back (s : bool) (q p : Z) : float :=
  match q with
  | Zpos q' =>
      if Z.leb 0 p then F64.nearest s (Z.to_pos (Zpos q' * 10 ^ p)) 1
      else F64.nearest s q' (Z.to_pos (10 ^ (- p)))
  | _ => S754_zero s
  end.

Definition same_float (a b : float) : bool :=
  match a, b with
  | S754_finite s m e, S754_finite s' m' e' =>
      Bool.eqb s s' && Pos.eqb m m' && Z.eqb e e'
  | _, _ => false
  end.

(** [n / d] truncated to a multiple of [10^p], as the multiplier. *)
Definition floor_at (n d p : Z) : Z :=
  if Z.leb 0 p then n / (d * 10 ^ p) else (n * 10 ^ (- p)) / d.

(** The first of the candidates that reads back as [x]. *)
Fixpoint first_exact (x : float) (s : bool) (p : Z) (cands : list Z) : option Z :=
  match cands with
  | [] => None
  | q :: rest =>
      if same_float (read_back s q p) x then Some q else first_exact x s p rest
  end.

(** The shortest digits that read back as [x]: tries [k], [k+1], ...
    significant digits, the nearest decimal first and then its two
    neighbours; returns the digits as an integer and the power of ten
    they are multiplied by. *)
Fixpoint shortest (fuel : nat) (k : Z) (x : float) (s : bool) (n d t : Z) : Z * Z :=
  let p := t - (k - 1) in
  let q := round_at n d p in
  let f := floor_at n d p in
  match fuel with
  | O => (q, p)
  | S fuel' =>
      match first_exact x s p [q; f; f + 1] with
      | Some q' => (q', p)
      | None => shortest fuel' (k + 1) x s n d t
      end
  end.

Fixpoint strip_zeros (fuel : nat) (q : Z) : Z :=
  match fuel with
  | O => q
  | S fuel' => if Z.eqb (q mod 10) 0 && negb (Z.eqb q 0) then strip_zeros fuel' (q / 10) else q
  end.

Definition digits (q : Z) : string :=
  NilZero.string_of_uint (N.to_uint (Z.to_N q)).

Fixpoint zeros (n : nat) : string :=
  match n with
  | O => ""
  | S n' => "0" ++ zeros n'
  end.

(** The text of the digits [ds] with the decimal point after [decpt]
    digits, the way [repr] lays a float out. *)
Definition layout (ds : string) (decpt : Z) : string :=
  let len := Z.of_nat (String.length ds) in
  if Z.leb decpt (-4) || Z.ltb 16 decpt then
    let mant :=
      match ds with
      | String c EmptyString => ds
      | String c rest => String c ("." ++ rest)
      | EmptyString => ds
      end in
    let e := decpt - 1 in
    let es := digits (Z.abs e) in
    mant ++ "e" ++ (if Z.ltb e 0 then "-" else "+")
         ++ (if Z.ltb (Z.abs e) 10 then "0" else "") ++ es
  else if Z.leb decpt 0 then
    "0." ++ zeros (Z.to_nat (- decpt)) ++ ds
  else if Z.leb len decpt then
    ds ++ zeros (Z.to_nat (decpt - len)) ++ ".0"
  else
    substring 0 (Z.to_nat decpt) ds ++ "."
      ++ substring (Z.to_nat decpt) (Z.to_nat (len - decpt)) ds.

(** The text of a float: the shortest decimal that reads back as the
    same float. *)
Definition float_text (x : float) : string :=
  match x with
  | S754_nan => "nan"
  | S754_infinity s => if s then "-inf" else "inf"
  | S754_zero s => if s then "-0.0" else "0.0"
  | S754_finite s m e =>
      let n := match e with Zneg _ => Zpos m | _ => Zpos m * 2 ^ e end in
      let d := match e with Zneg k => 2 ^ Zpos k | _ => 1 end in
      let t := decimal_exponent n d in
      let '(q, p) := shortest 17 1 x s n d t in
      let ds := digits q in
      (if s then "-" else "")
        ++ layout (digits (strip_zeros 20 q)) (p + Z.of_nat (String.length ds))
  end.

Definition int_text (z : Z) : string := NilZero.string_of_int (Z.to_int z).

Definition quoted (s : string) : string := "'" ++ s ++ "'".

Definition key_text (k : pykey) : string :=
  match k with
  | KStr s => quoted s
  | KInt i => int_text i
  end.

(** [repr(v)], for text and bytes that need no escapes; a rational
    prints as the float it converts to. *)
Fixpoint repr_text (v : pyval) : result string :=
  match v with
  | PyNone => Ok "None"
  | PyInt z => Ok (int_text z)
  | PyFloat f => Ok (float_text f)
  | PyStr s => Ok (quoted s)
  | PyBytes b => Ok ("b" ++ quoted b)
  | PyRational n d =>
      if Z.eqb d 0 then Ok "nan"
      else f <- int_truediv n d ;; Ok (float_text f)
  | PyTuple items =>
      match items with
      | [] => Ok "()"
      | [x] => a <- repr_text x ;; Ok ("(" ++ a ++ ",)")
      | x :: rest =>
          a <- repr_text x ;;
          b <- (fix tail (l : list pyval) : result string :=
                  match l with
                  | [] => Ok ""
                  | y :: l' =>
                      c <- repr_text y ;; r <- tail l' ;; Ok (", " ++ c ++ r)
                  end) rest ;;
          Ok ("(" ++ a ++ b ++ ")")
      end
  | PyDict items =>
      match items with
      | [] => Ok "{}"
      | (k, x) :: rest =>
          a <- repr_text x ;;
          b <- (fix tail (l : list (pykey * pyval)) : result string :=
                  match l with
                  | [] => Ok ""
                  | (k', y) :: l' =>
                      c <- repr_text y ;; r <- tail l' ;;
                      Ok (", " ++ key_text k' ++ ": " ++ c ++ r)
                  end) rest ;;
          Ok ("{" ++ key_text k ++ ": " ++ a ++ b ++ "}")
      end
  end.

(** [str(v)] *)
Definition str_text (v : pyval) : result string :=
  match v with
  | PyStr s => Ok s
  | _ => repr_text v
  end.

Definition digit_value (c : ascii) : option Z :=
  let n := nat_of_ascii c in
  if Nat.leb 48 n && Nat.leb n 57 then Some (Z.of_nat (n - 48)) else None.

(** Reads digits: the number read so far and the count of digits. *)
Fixpoint read_digits (s : string) (acc : Z) (count : Z) : option (Z * Z * string) :=
  match s with
  | EmptyString => Some (acc, count, s)
  | String c rest =>
      match digit_value c with
      | Some dv => read_digits rest (10 * acc + dv) (count + 1)
      | None => Some (acc, count, s)
      end
  end.

(** [float(s)] for a plain decimal literal: an optional sign, digits and
    an optional fraction.  Other spellings that the interpreter reads
    (exponents, [inf], [nan], padding) are not covered and yield [None]. *)
Definition parse_decimal (s : string) : option float :=
  let '(neg, body) :=
    match s with
    | String "-" rest => (true, rest)
    | String "+" rest => (false, rest)
    | _ => (false, s)
    end in
  match read_digits body 0 0 with
  | Some (ip, ic, rest) =>
      let finish (num : Z) (den : Z) :=
        match num with
        | Zpos p => Some (F64.nearest neg p (Z.to_pos den))
        | _ => Some (S754_zero neg)
        end in
      match rest with
      | EmptyString => if Z.eqb ic 0 then None else finish ip 1
      | String "." frac =>
          match read_digits frac ip 0 with
          | Some (num, fc, EmptyString) =>
              if Z.eqb (ic + fc) 0 then None else finish num (10 ^ fc)
          | _ => None
          end
      | _ => None
      end
  | None => None
  end.

(** Some entries of [PIL.ExifTags.TAGS]. *)
Definition tag_name (i : Z) : option string :=
  match i with
  | 271 => Some "Make"
  | 272 => Some "Model"
  | 274 => Some "Orientation"
  | 305 => Some "Software"
  | 306 => Some "DateTime"
  | 33434 => Some "ExposureTime"
  | 33437 => Some "FNumber"
  | 34853 => Some "GPSInfo"
  | 34855 => Some "ISOSpeedRatings"
  | 36867 => Some "DateTimeOriginal"
  | 36868 => Some "DateTimeDigitized"
  | 37385 => Some "Flash"
  | 37386 => Some "FocalLength"
  | 37500 => Some "MakerNote"
  | 37510 => Some "UserComment"
  | 40962 => Some "ExifImageWidth"
  | 40963 => Some "ExifImageHeight"
  | 41986 => Some "ExposureMode"
  | 41987 => Some "WhiteBalance"
  | 42035 => Some "LensMake"
  | 42036 => Some "LensModel"
  | _ => None
  end.

(** The part of a path after its last slash. *)
Fixpoint last_component (s : string) (acc : string) : string :=
  match s with
  | EmptyString => acc
  | String c rest =>
      if Ascii.eqb c "/" then last_component rest ""
      else last_component rest (acc ++ String c EmptyString)
  end.

(** A path made absolute from the root directory. *)
Definition from_root (s : string) : string :=
  match s with
  | String "/" _ => s
  | _ => "/" ++ s
  end.

Definition runtime : Runtime := {|
  py_str := str_text;
  float_str := float_text;
  parse_float := parse_decimal;
  float_of_zero_denominator := Ok F64.nan;
  TAGS := tag_name;
  abspath := from_root;
  basename := fun s => last_component s ""
|}.

End Sample.

(** ** Sample inputs *)

Module Inputs.

(** A degrees/minutes/seconds triplet of rationals, as the decoder gives it. *)
Definition dms (d m s : Z) : pyval :=
  PyTuple [PyRational d 1; PyRational m 1; PyRational s 1].

(** The GPS directory of the scenario: 40 deg 26 min 46 s N, 73 deg 59 min 11 s W. *)
Definition gps_dir : Dict.t pyval :=
  [(KInt 1, PyStr "N"); (KInt 2, dms 40 26 46);
   (KInt 3, PyStr "W"); (KInt 4, dms 73 59 11)].

Definition exif_with_gps : Dict.t pyval :=
  [(KStr "Make", PyStr "Canon"); (KStr "GPSInfo", PyDict gps_dir)].

(** The scenario without GPS data. *)
Definition exif_canon : Dict.t pyval :=
  [(KStr "Make", PyStr "Canon"); (KStr "Model", PyStr "EOS 5D")].

(** A tag map with one tag of each kind. *)
Definition exif_mixed : Dict.t pyval :=
  [(KStr "Make", PyStr " Canon "); (KStr "DateTime", PyStr "2024:01:02 03:04:05");
   (KStr "FNumber", PyRational 28 10); (KStr "Flash", PyStr "off");
   (KStr "MakerNote", PyBytes "xyz"); (KInt 59932, PyInt 7);
   (KStr "Copyright", PyStr "me")].

(** A triplet whose parts are (numerator, denominator) pairs, the form
    in which older decoders hand rationals over; [float] rejects a pair. *)
Definition dms_pairs (d m s : Z) : pyval :=
  PyTuple [PyTuple [PyInt d; PyInt 1]; PyTuple [PyInt m; PyInt 1];
           PyTuple [PyInt s; PyInt 1]].




(** An altitude of zero metres: sea level. *)
Definition exif_sea_level : Dict.t pyval :=
  [(KStr "GPSInfo", PyDict [(KInt 5, PyBytes "0"); (KInt 6, PyRational 0 1)])].

(** Sea level, with coordinates. *)
Definition exif_sea_level_located : Dict.t pyval :=
  [(KStr "GPSInfo", PyDict (gps_dir ++ [(KInt 6, PyRational 0 1)]))].

(** An altitude alone. *)
Definition exif_altitude_only : Dict.t pyval :=
  [(KStr "GPSInfo", PyDict [(KInt 6, PyRational 123456 1000)])].

(** A latitude written with signed degrees and the reference "N". *)
Definition dms_signed : pyval :=
  PyTuple [PyRational (-10) 1; PyRational 30 1; PyRational 0 1].

Definition empty_report : report :=
  {| file := {| path := "/a.jpg"; filename := "a.jpg"; size_kb := F64.zero |};
     gps := None; device := []; datetime := []; image := []; other := [] |}.

End Inputs.

(** ** More sample inputs *)

Module Cases.

(** A GPS entry that is an offset into the file, not a directory. *)
Definition exif_offset : Dict.t pyval := [(KStr "GPSInfo", PyInt 8190)].

(** The scenario's position at 100 m, above and below sea level: the
    directories differ in [GPSAltitudeRef] only. *)
Definition gps_above : Dict.t pyval :=
  (Inputs.gps_dir ++ [(KInt 5, PyBytes "0"); (KInt 6, PyRational 100 1)])%list.

Definition gps_below : Dict.t pyval :=
  (Inputs.gps_dir ++ [(KInt 5, PyBytes "1"); (KInt 6, PyRational 100 1)])%list.

Definition exif_above : Dict.t pyval := [(KStr "GPSInfo", PyDict gps_above)].
Definition exif_below : Dict.t pyval := [(KStr "GPSInfo", PyDict gps_below)].

(** The no-break space U+00A0. *)
Definition nbsp : string := String (ascii_of_nat 160) EmptyString.

(** A decoded directory, keyed by tag ids; 59932 has no name, and the
    maker ends with a no-break space. *)
Definition raw_tags : Dict.t pyval :=
  [(KInt 271, PyStr (" Canon" ++ nbsp)); (KInt 59932, PyInt 7);
   (KInt 306, PyStr "2024:01:02 03:04:05"); (KInt 37500, PyBytes "xyz")].

(** The same with a GPS directory whose latitude parts are pairs. *)
Definition raw_bad_gps : Dict.t pyval :=
  [(KInt 271, PyStr "Canon");
   (KInt 34853,
    PyDict [(KInt 1, PyStr "N"); (KInt 2, Inputs.dms_pairs 40 26 46);
            (KInt 3, PyStr "W"); (KInt 4, Inputs.dms 73 59 11)])].


(** A maker that is a rational too large for a float: its [str] raises. *)
Definition raw_huge : Dict.t pyval := [(KInt 271, PyRational (10 ^ 400) 1)].

Definition image_with (raw : Dict.t pyval) : filesystem :=
  fun _ => ImageFile 2048 (ExifTags raw).

(** A hand-made report whose GPS block has a latitude alone. *)
Definition report_latitude_only : report :=
  {| file := {| path := "/a.jpg"; filename := "a.jpg"; size_kb := F64.of_Z 2 |};
     gps := Some [(KStr "latitude", PyFloat (F64.of_Z 40))];
     device := []; datetime := []; image := []; other := [] |}.

End Cases.

(** ** A sample desk: the surroundings of a run, for examples *)

Module Desk.

Definition now : string := "2024-01-02_03-04-05".

Definition quote : string := String (ascii_of_nat 34) EmptyString.

Definition hex_digit (n : nat) : ascii :=
  nth n (list_ascii_of_string "0123456789abcdef") "0"%char.

(** A character inside a JSON string, as [json] writes it when it
    escapes everything that is not printable ASCII. *)
Definition json_char (c : ascii) : string :=
  let n := nat_of_ascii c in
  if Nat.eqb n 34 then "\" ++ quote
  else if Nat.eqb n 92 then "\\"
  else if Nat.eqb n 10 then "\n"
  else if Nat.eqb n 13 then "\r"
  else if Nat.eqb n 9 then "\t"
  else if Nat.eqb n 8 then "\b"
  else if Nat.eqb n 12 then "\f"
  else if andb (Nat.leb 32 n) (Nat.leb n 126) then String c EmptyString
  else "\u00" ++ String (hex_digit (n / 16))
                   (String (hex_digit (n mod 16)) EmptyString).

Fixpoint json_escape (s : string) : string :=
  match s with
  | EmptyString => EmptyString
  | String c rest => json_char c ++ json_escape rest
  end.

Definition json_string (s : string) : string :=
  quote ++ json_escape s ++ quote.

Definition json_float (f : float) : string :=
  match f with
  | S754_nan => "NaN"
  | S754_infinity false => "Infinity"
  | S754_infinity true => "-Infinity"
  | _ => Sample.float_text f
  end.

Definition json_key (k : pykey) : string :=
  match k with
  | KStr s => json_string s
  | KInt i => quote ++ Sample.int_text i ++ quote
  end.

Definition indent (level : nat) : string := repeat_char " " (2 * level).

(** A JSON object or array from the texts of its items, with [indent=2]. *)
Definition json_block (opening closing : string) (level : nat)
           (items : list string) : string :=
  match items with
  | [] => opening ++ closing
  | _ :: _ =>
      opening ++ LF ++ indent (S level)
      ++ String.concat ("," ++ LF ++ indent (S level)) items
      ++ LF ++ indent level ++ closing
  end.

(** The JSON text of a value at a nesting level; bytes and rationals go
    through [default=str]. *)
Fixpoint json_value (level : nat) (v : pyval) : string :=
  match v with
  | PyNone => "null"
  | PyInt z => Sample.int_text z
  | PyFloat f => json_float f
  | PyStr s => json_string s
  | PyBytes _ | PyRational _ _ =>
      match Sample.str_text v with
      | Ok s => json_string s
      | Raise _ => "null"
      end
  | PyTuple items => json_block "[" "]" level (map (json_value (S level)) items)
  | PyDict items =>
      json_block "{" "}" level
        (map (fun '(k, x) => json_key k ++ ": " ++ json_value (S level) x) items)
  end.

Definition json_member (level : nat) (name : string) (v : pyval) : string :=
  json_string name ++ ": " ++ json_value level v.

(** [json.dumps(meta, indent=2, default=str)] *)
Definition json_dump (meta : report) : string :=
  json_block "{" "}" 0
    [json_string "file" ++ ": "
     ++ json_block "{" "}" 1
          [json_member 2 "path" (PyStr (path (file meta)));
           json_member 2 "filename" (PyStr (filename (file meta)));
           json_member 2 "size_kb" (PyFloat (size_kb (file meta)))];
     json_member 1 "gps"
       match gps meta with
       | Some g => PyDict g
       | None => PyNone
       end;
     json_member 1 "device" (PyDict (device meta));
     json_member 1 "datetime" (PyDict (datetime meta));
     json_member 1 "image" (PyDict (image meta));
     json_member 1 "other" (PyDict (other meta))].

(** Every file can be created. *)
Definition open_for_writing (name : string) : result unit := Ok tt.

(** One image with the tags of [Inputs.exif_mixed] and nothing else. *)
Definition fs : filesystem :=
  fun p =>
    if String.eqb p "a.jpg" then ImageFile 2048 (ExifTags Inputs.exif_mixed)
    else Missing.

(** The report of that image. *)
Definition report_a : report :=
  {| file := {| path := "/a.jpg"; filename := "a.jpg"; size_kb := F64.of_Z 2 |};
     gps := None;
     device := [(KStr "Make", PyStr "Canon")];
     datetime := [(KStr "DateTime", PyStr "2024:01:02 03:04:05")];
     image := [(KStr "Flash", PyStr "off");
               (KStr "FNumber", PyFloat (F64.nearest false 28 10))];
     other := [(KInt 59932, PyStr "7"); (KStr "Copyright", PyStr "me")] |}.

End Desk.

(** * Facts about the float operations *)

Section FloatFacts.

Lemma shr_1_nonneg (mrs : shr_record) :
  0 <= shr_m mrs -> 0 <= shr_m (shr_1 mrs).
Proof.
  destruct mrs as [m r s]; simpl; intros H.
  destruct m as [|p|p]; [simpl; lia | | lia].
  destruct p; simpl; lia.
Qed.

Lemma iter_pos_preserves {A : Type} (P : A -> Prop) (f : A -> A) :
  (forall a, P a -> P (f a)) ->
  forall n a, P a -> P (iter_pos f n a).
Proof.
  intros Hf n; induction n as [n IH | n IH |]; intros a Ha; simpl; auto.
Qed.

Lemma shr_nonneg (mrs : shr_record) (e n : Z) :
  0 <= shr_m mrs -> 0 <= shr_m (fst (shr mrs e n)).
Proof.
  intros H; unfold shr; destruct n; simpl; auto.
  apply (iter_pos_preserves (fun r => 0 <= shr_m r)); auto using shr_1_nonneg.
Qed.

Lemma shr_record_of_loc_m (m : Z) (l : location) :
  shr_m (shr_record_of_loc m l) = m.
Proof. destruct l as [|[| |]]; reflexivity. Qed.

Lemma shr_fexp_nonneg (m e : Z) (l : location) :
  0 <= m -> 0 <= shr_m (fst (shr_fexp F64.prec F64.emax m e l)).
Proof.
  intros H; unfold shr_fexp; apply shr_nonneg.
  now rewrite shr_record_of_loc_m.
Qed.

Lemma round_nearest_even_nonneg (m : Z) (l : location) :
  0 <= m -> 0 <= round_nearest_even m l.
Proof.
  intros H; destruct l as [|[| |]]; simpl; try lia.
  destruct (Z.even m); lia.
Qed.

(** Rounding a non-negative mantissa gives a number of the sign asked for. *)
Lemma binary_round_aux_sign (s : bool) (m e : Z) (l : location) :
  0 <= m -> F64.has_sign s (binary_round_aux F64.prec F64.emax s m e l) = true.
Proof.
  intros H; unfold binary_round_aux.
  pose proof (shr_fexp_nonneg m e l H) as H1.
  destruct (shr_fexp F64.prec F64.emax m e l) as [mrs' e'] eqn:E1; simpl in H1.
  pose proof (round_nearest_even_nonneg (shr_m mrs') (loc_of_shr_record mrs') H1) as H2.
  pose proof (shr_fexp_nonneg _ e' loc_Exact H2) as H3.
  destruct (shr_fexp F64.prec F64.emax (round_nearest_even _ _) e' loc_Exact)
    as [mrs'' e''] eqn:E2; simpl in H3.
  destruct (shr_m mrs'') as [|p|p]; [| | lia].
  - simpl; apply eqb_reflx.
  - destruct (Z.leb e'' (F64.emax - F64.prec)); simpl; apply eqb_reflx.
Qed.

(** The sign given to the rounding is the only place it is used. *)
Lemma binary_round_aux_opp (s : bool) (m e : Z) (l : location) :
  binary_round_aux F64.prec F64.emax (negb s) m e l
  = SFopp (binary_round_aux F64.prec F64.emax s m e l).
Proof.
  unfold binary_round_aux.
  destruct (shr_fexp F64.prec F64.emax m e l) as [mrs' e'].
  destruct (shr_fexp F64.prec F64.emax (round_nearest_even _ _) e' loc_Exact)
    as [mrs'' e''].
  destruct (shr_m mrs''); simpl; auto.
  match goal with |- context [Z.leb ?a ?b] => destruct (Z.leb a b) end; reflexivity.
Qed.

Lemma div_core_nonneg (m1 : positive) (e1 : Z) (m2 : positive) (e2 : Z) :
  0 <= fst (fst (SFdiv_core_binary F64.prec F64.emax (Zpos m1) e1 (Zpos m2) e2)).
Proof.
  unfold SFdiv_core_binary.
  set (s := e1 - e2 - _).
  set (m' := match s with Z0 => _ | Zpos _ => _ | Zneg _ => _ end).
  assert (Hm : 0 <= m').
  { subst m'; destruct s; try lia. apply Z.shiftl_nonneg; lia. }
  pose proof (Z_div_mod m' (Zpos m2) eq_refl) as Hd.
  destruct (Z.div_eucl m' (Zpos m2)) as [q r]; simpl.
  destruct Hd as [Heq Hr]. nia.
Qed.

Lemma div_finite_sign (sx : bool) (mx : positive) (ex : Z)
      (sy : bool) (my : positive) (ey : Z) :
  F64.has_sign (xorb sx sy)
    (F64.div (S754_finite sx mx ex) (S754_finite sy my ey)) = true.
Proof.
  unfold F64.div, SFdiv.
  pose proof (div_core_nonneg mx ex my ey) as H.
  destruct (SFdiv_core_binary _ _ _ _ _ _) as [[mz ez] lz]; simpl in H.
  now apply binary_round_aux_sign.
Qed.

Lemma nearest_sign (s : bool) (n d : positive) :
  F64.has_sign s (F64.nearest s n d) = true.
Proof.
  unfold F64.nearest.
  pose proof (div_finite_sign s n 0 false d 0) as H.
  now rewrite xorb_false_r in H.
Qed.

Lemma nearest_opp (s : bool) (n d : positive) :
  F64.nearest (negb s) n d = F64.neg (F64.nearest s n d).
Proof.
  unfold F64.nearest, F64.neg, SFdiv.
  destruct (SFdiv_core_binary _ _ _ _ _ _) as [[mz ez] lz].
  rewrite !xorb_false_r. apply binary_round_aux_opp.
Qed.

(** Rounding to decimal places commutes with negation. *)
Lemma round_neg (x : float) (ndigits : Z) :
  F64.round (F64.neg x) ndigits = F64.neg (F64.round x ndigits).
Proof.
  destruct x as [s | s | | s m e]; simpl; try reflexivity.
  destruct (F64.scaled_digits m e ndigits); try reflexivity.
  apply nearest_opp.
Qed.

Lemma round_sign (s : bool) (x : float) (ndigits : Z) :
  F64.has_sign s x = true -> F64.has_sign s (F64.round x ndigits) = true.
Proof.
  destruct x as [s' | s' | | s' m e]; simpl; auto.
  intros H; apply eqb_prop in H; subst s'.
  destruct (F64.scaled_digits m e ndigits); simpl; try apply eqb_reflx.
  apply nearest_sign.
Qed.

Lemma nonneg_cases (x : float) :
  F64.nonneg x =
  match x with
  | S754_zero _ => true
  | S754_nan => false
  | S754_infinity s | S754_finite s _ _ => negb s
  end.
Proof. destruct x as [[]|[]| |[] m e]; reflexivity. Qed.

Lemma nonpos_cases (x : float) :
  F64.nonpos x =
  match x with
  | S754_zero _ => true
  | S754_nan => false
  | S754_infinity s | S754_finite s _ _ => s
  end.
Proof. destruct x as [[]|[]| |[] m e]; reflexivity. Qed.

Lemma negative_cases (x : float) :
  F64.negative x =
  match x with
  | S754_zero _ | S754_nan => false
  | S754_infinity s | S754_finite s _ _ => s
  end.
Proof. destruct x as [[]|[]| |[] m e]; reflexivity. Qed.

Lemma has_sign_nonneg (x : float) :
  F64.has_sign false x = true -> F64.nonneg x = true.
Proof.
  rewrite nonneg_cases; destruct x as [s|s| |s m e]; simpl; auto;
    destruct s; auto.
Qed.

Lemma has_sign_nonpos (x : float) :
  F64.has_sign true x = true -> F64.nonpos x = true.
Proof.
  rewrite nonpos_cases; destruct x as [s|s| |s m e]; simpl; auto;
    destruct s; auto.
Qed.

Lemma round_nonneg (x : float) (ndigits : Z) :
  F64.nonneg x = true -> F64.nonneg (F64.round x ndigits) = true.
Proof.
  destruct x as [s|s| |s m e]; auto.
  rewrite nonneg_cases; intros H; apply negb_true_iff in H; subst s.
  apply has_sign_nonneg, round_sign; reflexivity.
Qed.

Lemma round_nonpos (x : float) (ndigits : Z) :
  F64.nonpos x = true -> F64.nonpos (F64.round x ndigits) = true.
Proof.
  destruct x as [s|s| |s m e]; auto.
  rewrite nonpos_cases; intros H; subst s.
  apply has_sign_nonpos, round_sign; reflexivity.
Qed.

Lemma neg_nonneg (x : float) :
  F64.nonneg x = true -> F64.nonpos (F64.neg x) = true.
Proof.
  rewrite nonneg_cases, nonpos_cases.
  destruct x as [s|s| |s m e]; simpl; auto.
Qed.

(** Dividing a non-negative number by a positive finite one. *)
Lemma div_nonneg (x : float) (mc : positive) (ec : Z) :
  F64.nonneg x = true ->
  F64.nonneg (F64.div x (S754_finite false mc ec)) = true.
Proof.
  rewrite (nonneg_cases x).
  destruct x as [s|[]| |[] m e]; intros H; try discriminate H.
  - reflexivity.
  - reflexivity.
  - apply has_sign_nonneg, (div_finite_sign false m e false mc ec).
Qed.

Lemma sixty_finite :
  F64.of_Z 60 = S754_finite false 8444249301319680 (-47).
Proof. reflexivity. Qed.

Lemma thirty_six_hundred_finite :
  F64.of_Z 3600 = S754_finite false 7916483719987200 (-41).
Proof. reflexivity. Qed.

Lemma add_finite_pos_sign (mx : positive) (ex : Z) (my : positive) (ey : Z) :
  F64.has_sign false
    (F64.add (S754_finite false mx ex) (S754_finite false my ey)) = true.
Proof.
  unfold F64.add, SFadd; simpl cond_Zopp.
  set (a := fst (shl_align mx ex _)). set (b := fst (shl_align my ey _)).
  change (Zpos a + Zpos b) with (Zpos (a + b)).
  unfold binary_normalize, binary_round.
  destruct (shl_align (a + b) _ _) as [mz ez].
  apply binary_round_aux_sign; lia.
Qed.

(** The sum of two non-negative numbers is non-negative. *)
Lemma add_nonneg (x y : float) :
  F64.nonneg x = true -> F64.nonneg y = true -> F64.nonneg (F64.add x y) = true.
Proof.
  rewrite (nonneg_cases x), (nonneg_cases y).
  destruct x as [sx|sx| |sx mx ex], y as [sy|sy| |sy my ey];
    intros Hx Hy; try discriminate;
    try (apply negb_true_iff in Hx; subst sx);
    try (apply negb_true_iff in Hy; subst sy);
    try reflexivity.
  - destruct sx, sy; reflexivity.
  - apply has_sign_nonneg, add_finite_pos_sign.
Qed.

End FloatFacts.

(** * The coordinate converter *)

Section Converter.

Context {rt : Runtime}.

Lemma negative_of_nonneg (r : float) :
  F64.nonneg r = true -> F64.negative r = false.
Proof.
  rewrite nonneg_cases, negative_cases.
  destruct r as [s|s| |s m e]; auto; intros H; apply negb_true_iff in H; auto.
Qed.

Lemma negative_of_nonpos (r : float) :
  F64.nonpos r = true -> F64.negative r = F64.truthy r.
Proof.
  rewrite nonpos_cases, negative_cases.
  destruct r as [s|s| |s m e]; auto; discriminate.
Qed.

(** The sum [d + m/60 + s/3600] of non-negative parts is non-negative. *)
Lemma dms_decimal_nonneg (d m s : float) :
  F64.nonneg d = true -> F64.nonneg m = true -> F64.nonneg s = true ->
  F64.nonneg (dms_decimal d m s) = true.
Proof.
  intros Hd Hm Hs; unfold dms_decimal.
  rewrite sixty_finite, thirty_six_hundred_finite.
  auto using add_nonneg, div_nonneg.
Qed.

(** What the converter computes on a triplet whose parts convert. *)
Lemma convert_tuple (a b c ref : pyval) (d m s : float) :
  py_float a = Ok d -> py_float b = Ok m -> py_float c = Ok s ->
  convert_gps_coordinate (PyTuple [a; b; c]) ref =
  Ok (F64.round (if ref_in_SW ref then F64.neg (dms_decimal d m s)
                 else dms_decimal d m s) 6).
Proof.
  intros Ha Hb Hc; unfold convert_gps_coordinate; simpl.
  rewrite Ha; simpl; rewrite Hb; simpl; rewrite Hc; simpl.
  reflexivity.
Qed.

(** C1. On a 3-element sequence of numeric values and any reference,
    [convert_gps_coordinate] returns [degrees + minutes/60 + seconds/3600]
    rounded to 6 decimal places, negated when the reference is "S" or "W". *)
Theorem convert_gps_coordinate_formula (a b c ref : pyval) (d m s : float) :
  py_float a = Ok d -> py_float b = Ok m -> py_float c = Ok s ->
  convert_gps_coordinate (PyTuple [a; b; c]) ref =
  Ok (signed_decimal d m s (ref_in_SW ref)).
Proof.
  intros Ha Hb Hc.
  rewrite (convert_tuple a b c ref d m s Ha Hb Hc); unfold signed_decimal.
  destruct (ref_in_SW ref); [rewrite round_neg|]; reflexivity.
Qed.

(** C7, amended. For a triplet of non-negative parts the result is at
    most zero when the reference is "S" or "W" and at least zero
    otherwise; it is below zero exactly when the reference is "S" or "W"
    and the rounded value is not a zero. *)
Theorem convert_sign_nonneg_parts (a b c ref : pyval) (d m s : float) :
  py_float a = Ok d -> py_float b = Ok m -> py_float c = Ok s ->
  F64.nonneg d = true -> F64.nonneg m = true -> F64.nonneg s = true ->
  exists r,
    convert_gps_coordinate (PyTuple [a; b; c]) ref = Ok r /\
    (ref_in_SW ref = true -> F64.nonpos r = true) /\
    (ref_in_SW ref = false -> F64.nonneg r = true) /\
    (F64.negative r = true <-> ref_in_SW ref = true /\ F64.truthy r = true).
Proof.
  intros Ha Hb Hc Hd Hm Hs.
  rewrite (convert_tuple a b c ref d m s Ha Hb Hc).
  pose proof (dms_decimal_nonneg d m s Hd Hm Hs) as Hx.
  eexists; split; [reflexivity|].
  destruct (ref_in_SW ref).
  - pose proof (round_nonpos _ 6 (neg_nonneg _ Hx)) as Hr.
    repeat split; auto; try discriminate.
    + now rewrite <- negative_of_nonpos.
    + intros [_ Ht]; now rewrite negative_of_nonpos.
  - pose proof (round_nonneg _ 6 Hx) as Hr.
    repeat split; auto; try discriminate.
    + rewrite (negative_of_nonneg _ Hr) in H; discriminate.
    + rewrite (negative_of_nonneg _ Hr) in H; discriminate.
    + intros [H _]; discriminate.
Qed.

Lemma ref_in_SW_south_west (sw : string) :
  sw = "S" \/ sw = "W" -> ref_in_SW (PyStr sw) = true.
Proof. intros [-> | ->]; reflexivity. Qed.

Lemma ref_in_SW_north_east (ne : string) :
  ne = "N" \/ ne = "E" -> ref_in_SW (PyStr ne) = false.
Proof. intros [-> | ->]; reflexivity. Qed.

(** C8. For a triplet of non-negative parts the references "N" and "E"
    give a non-negative result; and for any value, the references "S"
    and "W" give exactly the negation of what "N" or "E" gives. *)
Theorem convert_hemispheres (value : pyval) (ne sw : string) :
  ne = "N" \/ ne = "E" -> sw = "S" \/ sw = "W" ->
  (forall a b c d m s,
      value = PyTuple [a; b; c] ->
      py_float a = Ok d -> py_float b = Ok m -> py_float c = Ok s ->
      F64.nonneg d = true -> F64.nonneg m = true -> F64.nonneg s = true ->
      exists r, convert_gps_coordinate value (PyStr ne) = Ok r /\
                F64.nonneg r = true) /\
  convert_gps_coordinate value (PyStr sw) =
    (r <- convert_gps_coordinate value (PyStr ne) ;; Ok (F64.neg r)).
Proof.
  intros Hne Hsw; split.
  - intros a b c d m s -> Ha Hb Hc Hd Hm Hs.
    rewrite (convert_tuple a b c _ d m s Ha Hb Hc).
    rewrite (ref_in_SW_north_east ne Hne).
    eexists; split; [reflexivity|].
    apply round_nonneg, dms_decimal_nonneg; assumption.
  - unfold convert_gps_coordinate.
    rewrite (ref_in_SW_north_east ne Hne), (ref_in_SW_south_west sw Hsw).
    destruct (getitem value 0) as [v0|]; simpl; [|reflexivity].
    destruct (py_float v0) as [d|]; simpl; [|reflexivity].
    destruct (getitem value 1) as [v1|]; simpl; [|reflexivity].
    destruct (py_float v1) as [m|]; simpl; [|reflexivity].
    destruct (getitem value 2) as [v2|]; simpl; [|reflexivity].
    destruct (py_float v2) as [s|]; simpl; [|reflexivity].
    now rewrite round_neg.
Qed.

End Converter.

(** C1, at the triplet (40, 26, 46) with reference "N". *)
Lemma convert_gps_coordinate_formula_witness :
  convert_gps_coordinate (rt := Sample.runtime) (Inputs.dms 40 26 46) (PyStr "N")
  = Ok (F64.nearest false 40446111 1000000).
Proof.
  exact (convert_gps_coordinate_formula (rt := Sample.runtime)
           (PyRational 40 1) (PyRational 26 1) (PyRational 46 1) (PyStr "N")
           _ _ _ eq_refl eq_refl eq_refl).
Defined.

(** * GPS extraction *)

Section Gps.

Context {rt : Runtime}.

(** A renamed directory in which the four fields are truthy is not empty. *)
Lemma extract_gps_dict (exif : Dict.t pyval) (items : Dict.t pyval) :
  Dict.get (KStr "GPSInfo") exif = Some (PyDict items) ->
  items <> [] ->
  extract_gps exif = gps_block (gps_named items).
Proof.
  intros Hget Hne; unfold extract_gps, get_or_none; rewrite Hget.
  destruct items; [congruence | reflexivity].
Qed.

Lemma extract_gps_empty_dict (exif : Dict.t pyval) :
  Dict.get (KStr "GPSInfo") exif = Some (PyDict []) ->
  extract_gps exif = Ok None.
Proof.
  intros Hget; unfold extract_gps, get_or_none; rewrite Hget; reflexivity.
Qed.

Lemma gps_block_empty : gps_block [] = Ok None.
Proof. reflexivity. Qed.

(** On an empty directory both functions agree, so the block builder
    describes [extract_gps] for every sub-mapping. *)
Lemma extract_gps_mapping (exif : Dict.t pyval) (items : Dict.t pyval) :
  Dict.get (KStr "GPSInfo") exif = Some (PyDict items) ->
  extract_gps exif = gps_block (gps_named items).
Proof.
  intros Hget; destruct items as [|kv items].
  - now rewrite extract_gps_empty_dict.
  - apply extract_gps_dict; [assumption | discriminate].
Qed.


(** Without coordinates and without a truthy altitude there is no block. *)
Lemma gps_block_nothing (gps : Dict.t pyval) :
  coordinates_present gps = false ->
  py_truthy (get_or_none "GPSAltitude" gps) = false ->
  gps_block gps = Ok None.
Proof.
  intros Hc Ha; unfold gps_block; rewrite Hc, Ha; reflexivity.
Qed.




(** X30. When the altitude is truthy and converts to a number, and the
    coordinate fields are not all truthy or convert, [extract_gps]
    returns a block that holds the altitude rounded to 2 places. *)
Theorem extract_gps_altitude (exif items : Dict.t pyval) (a : float) :
  Dict.get (KStr "GPSInfo") exif = Some (PyDict items) ->
  py_truthy (get_or_none "GPSAltitude" (gps_named items)) = true ->
  py_float (get_or_none "GPSAltitude" (gps_named items)) = Ok a ->
  coordinates_ok (gps_named items) ->
  exists g,
    extract_gps exif = Ok (Some g) /\
    Dict.get (KStr "altitude_meters") g = Some (PyFloat (F64.round a 2)).
Proof.
  intros Hget Ht Ha Hc.
  rewrite (extract_gps_mapping exif items Hget); unfold gps_block.
  rewrite Ht, Ha.
  destruct Hc as [Hc | (la & lo & Hla & Hlo)].
  - rewrite Hc; simpl; eexists; split; reflexivity.
  - rewrite Hla, Hlo; simpl.
    destruct (coordinates_present _); simpl; eexists; split; reflexivity.
Qed.

(** C10. A block returned by [extract_gps] holds the keys latitude,
    longitude and maps_url all three or none of them, and it holds them
    exactly when the four coordinate fields are present and truthy. *)
Theorem extract_gps_coordinate_keys (exif g : Dict.t pyval) :
  extract_gps exif = Ok (Some g) ->
  exists items,
    Dict.get (KStr "GPSInfo") exif = Some (PyDict items) /\
    Dict.mem (KStr "latitude") g = coordinates_present (gps_named items) /\
    Dict.mem (KStr "longitude") g = coordinates_present (gps_named items) /\
    Dict.mem (KStr "maps_url") g = coordinates_present (gps_named items).
Proof.
  unfold extract_gps, get_or_none.
  destruct (Dict.get (KStr "GPSInfo") exif) as [v|] eqn:Hget; [|discriminate].
  destruct (negb (py_truthy v)); [discriminate|].
  destruct v; try discriminate.
  intros H; exists items; split; [reflexivity|].
  revert H; unfold gps_block.
  destruct (coordinates_present (gps_named items)); simpl.
  - destruct (convert_gps_coordinate _ _) as [la|]; simpl; [|discriminate].
    destruct (convert_gps_coordinate _ _) as [lo|]; simpl; [|discriminate].
    destruct (py_truthy _); simpl.
    + destruct (py_float _); simpl; [|discriminate].
      intros H; injection H as <-; repeat split; reflexivity.
    + intros H; injection H as <-; repeat split; reflexivity.
  - destruct (py_truthy _); simpl; [|discriminate].
    destruct (py_float _); simpl; [|discriminate].
    intros H; injection H as <-; repeat split; reflexivity.
Qed.




End Gps.

(** * Dictionaries *)

Section DictFacts.

Context {V : Type}.

Lemma key_eqb_eq (a b : pykey) : Dict.key_eqb a b = true <-> a = b.
Proof.
  destruct a as [s|i], b as [t|j]; simpl; split; intros H;
    try discriminate; try congruence.
  - apply String.eqb_eq in H; congruence.
  - injection H as ->; apply String.eqb_refl.
  - apply Z.eqb_eq in H; congruence.
  - injection H as ->; apply Z.eqb_refl.
Qed.

Lemma key_eqb_refl (a : pykey) : Dict.key_eqb a a = true.
Proof. now apply key_eqb_eq. Qed.

Lemma key_eqb_sym (a b : pykey) : Dict.key_eqb a b = Dict.key_eqb b a.
Proof.
  destruct (Dict.key_eqb a b) eqn:E.
  - apply key_eqb_eq in E; subst; now rewrite key_eqb_refl.
  - destruct (Dict.key_eqb b a) eqn:E'; auto.
    apply key_eqb_eq in E'; subst; now rewrite key_eqb_refl in E.
Qed.

Lemma get_set_same (k : pykey) (v : V) (d : Dict.t V) :
  Dict.get k (Dict.set k v d) = Some v.
Proof.
  induction d as [|[k' v'] d IH]; simpl.
  - now rewrite key_eqb_refl.
  - destruct (Dict.key_eqb k' k) eqn:E; simpl; rewrite E; auto.
Qed.

Lemma get_set_other (k k' : pykey) (v : V) (d : Dict.t V) :
  Dict.key_eqb k' k = false ->
  Dict.get k (Dict.set k' v d) = Dict.get k d.
Proof.
  intros Hne; induction d as [|[k0 v0] d IH]; simpl.
  - now rewrite Hne.
  - destruct (Dict.key_eqb k0 k') eqn:E; simpl.
    + destruct (Dict.key_eqb k0 k) eqn:E'; auto.
      apply key_eqb_eq in E, E'; subst.
      now rewrite key_eqb_refl in Hne.
    + now rewrite IH.
Qed.

Lemma mem_set (k k' : pykey) (v : V) (d : Dict.t V) :
  Dict.mem k (Dict.set k' v d) = Dict.key_eqb k' k || Dict.mem k d.
Proof.
  unfold Dict.mem; destruct (Dict.key_eqb k' k) eqn:E; simpl.
  - apply key_eqb_eq in E; subst; now rewrite get_set_same.
  - now rewrite get_set_other.
Qed.

Lemma mem_keys (k : pykey) (d : Dict.t V) :
  Dict.mem k d = true <-> In k (Dict.keys d).
Proof.
  unfold Dict.mem; induction d as [|[k' v'] d IH]; simpl.
  - split; [discriminate | tauto].
  - destruct (Dict.key_eqb k' k) eqn:E.
    + apply key_eqb_eq in E; subst; tauto.
    + rewrite IH; split; auto.
      intros [->|H]; auto. now rewrite key_eqb_refl in E.
Qed.

Lemma keys_set (k : pykey) (v : V) (d : Dict.t V) :
  Dict.keys (Dict.set k v d) =
  if Dict.mem k d then Dict.keys d else (Dict.keys d ++ [k])%list.
Proof.
  unfold Dict.mem; induction d as [|[k' v'] d IH]; simpl; auto.
  destruct (Dict.key_eqb k' k) eqn:E; simpl; auto.
  rewrite IH; destruct (Dict.get k d); reflexivity.
Qed.

(** Assignment keeps a dictionary's keys distinct. *)
Lemma set_wf (k : pykey) (v : V) (d : Dict.t V) :
  Dict.wf d -> Dict.wf (Dict.set k v d).
Proof.
  unfold Dict.wf; intros H; rewrite keys_set.
  destruct (Dict.mem k d) eqn:E; auto.
  apply NoDup_app; auto.
  - constructor; [tauto | constructor].
  - intros x Hx [<-|[]].
    apply mem_keys in Hx; congruence.
Qed.

End DictFacts.

(** * The classifier *)

Section Classifier.

Context {rt : Runtime}.

Lemma bind_ok {A B : Type} (c : result A) (k : A -> result B) (b : B) :
  (x <- c ;; k x) = Ok b -> exists a, c = Ok a /\ k a = Ok b.
Proof. destruct c as [a|e]; simpl; [eauto | discriminate]. Qed.

Lemma key_in_cons (k : pykey) (n : string) (names : list string) :
  key_in k (n :: names) = Dict.key_eqb k (KStr n) || key_in k names.
Proof. reflexivity. Qed.

Lemma key_in_app (k : pykey) (l1 l2 : list string) :
  key_in k (l1 ++ l2) = key_in k l1 || key_in k l2.
Proof. unfold key_in; apply existsb_app. Qed.

Lemma key_in_In (n : string) (names : list string) :
  key_in (KStr n) names = true <-> In n names.
Proof.
  unfold key_in; rewrite existsb_exists; split.
  - intros (x & Hin & Hx); apply key_eqb_eq in Hx; congruence.
  - intros Hin; exists n; split; auto using key_eqb_refl.
Qed.

(** What an allow-list loop leaves in its bucket, when it returns. *)
Lemma tag_loop_get (f : pyval -> result pyval) (tags : list string)
      (exif : Dict.t pyval) :
  forall bucket b,
    tag_loop f tags exif bucket = Ok b ->
    forall k,
      (key_in k tags = true /\
       exists v x, Dict.get k exif = Some v /\ f v = Ok x /\
                   Dict.get k b = Some x) \/
      ((key_in k tags = false \/ Dict.get k exif = None) /\
       Dict.get k b = Dict.get k bucket).
Proof.
  induction tags as [|tag rest IH]; intros bucket b Hb k; simpl in Hb.
  - injection Hb as <-; right; auto.
  - rewrite key_in_cons.
    destruct (Dict.get (KStr tag) exif) as [v|] eqn:Hget.
    + destruct (f v) as [x|e] eqn:Hf; simpl in Hb; [|discriminate].
      destruct (IH _ _ Hb k) as [(Hin & v' & x' & H1 & H2 & H3) | (Hout & Hsame)].
      * left; split; [now rewrite Hin, orb_true_r | eauto].
      * destruct (Dict.key_eqb k (KStr tag)) eqn:E.
        -- apply key_eqb_eq in E; subst k.
           left; split; auto.
           exists v, x; repeat split; auto.
           now rewrite Hsame, get_set_same.
        -- right; split.
           ++ destruct Hout as [-> | ->]; auto.
           ++ rewrite Hsame; apply get_set_other.
              now rewrite key_eqb_sym.
    + destruct (IH _ _ Hb k) as [(Hin & v' & x' & H1 & H2 & H3) | (Hout & Hsame)].
      * left; split; [now rewrite Hin, orb_true_r | eauto].
      * right; split; auto.
        destruct (Dict.key_eqb k (KStr tag)) eqn:E; auto.
        apply key_eqb_eq in E; subst k; auto.
Qed.

(** The keys of the bucket an allow-list loop fills from empty. *)
Lemma tag_loop_mem (f : pyval -> result pyval) (tags : list string)
      (exif b : Dict.t pyval) (k : pykey) :
  tag_loop f tags exif [] = Ok b ->
  Dict.mem k b = key_in k tags && Dict.mem k exif.
Proof.
  intros Hb; unfold Dict.mem.
  destruct (tag_loop_get f tags exif [] b Hb k)
    as [(Hin & v & x & H1 & H2 & H3) | (Hout & Hsame)].
  - now rewrite Hin, H1, H3.
  - rewrite Hsame; simpl.
    destruct Hout as [-> | ->]; auto using andb_false_r.
Qed.

(** An allow-list loop returns when the stored value of every tag it
    meets can be computed. *)
Lemma tag_loop_ok (f : pyval -> result pyval) (tags : list string)
      (exif : Dict.t pyval) :
  (forall tag v, In tag tags -> Dict.get (KStr tag) exif = Some v ->
                 exists x, f v = Ok x) ->
  forall bucket, exists b, tag_loop f tags exif bucket = Ok b.
Proof.
  induction tags as [|tag rest IH]; intros Hf bucket; simpl; eauto.
  destruct (Dict.get (KStr tag) exif) as [v|] eqn:Hget.
  - destruct (Hf tag v (or_introl eq_refl) Hget) as [x ->]; simpl.
    apply IH; intros; eapply Hf; eauto; now right.
  - apply IH; intros; eapply Hf; eauto; now right.
Qed.

(** The keys the catch-all loop adds. *)
Lemma other_loop_mem (items bucket : Dict.t pyval) (k : pykey) :
  Dict.mem k (other_loop items bucket) =
  Dict.mem k bucket
  || existsb (fun kv => Dict.key_eqb (fst kv) k
                        && (negb (key_in (fst kv) skip)
                            && is_ok (py_str (snd kv)))) items.
Proof.
  revert bucket; induction items as [|[k' v'] items IH]; intros bucket.
  - simpl; now rewrite orb_false_r.
  - cbn [other_loop existsb fst snd].
    destruct (key_in k' skip); cbn [negb].
    + now rewrite IH, andb_false_r.
    + destruct (py_str v') as [s|e]; cbn [is_ok andb].
      * rewrite IH, mem_set, andb_true_r.
        now rewrite orb_assoc, (orb_comm (Dict.key_eqb k' k)).
      * now rewrite IH, andb_false_r.
Qed.

(** In a dictionary, the entry of a key is the only one that matches it. *)
Lemma existsb_entry (P : pykey -> pyval -> bool) (items : Dict.t pyval)
      (k : pykey) (v : pyval) :
  Dict.wf items -> Dict.get k items = Some v ->
  existsb (fun kv => Dict.key_eqb (fst kv) k && P (fst kv) (snd kv)) items
  = P k v.
Proof.
  unfold Dict.wf; induction items as [|[k' v'] items IH]; simpl;
    intros Hwf Hget; [discriminate|].
  inversion Hwf as [|? ? Hnotin Hwf']; subst.
  destruct (Dict.key_eqb k' k) eqn:E; simpl.
  - apply key_eqb_eq in E; subst k'. injection Hget as ->.
    destruct (P k v); auto; simpl.
    apply not_true_is_false; intros Hex.
    apply existsb_exists in Hex as ([k0 v0] & Hin & Hk); simpl in Hk.
    apply andb_true_iff in Hk as [Hk _]; apply key_eqb_eq in Hk; subst k0.
    apply Hnotin; unfold Dict.keys.
    change k with (fst (k, v0)); now apply in_map.
  - now apply IH.
Qed.

(** The three allow-lists and the exclusions share no name. *)
Lemma lists_disjoint (k : pykey) :
  count_true [key_in k device_tags; key_in k datetime_tags;
              key_in k image_tags; key_in k excluded_tags]
  = if key_in k skip then 1%nat else 0%nat.
Proof.
  destruct k as [s|i]; [|reflexivity].
  unfold skip; rewrite !key_in_app.
  unfold key_in, device_tags, datetime_tags, image_tags, excluded_tags;
    simpl existsb.
  repeat match goal with
         | |- context [String.eqb s ?c] =>
             destruct (String.eqb_spec s c) as [->|?]; [reflexivity|]
         end.
  reflexivity.
Qed.

(** The tag map read from a file is a dictionary: its keys are distinct. *)
Lemma get_exif_data_wf (fs : filesystem) (image_path : string)
      (out : list string) (exif : Dict.t pyval) :
  get_exif_data fs image_path = (out, Ok exif) -> Dict.wf exif.
Proof.
  assert (Hnil : Dict.wf (@nil (pykey * pyval))) by constructor.
  unfold get_exif_data.
  destruct (image_open (fs image_path)) as [img | [e msg]].
  - destruct img as [| | raw]; intros H; inversion H; subst; auto.
    destruct (negb (Dict.truthy raw)); inversion H; subst; auto.
    generalize (@nil (pykey * pyval)) Hnil.
    clear; induction raw as [|[tag_id value] raw IH]; intros acc Hacc; simpl; auto.
    apply IH, set_wf, Hacc.
  - destruct e; intros H; inversion H; subst; auto.
Qed.

(** The keys of the four buckets after the classification of a dictionary. *)
Lemma classify_mem (exif : Dict.t pyval) (init r : report) (k : pykey) (v : pyval) :
  Dict.wf exif ->
  device init = [] -> datetime init = [] -> image init = [] -> other init = [] ->
  classify exif init = Ok r ->
  Dict.get k exif = Some v ->
  Dict.mem k (device r) = key_in k device_tags /\
  Dict.mem k (datetime r) = key_in k datetime_tags /\
  Dict.mem k (image r) = key_in k image_tags /\
  Dict.mem k (other r) = negb (key_in k skip) && is_ok (py_str v).
Proof.
  intros Hwf Hd Ht Hi Ho Hr Hget; unfold classify in Hr.
  rewrite Hd, Ht, Hi, Ho in Hr.
  apply bind_ok in Hr as (g & _ & Hr).
  unfold device_loop, datetime_loop, image_loop in Hr.
  apply bind_ok in Hr as (dev & Hdev & Hr).
  apply bind_ok in Hr as (dat & Hdat & Hr).
  apply bind_ok in Hr as (img & Himg & Hr).
  injection Hr as <-; cbn [device datetime image other].
  assert (Hmem : Dict.mem k exif = true) by (unfold Dict.mem; now rewrite Hget).
  rewrite (tag_loop_mem _ _ _ _ k Hdev), (tag_loop_mem _ _ _ _ k Hdat),
    (tag_loop_mem _ _ _ _ k Himg), Hmem, !andb_true_r.
  repeat split.
  rewrite other_loop_mem.
  now rewrite (existsb_entry
                 (fun k0 v0 => negb (key_in k0 skip) && is_ok (py_str v0))
                 exif k v Hwf Hget).
Qed.

(** C3. Every tag of the tag map read from the file lands in exactly one
    of: the device, datetime, image-settings or other bucket of the
    report, the exclusions (GPSInfo, MakerNote, UserComment), or the
    tags dropped because their conversion to a string raised in the
    catch-all loop. *)
Theorem classifier_partition (fs : filesystem) (image_path : string)
        (out : list string) (exif : Dict.t pyval) (r : report)
        (k : pykey) (v : pyval) :
  get_exif_data fs image_path = (out, Ok exif) ->
  snd (extract_metadata fs image_path) = Ok r ->
  Dict.get k exif = Some v ->
  count_true [Dict.mem k (device r); Dict.mem k (datetime r);
              Dict.mem k (image r); Dict.mem k (other r);
              key_in k excluded_tags;
              negb (key_in k skip) && negb (is_ok (py_str v))] = 1%nat.
Proof.
  intros Hexif Hr Hget.
  pose proof (get_exif_data_wf _ _ _ _ Hexif) as Hwf.
  unfold extract_metadata in Hr; rewrite Hexif in Hr; cbn [snd bind] in Hr.
  apply bind_ok in Hr as (size & _ & Hr).
  apply bind_ok in Hr as (kb & _ & Hr).
  destruct exif as [|kv exif']; [discriminate|]; cbn [Dict.truthy negb] in Hr.
  match type of Hr with
  | classify ?e ?i = _ =>
      destruct (classify_mem e i r k v Hwf eq_refl eq_refl eq_refl eq_refl
                             Hr Hget) as (-> & -> & -> & ->)
  end.
  pose proof (lists_disjoint k) as Hdis.
  destruct (key_in k device_tags), (key_in k datetime_tags),
    (key_in k image_tags), (key_in k excluded_tags), (key_in k skip),
    (is_ok (py_str v)); try discriminate Hdis; reflexivity.
Qed.

End Classifier.

(** * Image settings *)

Section ImageSettings.

Context {rt : Runtime}.

(** The stored value of an image-settings tag, when its string form
    exists where it is needed. *)
Lemma image_value_entry (val : pyval) :
  (needs_str val -> exists s, py_str val = Ok s) ->
  exists x, image_value val = Ok x /\ image_entry val x.
Proof.
  unfold image_value, image_entry, needs_str, stringified; intros Hs.
  destruct (has_float val) eqn:Hf.
  - destruct (py_float val) as [f|e] eqn:Hp; simpl.
    + exists (PyFloat f); split; auto. left; eauto.
    + destruct Hs as [s Hstr]; auto.
      rewrite Hstr; simpl. exists (PyStr s); split; auto. right; eauto.
  - destruct Hs as [s Hstr]; auto.
    rewrite Hstr; simpl. exists (PyStr s); split; auto. right; eauto.
Qed.

(** A failed float conversion alone never makes the loop body raise:
    it raises only the error of [str]. *)
Lemma image_value_raises (val : pyval) (e : exc) :
  image_value val = Raise e -> py_str val = Raise e.
Proof.
  unfold image_value, stringified.
  destruct (has_float val).
  - destruct (py_float val); simpl; [discriminate|].
    destruct (py_str val); simpl; congruence.
  - destruct (py_str val); simpl; congruence.
Qed.

(** C9. When every image-settings value that needs its string form has
    one, the image-settings loop returns, and each image-settings tag
    of the tag map is stored as the float it converts to when it
    supports the conversion and the conversion succeeds, and as its
    string form otherwise; a tag missing from the map is not stored. *)
Theorem image_settings_coercion (exif : Dict.t pyval) :
  (forall tag val, In tag image_tags -> Dict.get (KStr tag) exif = Some val ->
                   needs_str val -> exists s, py_str val = Ok s) ->
  exists img,
    image_loop image_tags exif [] = Ok img /\
    forall tag, In tag image_tags ->
      match Dict.get (KStr tag) exif with
      | Some val => exists x, Dict.get (KStr tag) img = Some x /\ image_entry val x
      | None => Dict.get (KStr tag) img = None
      end.
Proof.
  intros Hstr; unfold image_loop.
  destruct (tag_loop_ok image_value image_tags exif) with (bucket := @nil (pykey * pyval))
    as [img Himg].
  { intros tag val Hin Hget.
    destruct (image_value_entry val (Hstr tag val Hin Hget)) as (x & Hx & _); eauto. }
  exists img; split; auto.
  intros tag Hin.
  destruct (tag_loop_get _ _ _ _ _ Himg (KStr tag))
    as [(_ & v & x & H1 & H2 & H3) | ([Hout | Hnone] & Hsame)].
  - rewrite H1. exists x; split; auto.
    destruct (image_value_entry v (Hstr tag v Hin H1)) as (x' & Hx' & Hentry).
    congruence.
  - apply key_in_In in Hin; congruence.
  - now rewrite Hnone, Hsame.
Qed.

End ImageSettings.

(** * Files that cannot be read *)

Section Files.

Context {rt : Runtime}.

(** C6, on the code. For a path with no file behind it, the message is
    printed and the tag map is empty, but [extract_metadata] then asks
    for the size of the file and raises: no report is returned. *)
Theorem extract_metadata_missing_file (image_path : string) :
  get_exif_data (fun _ => Missing) image_path
  = ([RED ++ "Error: File not found: " ++ image_path ++ RESET], Ok []) /\
  extract_metadata (fun _ => Missing) image_path
  = ([RED ++ "Error: File not found: " ++ image_path ++ RESET],
     Raise FileNotFoundError).
Proof. split; reflexivity. Qed.

(** A file that exists but cannot be opened as an image gives a report
    with the file block filled and every other block empty or absent. *)
Lemma extract_metadata_unopenable (fs : filesystem) (image_path msg : string)
      (size : Z) (kb : float) :
  fs image_path = Unreadable size msg \/ fs image_path = NotImage size msg ->
  int_truediv size 1024 = Ok kb ->
  extract_metadata fs image_path
  = ([RED ++ "Error opening image: " ++ msg ++ RESET],
     Ok {| file := {| path := abspath image_path;
                      filename := basename image_path;
                      size_kb := F64.round kb 2 |};
           gps := None; device := []; datetime := []; image := [];
           other := [] |}).
Proof.
  intros Hfs Hkb; unfold extract_metadata, get_exif_data.
  destruct Hfs as [-> | ->];
    cbn [image_open os_path_getsize bind]; rewrite Hkb; reflexivity.
Qed.

(** An image without EXIF data gives the same kind of report, silently. *)
Lemma extract_metadata_no_exif (fs : filesystem) (image_path : string)
      (size : Z) (kb : float) :
  fs image_path = ImageFile size ExifNone ->
  int_truediv size 1024 = Ok kb ->
  extract_metadata fs image_path
  = ([],
     Ok {| file := {| path := abspath image_path;
                      filename := basename image_path;
                      size_kb := F64.round kb 2 |};
           gps := None; device := []; datetime := []; image := [];
           other := [] |}).
Proof.
  intros Hfs Hkb; unfold extract_metadata, get_exif_data.
  rewrite Hfs; cbn [image_open os_path_getsize bind]; rewrite Hkb; reflexivity.
Qed.

End Files.

(** * The theorems at sample inputs *)

(** C3, at a tag map with one tag of each kind, for the tag "Make". *)
Lemma classifier_partition_witness :
  exists r,
    snd (extract_metadata (rt := Sample.runtime)
           (fun _ => ImageFile 2048 (ExifTags Inputs.exif_mixed)) "a.jpg") = Ok r /\
    count_true [Dict.mem (KStr "Make") (device r); Dict.mem (KStr "Make") (datetime r);
                Dict.mem (KStr "Make") (image r); Dict.mem (KStr "Make") (other r);
                key_in (KStr "Make") excluded_tags;
                negb (key_in (KStr "Make") skip)
                && negb (is_ok (Sample.str_text (PyStr " Canon ")))] = 1%nat.
Proof.
  eexists; split; [vm_compute; reflexivity|].
  exact (classifier_partition (rt := Sample.runtime)
           (fun _ => ImageFile 2048 (ExifTags Inputs.exif_mixed)) "a.jpg"
           [] Inputs.exif_mixed _ (KStr "Make") (PyStr " Canon ")
           eq_refl eq_refl eq_refl).
Defined.


(** X30, at an altitude of 123.456 m without coordinates. *)
Lemma extract_gps_altitude_witness :
  exists g,
    extract_gps (rt := Sample.runtime) Inputs.exif_altitude_only = Ok (Some g) /\
    Dict.get (KStr "altitude_meters") g
    = Some (PyFloat (F64.round (F64.nearest false 123456 1000) 2)).
Proof.
  exact (extract_gps_altitude (rt := Sample.runtime) Inputs.exif_altitude_only
           [(KInt 6, PyRational 123456 1000)] _ eq_refl eq_refl eq_refl
           (or_introl eq_refl)).
Defined.

(** C7 amended, at the triplet (73, 59, 11) with reference "W". *)
Lemma convert_sign_nonneg_parts_witness :
  exists r,
    convert_gps_coordinate (rt := Sample.runtime) (Inputs.dms 73 59 11) (PyStr "W")
    = Ok r /\
    (ref_in_SW (PyStr "W") = true -> F64.nonpos r = true) /\
    (ref_in_SW (PyStr "W") = false -> F64.nonneg r = true) /\
    (F64.negative r = true <-> ref_in_SW (PyStr "W") = true /\ F64.truthy r = true).
Proof.
  exact (convert_sign_nonneg_parts (rt := Sample.runtime)
           (PyRational 73 1) (PyRational 59 1) (PyRational 11 1) (PyStr "W")
           _ _ _ eq_refl eq_refl eq_refl eq_refl eq_refl eq_refl).
Defined.

(** C8, at the triplet (40, 26, 46) with the references "N" and "S". *)
Lemma convert_hemispheres_witness :
  (exists r, convert_gps_coordinate (rt := Sample.runtime)
               (Inputs.dms 40 26 46) (PyStr "N") = Ok r /\ F64.nonneg r = true) /\
  convert_gps_coordinate (rt := Sample.runtime) (Inputs.dms 40 26 46) (PyStr "S")
  = (r <- convert_gps_coordinate (rt := Sample.runtime)
            (Inputs.dms 40 26 46) (PyStr "N") ;; Ok (F64.neg r)).
Proof.
  destruct (convert_hemispheres (rt := Sample.runtime) (Inputs.dms 40 26 46)
              "N" "S" (or_introl eq_refl) (or_introl eq_refl)) as [Hpos Hneg].
  split; [|exact Hneg].
  exact (Hpos _ _ _ _ _ _ eq_refl eq_refl eq_refl eq_refl eq_refl eq_refl eq_refl).
Defined.

(** Every image-settings value of the sample tag map has a string form. *)
Lemma exif_mixed_strings (tag : string) (val : pyval) :
  In tag image_tags -> Dict.get (KStr tag) Inputs.exif_mixed = Some val ->
  needs_str (rt := Sample.runtime) val ->
  exists s, py_str (Runtime := Sample.runtime) val = Ok s.
Proof.
  intros Hin Hget _; simpl in Hin.
  repeat (destruct Hin as [<- | Hin];
          [vm_compute in Hget; try discriminate Hget;
           injection Hget as <-; eexists; vm_compute; reflexivity|]).
  contradiction.
Defined.

(** C9, at the sample tag map: FNumber converts, Flash is text. *)
Lemma image_settings_coercion_witness :
  exists img,
    image_loop (rt := Sample.runtime) image_tags Inputs.exif_mixed [] = Ok img /\
    forall tag, In tag image_tags ->
      match Dict.get (KStr tag) Inputs.exif_mixed with
      | Some val =>
          exists x, Dict.get (KStr tag) img = Some x /\
                    image_entry (rt := Sample.runtime) val x
      | None => Dict.get (KStr tag) img = None
      end.
Proof.
  exact (image_settings_coercion (rt := Sample.runtime) Inputs.exif_mixed
           exif_mixed_strings).
Defined.

(** C10, at the scenario with coordinates. *)
Lemma extract_gps_coordinate_keys_witness :
  exists items,
    Dict.get (KStr "GPSInfo") Inputs.exif_with_gps = Some (PyDict items) /\
    Dict.mem (KStr "latitude")
      [(KStr "latitude", PyFloat (F64.nearest false 40446111 1000000));
       (KStr "longitude", PyFloat (F64.nearest true 73986389 1000000));
       (KStr "maps_url", PyStr "https://maps.google.com/?q=40.446111,-73.986389")]
    = coordinates_present (gps_named items) /\
    Dict.mem (KStr "longitude")
      [(KStr "latitude", PyFloat (F64.nearest false 40446111 1000000));
       (KStr "longitude", PyFloat (F64.nearest true 73986389 1000000));
       (KStr "maps_url", PyStr "https://maps.google.com/?q=40.446111,-73.986389")]
    = coordinates_present (gps_named items) /\
    Dict.mem (KStr "maps_url")
      [(KStr "latitude", PyFloat (F64.nearest false 40446111 1000000));
       (KStr "longitude", PyFloat (F64.nearest true 73986389 1000000));
       (KStr "maps_url", PyStr "https://maps.google.com/?q=40.446111,-73.986389")]
    = coordinates_present (gps_named items).
Proof.
  apply (extract_gps_coordinate_keys (rt := Sample.runtime) Inputs.exif_with_gps).
  vm_compute; reflexivity.
Defined.

(** * Where the specification and the code part *)



(** An altitude of zero metres on the model: it is in the GPS directory
    and the block does not hold it; alone, it leaves no block. *)
Example scenario_sea_level :
  Dict.get (KStr "GPSAltitude")
    (gps_named [(KInt 5, PyBytes "0"); (KInt 6, PyRational 0 1)])
  = Some (PyRational 0 1) /\
  extract_gps (rt := Sample.runtime) Inputs.exif_sea_level = Ok None /\
  exists g,
    extract_gps (rt := Sample.runtime) Inputs.exif_sea_level_located = Ok (Some g) /\
    Dict.mem (KStr "altitude_meters") g = false.
Proof.
  split; [reflexivity|]. split; [reflexivity|].
  eexists; split; vm_compute; reflexivity.
Qed.

(** C7, as stated, fails in both directions: signed degrees with the
    reference "N" give a result below zero, and the triplet (0, 0, 0) with
    the reference "S" gives a zero, which is not below zero. *)
Lemma convert_sign_counterexample :
  (exists r,
      convert_gps_coordinate (rt := Sample.runtime) Inputs.dms_signed (PyStr "N")
      = Ok r /\
      F64.negative r = true /\ F64.signbit r = true /\
      ref_in_SW (PyStr "N") = false) /\
  (exists r,
      convert_gps_coordinate (rt := Sample.runtime) (Inputs.dms 0 0 0) (PyStr "S")
      = Ok r /\
      F64.negative r = false /\ ref_in_SW (PyStr "S") = true).
Proof.
  split; eexists; repeat split; vm_compute; reflexivity.
Qed.

(** The scenarios of the specification, run on the model. *)
Example scenario_gps :
  extract_gps (rt := Sample.runtime) Inputs.exif_with_gps
  = Ok (Some [(KStr "latitude", PyFloat (F64.nearest false 40446111 1000000));
              (KStr "longitude", PyFloat (F64.nearest true 73986389 1000000));
              (KStr "maps_url",
               PyStr "https://maps.google.com/?q=40.446111,-73.986389")]).
Proof. vm_compute; reflexivity. Qed.

Example scenario_canon :
  classify (rt := Sample.runtime) Inputs.exif_canon Inputs.empty_report
  = Ok {| file := file Inputs.empty_report;
          gps := None;
          device := [(KStr "Make", PyStr "Canon"); (KStr "Model", PyStr "EOS 5D")];
          datetime := []; image := []; other := [] |}.
Proof. vm_compute; reflexivity. Qed.

Example scenario_zero :
  convert_gps_coordinate (rt := Sample.runtime) (Inputs.dms 0 0 0) (PyStr "N")
  = Ok F64.zero.
Proof. vm_compute; reflexivity. Qed.

Example scenario_missing_file :
  extract_metadata (rt := Sample.runtime) (fun _ => Missing) "gone.jpg"
  = ([RED ++ "Error: File not found: gone.jpg" ++ RESET], Raise FileNotFoundError).
Proof. vm_compute; reflexivity. Qed.

Example scenario_not_an_image :
  extract_metadata (rt := Sample.runtime)
    (fun _ => NotImage 2048 "cannot identify image file 'notes.txt'") "notes.txt"
  = ([RED ++ "Error opening image: cannot identify image file 'notes.txt'" ++ RESET],
     Ok {| file := {| path := "/notes.txt"; filename := "notes.txt";
                      size_kb := F64.of_Z 2 |};
           gps := None; device := []; datetime := []; image := []; other := [] |}).
Proof. vm_compute; reflexivity. Qed.

(** * The converter at its edges *)

Section ConverterEdges.
Context {rt : Runtime}.

Lemma add_nan_l (x : float) : F64.add F64.nan x = F64.nan.
Proof. reflexivity. Qed.



(** X3. A sequence of fewer than three parts, each of them a number,
    makes the converter raise [IndexError], whatever the reference. *)
Theorem convert_short_sequence (items : list pyval) (ref : pyval) :
  (List.length items < 3)%nat ->
  Forall (fun x => is_ok (py_float x) = true) items ->
  convert_gps_coordinate (PyTuple items) ref = Raise IndexError.
Proof.
  intros Hlen Hall; unfold convert_gps_coordinate.
  destruct items as [|a [|b [|c rest]]]; simpl in Hlen; try lia; simpl.
  - reflexivity.
  - inversion Hall as [|? ? Ha _]; subst.
    destruct (py_float a); [reflexivity | discriminate].
  - inversion Hall as [|? ? Ha Hall']; subst.
    inversion Hall' as [|? ? Hb _]; subst.
    destruct (py_float a); [simpl | discriminate].
    destruct (py_float b); [reflexivity | discriminate].
Qed.

(** X4. A value that is [None] or a single number (an integer, a float
    or a rational) instead of a sequence makes the converter raise
    [TypeError]. *)
Theorem convert_not_a_sequence (value ref : pyval) :
  value = PyNone \/ has_float value = true ->
  convert_gps_coordinate value ref = Raise TypeError.
Proof.
  intros [-> | H]; [reflexivity|].
  destruct value; try discriminate; reflexivity.
Qed.

Lemma ref_in_SW_other (ref : pyval) :
  ref <> PyStr "S" -> ref <> PyStr "W" -> ref_in_SW ref = false.
Proof.
  intros HS HW; unfold ref_in_SW, eq_str.
  destruct ref as [| | |s| | | |]; try reflexivity.
  destruct (String.eqb_spec s "S") as [->|_]; [congruence|].
  destruct (String.eqb_spec s "W") as [->|_]; [congruence|].
  reflexivity.
Qed.

(** X5. Only the exact texts "S" and "W" negate: with any other
    reference (lower case, bytes, [None], a longer word) the converter
    gives what it gives for "N". *)
Theorem convert_reference_exact (value ref : pyval) :
  ref <> PyStr "S" -> ref <> PyStr "W" ->
  convert_gps_coordinate value ref = convert_gps_coordinate value (PyStr "N").
Proof.
  intros HS HW; unfold convert_gps_coordinate.
  now rewrite (ref_in_SW_other ref HS HW).
Qed.


End ConverterEdges.

(** * Renamed directories and the GPS block *)

Section Renaming.

Lemma get_app (k : pykey) (d1 d2 : Dict.t pyval) :
  Dict.get k (d1 ++ d2)%list =
  match Dict.get k d1 with
  | Some v => Some v
  | None => Dict.get k d2
  end.
Proof.
  induction d1 as [|[k' v'] d1 IH]; simpl; auto.
  destruct (Dict.key_eqb k' k); auto.
Qed.

Lemma get_set (k k' : pykey) (v : pyval) (d : Dict.t pyval) :
  Dict.get k (Dict.set k' v d) =
  if Dict.key_eqb k' k then Some v else Dict.get k d.
Proof.
  destruct (Dict.key_eqb k' k) eqn:E.
  - apply key_eqb_eq in E; subst; apply get_set_same.
  - now apply get_set_other.
Qed.

(** The renaming loop, started from any dictionary: a key ends with the
    value of the last entry that resolves to it, and keeps its old value
    when there is none. *)
Lemma rename_loop_get (table : Z -> option string) (items : Dict.t pyval)
      (k : pykey) :
  forall acc,
    Dict.get k (fold_left
                  (fun d '(key, val) => Dict.set (Dict.resolve table key) val d)
                  items acc) =
    match last_assigned k (renamed table items) with
    | Some v => Some v
    | None => Dict.get k acc
    end.
Proof.
  unfold last_assigned.
  induction items as [|[k0 v0] items IH]; intros acc; simpl; auto.
  rewrite IH, get_app, get_set; simpl.
  destruct (Dict.get k (rev (renamed table items))); auto.
  destruct (Dict.key_eqb (Dict.resolve table k0) k); auto.
Qed.

Lemma rename_loop_wf (table : Z -> option string) (items : Dict.t pyval) :
  forall acc, Dict.wf acc ->
    Dict.wf (fold_left
               (fun d '(key, val) => Dict.set (Dict.resolve table key) val d)
               items acc).
Proof.
  induction items as [|[k0 v0] items IH]; intros acc Hacc; simpl; auto.
  apply IH, set_wf, Hacc.
Qed.

(** X7. The renaming loop of [extract_gps] builds a dictionary with
    distinct keys in which every key holds the value of the last entry of
    the GPS directory that resolves to it through [GPSTAGS]; keys that
    are already names stay as they are. *)
Theorem gps_named_last_wins (items : Dict.t pyval) (k : pykey) :
  Dict.wf (gps_named items) /\
  Dict.get k (gps_named items) = last_assigned k (renamed GPSTAGS items).
Proof.
  unfold gps_named; split.
  - apply rename_loop_wf; constructor.
  - rewrite (rename_loop_get GPSTAGS items k []).
    destruct (last_assigned k (renamed GPSTAGS items)); reflexivity.
Qed.

End Renaming.

Section GpsEdges.
Context {rt : Runtime}.

(** X1. For an image whose decoder returns a tag directory,
    [get_exif_data] prints nothing and returns a dictionary with distinct
    keys in which every key holds the value of the last directory entry
    whose id resolves to it through [TAGS]: a known id is found under its
    name, an unknown id under the id itself. *)
Theorem get_exif_data_last_wins (fs : filesystem) (image_path : string)
        (size : Z) (raw : Dict.t pyval) :
  fs image_path = ImageFile size (ExifTags raw) ->
  exists exif,
    get_exif_data fs image_path = ([], Ok exif) /\
    Dict.wf exif /\
    forall k, Dict.get k exif = last_assigned k (renamed TAGS raw).
Proof.
  intros Hfs; unfold get_exif_data; rewrite Hfs; cbn [image_open].
  destruct raw as [|kv raw]; cbn [Dict.truthy negb].
  - exists []; split; [reflexivity|]; split; [constructor|].
    intros k; reflexivity.
  - eexists; split; [reflexivity|]; split.
    + apply rename_loop_wf; constructor.
    + intros k; rewrite (rename_loop_get TAGS (kv :: raw) k []).
      destruct (last_assigned k (renamed TAGS (kv :: raw))); reflexivity.
Qed.

(** X2. For an opened image whose class has no [_getexif] method, the
    call, made outside the [try], raises [AttributeError]: no message is
    printed, and [extract_metadata] raises it as well instead of
    returning a report. *)
Theorem image_without_exif_reader (fs : filesystem) (image_path : string)
        (size : Z) :
  fs image_path = ImageFile size NoExifMethod ->
  get_exif_data fs image_path = ([], Raise AttributeError) /\
  extract_metadata fs image_path = ([], Raise AttributeError).
Proof.
  intros Hfs; unfold extract_metadata, get_exif_data; rewrite Hfs.
  split; reflexivity.
Qed.

(** X8. [extract_gps] returns [None] exactly when the GPS entry is
    missing or falsy, or it is a mapping in which the four coordinate
    fields are not all truthy and the altitude is not truthy. *)
Theorem extract_gps_none_iff (exif : Dict.t pyval) :
  extract_gps exif = Ok None <->
  py_truthy (get_or_none "GPSInfo" exif) = false \/
  exists items,
    Dict.get (KStr "GPSInfo") exif = Some (PyDict items) /\
    coordinates_present (gps_named items) = false /\
    py_truthy (get_or_none "GPSAltitude" (gps_named items)) = false.
Proof.
  split.
  - intros H.
    destruct (py_truthy (get_or_none "GPSInfo" exif)) eqn:Ht; [right | now left].
    unfold extract_gps in H; rewrite Ht in H; cbn [negb] in H.
    destruct (get_or_none "GPSInfo" exif) as [| | | | | | |items] eqn:Hg;
      try discriminate.
    exists items; split.
    { unfold get_or_none in Hg.
      destruct (Dict.get (KStr "GPSInfo") exif) as [v|]; [now subst | discriminate]. }
    clear Ht Hg; revert H; unfold gps_block.
    destruct (coordinates_present (gps_named items)); simpl.
    + destruct (convert_gps_coordinate _ _) as [la|]; simpl; [|discriminate].
      destruct (convert_gps_coordinate _ _) as [lo|]; simpl; [|discriminate].
      destruct (py_truthy _); simpl; [|discriminate].
      destruct (py_float _); simpl; discriminate.
    + destruct (py_truthy _); simpl; [|auto].
      destruct (py_float _); simpl; discriminate.
  - intros [Hf | (items & Hget & Hc & Ha)].
    + unfold extract_gps; now rewrite Hf.
    + rewrite (extract_gps_mapping exif items Hget).
      now apply gps_block_nothing.
Qed.

(** X9. A GPS entry that is truthy and not a mapping (an offset into the
    file, say) makes [extract_gps] raise [AttributeError]. *)
Theorem extract_gps_not_a_mapping (exif : Dict.t pyval) (v : pyval) :
  Dict.get (KStr "GPSInfo") exif = Some v ->
  py_truthy v = true ->
  (forall items, v <> PyDict items) ->
  extract_gps exif = Raise AttributeError.
Proof.
  intros Hget Ht Hnot; unfold extract_gps, get_or_none.
  rewrite Hget, Ht; cbn [negb].
  destruct v; try reflexivity.
  now destruct (Hnot items).
Qed.

(** A block [extract_gps] returns, taken apart. *)
Lemma extract_gps_some (exif g : Dict.t pyval) :
  extract_gps exif = Ok (Some g) ->
  exists items,
    Dict.get (KStr "GPSInfo") exif = Some (PyDict items) /\
    gps_block (gps_named items) = Ok (Some g).
Proof.
  unfold extract_gps, get_or_none.
  destruct (Dict.get (KStr "GPSInfo") exif) as [v|] eqn:Hget; [|discriminate].
  destruct (negb (py_truthy v)); [discriminate|].
  destruct v; try discriminate.
  intros H; exists items; auto.
Qed.

(** The shapes a returned block can have. *)
Lemma gps_block_shape (gps g : Dict.t pyval) :
  gps_block gps = Ok (Some g) ->
  exists coords alt,
    g = (coords ++ alt)%list /\
    (if coordinates_present gps
     then exists la lo,
         coords = [(KStr "latitude", PyFloat la); (KStr "longitude", PyFloat lo);
                   (KStr "maps_url",
                    PyStr ("https://maps.google.com/?q=" ++ float_str la ++ ","
                           ++ float_str lo))]
     else coords = []) /\
    (if py_truthy (get_or_none "GPSAltitude" gps)
     then exists a, alt = [(KStr "altitude_meters", PyFloat a)]
     else alt = []).
Proof.
  unfold gps_block.
  destruct (coordinates_present gps); simpl.
  - destruct (convert_gps_coordinate _ _) as [la|]; simpl; [|discriminate].
    destruct (convert_gps_coordinate _ _) as [lo|]; simpl; [|discriminate].
    destruct (py_truthy _); simpl.
    + destruct (py_float _) as [a|]; simpl; [|discriminate].
      intros H; injection H as <-.
      exists [(KStr "latitude", PyFloat la); (KStr "longitude", PyFloat lo);
              (KStr "maps_url",
               PyStr ("https://maps.google.com/?q=" ++ float_str la ++ ","
                      ++ float_str lo))],
        [(KStr "altitude_meters", PyFloat (F64.round a 2))].
      split; [reflexivity|]; split; [exists la, lo; reflexivity | eauto].
    + intros H; injection H as <-.
      exists [(KStr "latitude", PyFloat la); (KStr "longitude", PyFloat lo);
              (KStr "maps_url",
               PyStr ("https://maps.google.com/?q=" ++ float_str la ++ ","
                      ++ float_str lo))], [].
      split; [reflexivity|]; split; [exists la, lo; reflexivity | reflexivity].
  - destruct (py_truthy _); simpl; [|discriminate].
    destruct (py_float _) as [a|]; simpl; [|discriminate].
    intros H; injection H as <-.
    exists [], [(KStr "altitude_meters", PyFloat (F64.round a 2))].
    split; [reflexivity|]; split; eauto.
Qed.

(** X10. The keys of a block [extract_gps] returns, in insertion order:
    latitude, longitude and maps_url when the four coordinate fields
    are truthy, then altitude_meters when the altitude is truthy, and
    nothing else. *)
Theorem extract_gps_keys (exif g : Dict.t pyval) :
  extract_gps exif = Ok (Some g) ->
  exists items,
    Dict.get (KStr "GPSInfo") exif = Some (PyDict items) /\
    Dict.keys g =
      ((if coordinates_present (gps_named items)
        then [KStr "latitude"; KStr "longitude"; KStr "maps_url"] else [])
       ++ (if py_truthy (get_or_none "GPSAltitude" (gps_named items))
           then [KStr "altitude_meters"] else []))%list.
Proof.
  intros H; apply extract_gps_some in H as (items & Hget & Hb).
  exists items; split; auto.
  apply gps_block_shape in Hb as (coords & alt & -> & Hc & Ha).
  unfold Dict.keys; rewrite map_app.
  destruct (coordinates_present (gps_named items));
    destruct (py_truthy (get_or_none "GPSAltitude" (gps_named items)));
    repeat match goal with
           | H : exists _, _ |- _ => destruct H
           end; subst; reflexivity.
Qed.

(** X11. In every block [extract_gps] returns, a map link comes with a
    latitude and a longitude that are floats, and it is the fixed URL
    followed by the texts of these two floats, separated by a comma. *)
Theorem extract_gps_link (exif g : Dict.t pyval) (url : pyval) :
  extract_gps exif = Ok (Some g) ->
  Dict.get (KStr "maps_url") g = Some url ->
  exists la lo,
    Dict.get (KStr "latitude") g = Some (PyFloat la) /\
    Dict.get (KStr "longitude") g = Some (PyFloat lo) /\
    url = PyStr ("https://maps.google.com/?q=" ++ float_str la ++ ","
                 ++ float_str lo).
Proof.
  intros H Hurl; apply extract_gps_some in H as (items & Hget & Hb).
  apply gps_block_shape in Hb as (coords & alt & -> & Hc & Ha).
  destruct (coordinates_present (gps_named items));
    destruct (py_truthy (get_or_none "GPSAltitude" (gps_named items)));
    repeat match goal with
           | H : exists _, _ |- _ => destruct H
           end; subst; simpl in Hurl; try discriminate;
    injection Hurl as <-;
    eexists; eexists; (split; [reflexivity | split; reflexivity]).
Qed.

Lemma gps_block_agree (gps1 gps2 : Dict.t pyval) :
  (forall name, In name gps_fields ->
                get_or_none name gps1 = get_or_none name gps2) ->
  gps_block gps1 = gps_block gps2.
Proof.
  intros H; unfold gps_block, coordinates_present.
  rewrite (H "GPSLatitude"), (H "GPSLatitudeRef"), (H "GPSLongitude"),
    (H "GPSLongitudeRef"), (H "GPSAltitude"); simpl; auto 10.
Qed.

(** X12. [extract_gps] reads five fields of the GPS directory and no
    other: two directories that agree on the latitude, the longitude,
    their two references and the altitude give the same result, so that
    [GPSAltitudeRef] (below sea level) never changes the altitude. *)
Theorem extract_gps_reads_five_fields (exif1 exif2 items1 items2 : Dict.t pyval) :
  Dict.get (KStr "GPSInfo") exif1 = Some (PyDict items1) ->
  Dict.get (KStr "GPSInfo") exif2 = Some (PyDict items2) ->
  (forall name, In name gps_fields ->
                last_assigned (KStr name) (renamed GPSTAGS items1)
                = last_assigned (KStr name) (renamed GPSTAGS items2)) ->
  extract_gps exif1 = extract_gps exif2.
Proof.
  intros H1 H2 Hsame.
  rewrite (extract_gps_mapping exif1 items1 H1),
    (extract_gps_mapping exif2 items2 H2).
  apply gps_block_agree; intros name Hin; unfold get_or_none, gps_named.
  rewrite (rename_loop_get GPSTAGS items1 (KStr name) []),
    (rename_loop_get GPSTAGS items2 (KStr name) []), (Hsame name Hin).
  reflexivity.
Qed.

End GpsEdges.

(** * An altitude of zero *)

Section SeaLevel.

Context {rt : Runtime}.

(** A number that is zero converts to a zero and is false. *)
Lemma zero_number_falsy (v : pyval) :
  zero_number v = true ->
  py_truthy v = false /\ exists a, py_float v = Ok a /\ F64.truthy a = false.
Proof.
  destruct v as [|z|f| | |n d| |]; try discriminate; cbn [zero_number].
  - intros H; apply Z.eqb_eq in H; subst z; split; [reflexivity|].
    exists (S754_zero false); split; reflexivity.
  - intros H; apply negb_true_iff in H; split; [exact H|].
    exists f; split; [reflexivity | exact H].
  - intros H; apply andb_true_iff in H as [Hd Hn].
    apply negb_true_iff in Hd; apply Z.eqb_eq in Hn; subst n.
    cbn [py_truthy py_float]; rewrite Hd; split; [reflexivity|].
    destruct d as [|p|p]; [discriminate| |].
    + exists (S754_zero false); split; reflexivity.
    + exists (S754_zero true); split; reflexivity.
Qed.

(** C5, on the code. An altitude that is present in the GPS directory
    and is a number equal to zero converts to a zero, yet it fails the
    test [if alt:]: no block that [extract_gps] returns holds an
    altitude, and where the four coordinate fields are not all truthy
    [extract_gps] returns [None]. *)
Theorem extract_gps_zero_altitude (exif items : Dict.t pyval) (alt : pyval) :
  Dict.get (KStr "GPSInfo") exif = Some (PyDict items) ->
  Dict.get (KStr "GPSAltitude") (gps_named items) = Some alt ->
  zero_number alt = true ->
  (exists a, py_float alt = Ok a /\ F64.truthy a = false) /\
  (forall g, extract_gps exif = Ok (Some g) ->
             Dict.mem (KStr "altitude_meters") g = false) /\
  (coordinates_present (gps_named items) = false -> extract_gps exif = Ok None).
Proof.
  intros Hget Halt Hzero.
  destruct (zero_number_falsy alt Hzero) as [Hfalse Hnum].
  assert (Hf : py_truthy (get_or_none "GPSAltitude" (gps_named items)) = false)
    by (unfold get_or_none; now rewrite Halt).
  split; [exact Hnum|]; split.
  - intros g Hg.
    rewrite (extract_gps_mapping exif items Hget) in Hg.
    apply gps_block_shape in Hg as (coords & tail & -> & Hc & Ha).
    rewrite Hf in Ha; subst tail; rewrite app_nil_r.
    destruct (coordinates_present (gps_named items)).
    + destruct Hc as (la & lo & ->); reflexivity.
    + subst coords; reflexivity.
  - intros Hc; rewrite (extract_gps_mapping exif items Hget).
    now apply gps_block_nothing.
Qed.

End SeaLevel.

(** * The buckets of a report *)

Section Whitespace.

Lemma lstrip_start (s : string) : starts_with_space (lstrip s) = false.
Proof.
  induction s as [|c rest IH]; simpl; auto.
  destruct (is_space c) eqn:E; simpl; auto.
Qed.

Lemma rstrip_end (s : string) : ends_with_space (rstrip s) = false.
Proof.
  induction s as [|c rest IH]; simpl; auto.
  destruct (rstrip rest) as [|c' r'] eqn:E.
  - destruct (is_space c) eqn:Ec; simpl; auto.
  - exact IH.
Qed.

Lemma rstrip_start (s : string) :
  starts_with_space s = false -> starts_with_space (rstrip s) = false.
Proof.
  destruct s as [|c rest]; simpl; auto.
  intros Hc; destruct (rstrip rest); [rewrite Hc|]; simpl; auto.
Qed.

Lemma strip_trimmed (s : string) :
  starts_with_space (strip s) = false /\ ends_with_space (strip s) = false.
Proof.
  unfold strip; split; [apply rstrip_start, lstrip_start | apply rstrip_end].
Qed.

End Whitespace.

Section Buckets.
Context {rt : Runtime}.

Lemma NoDup_device_tags : NoDup device_tags.
Proof.
  unfold device_tags.
  repeat (constructor; [simpl; intuition discriminate|]); constructor.
Qed.

Lemma NoDup_datetime_tags : NoDup datetime_tags.
Proof.
  unfold datetime_tags.
  repeat (constructor; [simpl; intuition discriminate|]); constructor.
Qed.

Lemma NoDup_image_tags : NoDup image_tags.
Proof.
  unfold image_tags.
  repeat (constructor; [simpl; intuition discriminate|]); constructor.
Qed.

(** The order in which an allow-list loop fills its bucket: that of the
    allow-list. *)
Lemma tag_loop_keys (f : pyval -> result pyval) (tags : list string)
      (exif : Dict.t pyval) :
  NoDup tags ->
  forall bucket b,
    (forall t, In t tags -> Dict.mem (KStr t) bucket = false) ->
    tag_loop f tags exif bucket = Ok b ->
    Dict.keys b =
    (Dict.keys bucket
     ++ map KStr (filter (fun t => Dict.mem (KStr t) exif) tags))%list.
Proof.
  induction tags as [|tag rest IH]; intros Hnd bucket b Hfresh Hb; simpl in Hb.
  - injection Hb as <-; simpl; now rewrite app_nil_r.
  - inversion Hnd as [|? ? Hnotin Hnd']; subst.
    cbn [filter].
    destruct (Dict.get (KStr tag) exif) as [v|] eqn:Hget.
    + assert (Hm : Dict.mem (KStr tag) exif = true)
        by (unfold Dict.mem; now rewrite Hget).
      rewrite Hm; cbn [map].
      apply bind_ok in Hb as (x & Hx & Hb).
      assert (Hfresh' : forall t, In t rest ->
                Dict.mem (KStr t) (Dict.set (KStr tag) x bucket) = false).
      { intros t Ht; rewrite mem_set, (Hfresh t (or_intror Ht)), orb_false_r.
        apply not_true_is_false; intros E; apply key_eqb_eq in E.
        injection E as ->; contradiction. }
      rewrite (IH Hnd' _ _ Hfresh' Hb).
      rewrite keys_set, (Hfresh tag (or_introl eq_refl)), <- app_assoc.
      reflexivity.
    + assert (Hm : Dict.mem (KStr tag) exif = false)
        by (unfold Dict.mem; now rewrite Hget).
      rewrite Hm.
      apply (IH Hnd' _ _ (fun t Ht => Hfresh t (or_intror Ht)) Hb).
Qed.

(** An allow-list loop raises when the stored value of a tag it meets
    cannot be computed. *)
Lemma tag_loop_raises (f : pyval -> result pyval) (tags : list string)
      (exif : Dict.t pyval) (tag : string) (v : pyval) :
  In tag tags -> Dict.get (KStr tag) exif = Some v -> is_ok (f v) = false ->
  forall bucket, exists e, tag_loop f tags exif bucket = Raise e.
Proof.
  intros Hin Hget Hf.
  induction tags as [|t rest IH]; intros bucket; simpl; [contradiction|].
  destruct Hin as [-> | Hin].
  - rewrite Hget; destruct (f v) as [x|e]; [discriminate|]; simpl; eauto.
  - destruct (Dict.get (KStr t) exif) as [v'|]; [|now apply IH].
    destruct (f v') as [x|e]; simpl; [now apply IH | eauto].
Qed.

(** Assignment keeps a property of the values. *)
Lemma set_Forall (P : pyval -> Prop) (k : pykey) (v : pyval) (d : Dict.t pyval) :
  P v -> Forall (fun kv => P (snd kv)) d ->
  Forall (fun kv => P (snd kv)) (Dict.set k v d).
Proof.
  intros Hv; induction d as [|[k' v'] d IH]; intros Hd; simpl.
  - constructor; auto.
  - inversion Hd as [|? ? Hhead Htail]; subst.
    destruct (Dict.key_eqb k' k); constructor; auto.
Qed.

Lemma get_In (k : pykey) (d : Dict.t pyval) (x : pyval) :
  Dict.get k d = Some x -> exists k', In (k', x) d.
Proof.
  induction d as [|[k0 v0] d IH]; simpl; [discriminate|].
  destruct (Dict.key_eqb k0 k).
  - intros H; injection H as <-; eauto.
  - intros H; destruct (IH H) as [k' Hin]; eauto.
Qed.

(** Every value an allow-list loop stores is a result of its conversion. *)
Lemma tag_loop_values (P : pyval -> Prop) (f : pyval -> result pyval)
      (tags : list string) (exif : Dict.t pyval) :
  (forall v x, f v = Ok x -> P x) ->
  forall bucket b,
    Forall (fun kv => P (snd kv)) bucket ->
    tag_loop f tags exif bucket = Ok b ->
    Forall (fun kv => P (snd kv)) b.
Proof.
  intros Hf; induction tags as [|tag rest IH]; intros bucket b Hbucket Hb;
    simpl in Hb.
  - now injection Hb as <-.
  - destruct (Dict.get (KStr tag) exif) as [v|]; [|eapply IH; eauto].
    apply bind_ok in Hb as (x & Hx & Hb).
    eapply IH; [|exact Hb].
    apply set_Forall; eauto.
Qed.

(** The value the catch-all loop leaves under a key of a dictionary. *)
Lemma other_loop_get (items : Dict.t pyval) (k : pykey) :
  Dict.wf items ->
  forall bucket,
    Dict.get k (other_loop items bucket) =
    match Dict.get k items with
    | Some v =>
        if key_in k skip then Dict.get k bucket
        else match py_str v with
             | Ok s => Some (PyStr s)
             | Raise _ => Dict.get k bucket
             end
    | None => Dict.get k bucket
    end.
Proof.
  unfold Dict.wf; induction items as [|[k' v'] items IH]; intros Hwf bucket;
    [reflexivity|].
  inversion Hwf as [|? ? Hnotin Hwf']; subst.
  cbn [other_loop Dict.get].
  destruct (Dict.key_eqb k' k) eqn:E.
  - apply key_eqb_eq in E; subst k'.
    assert (Hnone : Dict.get k items = None).
    { destruct (Dict.get k items) eqn:Hg; auto.
      exfalso; apply Hnotin, mem_keys; unfold Dict.mem; now rewrite Hg. }
    destruct (key_in k skip); cbn [negb].
    + now rewrite IH, Hnone.
    + destruct (py_str v') as [s|e].
      * now rewrite IH, Hnone, get_set_same.
      * now rewrite IH, Hnone.
  - destruct (key_in k' skip); cbn [negb]; [now rewrite IH|].
    destruct (py_str v') as [s|e]; rewrite IH by assumption; auto.
    rewrite get_set_other by assumption; reflexivity.
Qed.

(** The order in which the catch-all loop fills its bucket: that of the
    tag map. *)
Lemma other_loop_keys (items : Dict.t pyval) :
  Dict.wf items ->
  forall bucket,
    (forall k, In k (Dict.keys items) -> Dict.mem k bucket = false) ->
    Dict.keys (other_loop items bucket) =
    (Dict.keys bucket
     ++ map fst (filter (fun kv => negb (key_in (fst kv) skip)
                                   && is_ok (py_str (snd kv))) items))%list.
Proof.
  unfold Dict.wf; induction items as [|[k' v'] items IH]; intros Hwf bucket Hfresh.
  - simpl; now rewrite app_nil_r.
  - inversion Hwf as [|? ? Hnotin Hwf']; subst.
    cbn [other_loop filter fst snd].
    assert (Hrest : forall k, In k (Dict.keys items) -> Dict.mem k bucket = false)
      by (intros k Hk; apply Hfresh; now right).
    destruct (key_in k' skip); cbn [negb andb]; [now apply IH|].
    destruct (py_str v') as [s|e]; cbn [is_ok]; [|now apply IH].
    rewrite IH; auto.
    + rewrite keys_set, (Hfresh k' (or_introl eq_refl)), <- app_assoc.
      reflexivity.
    + intros k Hk; rewrite mem_set, (Hrest k Hk), orb_false_r.
      apply not_true_is_false; intros E; apply key_eqb_eq in E; subst.
      contradiction.
Qed.

(** Every value of the catch-all bucket is text. *)
Lemma other_loop_values (P : pyval -> Prop) (items : Dict.t pyval) :
  (forall s, P (PyStr s)) ->
  forall bucket,
    Forall (fun kv => P (snd kv)) bucket ->
    Forall (fun kv => P (snd kv)) (other_loop items bucket).
Proof.
  intros HP; induction items as [|[k' v'] items IH]; intros bucket Hbucket;
    cbn [other_loop]; auto.
  destruct (key_in k' skip); cbn [negb]; [now apply IH|].
  destruct (py_str v') as [s|e]; [|now apply IH].
  apply IH, set_Forall; auto.
Qed.

(** A report [extract_metadata] returns, taken apart. *)
Lemma extract_metadata_returns (fs : filesystem) (image_path : string)
      (out : list string) (exif : Dict.t pyval) (r : report) :
  get_exif_data fs image_path = (out, Ok exif) ->
  snd (extract_metadata fs image_path) = Ok r ->
  exists size kb,
    os_path_getsize (fs image_path) = Ok size /\
    int_truediv size 1024 = Ok kb /\
    ((exif = [] /\ r = initial image_path kb) \/
     (exif <> [] /\ classify exif (initial image_path kb) = Ok r)).
Proof.
  intros Hexif Hr.
  unfold extract_metadata in Hr; rewrite Hexif in Hr; cbn [snd bind] in Hr.
  apply bind_ok in Hr as (size & Hsize & Hr).
  apply bind_ok in Hr as (kb & Hkb & Hr).
  exists size, kb; repeat split; auto.
  destruct exif as [|kv exif']; cbn [Dict.truthy negb] in Hr.
  - left; split; auto. now injection Hr as <-.
  - right; split; [discriminate | exact Hr].
Qed.

(** A classified report, taken apart. *)
Lemma classify_returns (exif : Dict.t pyval) (init r : report) :
  classify exif init = Ok r ->
  exists g dev dat img,
    extract_gps exif = Ok g /\
    device_loop device_tags exif (device init) = Ok dev /\
    datetime_loop datetime_tags exif (datetime init) = Ok dat /\
    image_loop image_tags exif (image init) = Ok img /\
    r = {| file := file init; gps := g; device := dev; datetime := dat;
           image := img; other := other_loop exif (other init) |}.
Proof.
  unfold classify; intros Hr.
  apply bind_ok in Hr as (g & Hg & Hr).
  apply bind_ok in Hr as (dev & Hdev & Hr).
  apply bind_ok in Hr as (dat & Hdat & Hr).
  apply bind_ok in Hr as (img & Himg & Hr).
  injection Hr as <-; exists g, dev, dat, img; auto 10.
Qed.

End Buckets.

Section Reports.
Context {rt : Runtime}.

(** X13. In a report [extract_metadata] returns, a device tag of the tag
    map is stored as its string form with the surrounding whitespace
    removed, and a date tag as its string form unchanged. *)
Theorem device_and_datetime_values (fs : filesystem) (image_path : string)
        (out : list string) (exif : Dict.t pyval) (r : report)
        (tag : string) (v : pyval) :
  get_exif_data fs image_path = (out, Ok exif) ->
  snd (extract_metadata fs image_path) = Ok r ->
  Dict.get (KStr tag) exif = Some v ->
  (In tag device_tags ->
   exists s, py_str v = Ok s /\
             Dict.get (KStr tag) (device r) = Some (PyStr (strip s))) /\
  (In tag datetime_tags ->
   exists s, py_str v = Ok s /\
             Dict.get (KStr tag) (datetime r) = Some (PyStr s)).
Proof.
  intros Hexif Hr Hget.
  destruct (extract_metadata_returns _ _ _ _ _ Hexif Hr)
    as (size & kb & _ & _ & [[-> _] | [_ Hc]]); [discriminate|].
  apply classify_returns in Hc as (g & dev & dat & img & _ & Hdev & Hdat & _ & ->).
  cbn [device datetime initial] in *.
  split; intros Hin.
  - destruct (tag_loop_get _ _ _ _ _ Hdev (KStr tag))
      as [(_ & v' & x & H1 & H2 & H3) | ([Hout | Hnone] & _)].
    + rewrite Hget in H1; injection H1 as <-.
      unfold device_value in H2.
      destruct (py_str v) as [s|e]; [|discriminate].
      injection H2 as <-; eauto.
    + apply key_in_In in Hin; congruence.
    + congruence.
  - destruct (tag_loop_get _ _ _ _ _ Hdat (KStr tag))
      as [(_ & v' & x & H1 & H2 & H3) | ([Hout | Hnone] & _)].
    + rewrite Hget in H1; injection H1 as <-.
      unfold stringified in H2.
      destruct (py_str v) as [s|e]; [|discriminate].
      injection H2 as <-; eauto.
    + apply key_in_In in Hin; congruence.
    + congruence.
Qed.

(** X14. Every value of the device block of a returned report is text
    that neither starts nor ends with whitespace. *)
Theorem device_values_trimmed (fs : filesystem) (image_path : string)
        (r : report) (k : pykey) (x : pyval) :
  snd (extract_metadata fs image_path) = Ok r ->
  Dict.get k (device r) = Some x ->
  exists t, x = PyStr t /\
            starts_with_space t = false /\ ends_with_space t = false.
Proof.
  intros Hr Hx.
  destruct (get_exif_data fs image_path) as [out [exif|e]] eqn:Hexif.
  2:{ unfold extract_metadata in Hr; rewrite Hexif in Hr; discriminate. }
  destruct (extract_metadata_returns _ _ _ _ _ Hexif Hr)
    as (size & kb & _ & _ & [[_ ->] | [_ Hc]]); [discriminate|].
  apply classify_returns in Hc as (g & dev & dat & img & _ & Hdev & _ & _ & ->).
  cbn [device initial] in *.
  destruct (get_In _ _ _ Hx) as [k' Hin].
  assert (Hall : Forall (fun kv => exists t, snd kv = PyStr t /\
                                     starts_with_space t = false /\
                                     ends_with_space t = false) dev).
  { apply (tag_loop_values
             (fun x => exists t, x = PyStr t /\ starts_with_space t = false /\
                                 ends_with_space t = false)
             device_value device_tags exif) with (bucket := []); auto.
    intros v y; unfold device_value.
    destruct (py_str v) as [s|e]; [|discriminate].
    intros H; injection H as <-; exists (strip s); split; auto.
    apply strip_trimmed. }
  rewrite Forall_forall in Hall; exact (Hall _ Hin).
Qed.

(** X15. In a returned report, a tag of the tag map outside the
    allow-lists and the exclusions is stored in the catch-all block as
    its string form; when its conversion to a string raises, the block
    has no entry for it. *)
Theorem other_bucket_values (fs : filesystem) (image_path : string)
        (out : list string) (exif : Dict.t pyval) (r : report)
        (k : pykey) (v : pyval) :
  get_exif_data fs image_path = (out, Ok exif) ->
  snd (extract_metadata fs image_path) = Ok r ->
  Dict.get k exif = Some v ->
  key_in k skip = false ->
  Dict.get k (other r) =
  match py_str v with
  | Ok s => Some (PyStr s)
  | Raise _ => None
  end.
Proof.
  intros Hexif Hr Hget Hskip.
  pose proof (get_exif_data_wf _ _ _ _ Hexif) as Hwf.
  destruct (extract_metadata_returns _ _ _ _ _ Hexif Hr)
    as (size & kb & _ & _ & [[-> _] | [_ Hc]]); [discriminate|].
  apply classify_returns in Hc as (g & dev & dat & img & _ & _ & _ & _ & ->).
  cbn [other initial].
  rewrite (other_loop_get exif k Hwf []), Hget, Hskip.
  destruct (py_str v); reflexivity.
Qed.

(** X16. The four buckets of a returned report hold no key that the tag
    map read from the file does not hold. *)
Theorem buckets_hold_only_tags_read (fs : filesystem) (image_path : string)
        (out : list string) (exif : Dict.t pyval) (r : report) (k : pykey) :
  get_exif_data fs image_path = (out, Ok exif) ->
  snd (extract_metadata fs image_path) = Ok r ->
  Dict.mem k exif = false ->
  Dict.mem k (device r) = false /\ Dict.mem k (datetime r) = false /\
  Dict.mem k (image r) = false /\ Dict.mem k (other r) = false.
Proof.
  intros Hexif Hr Hk.
  destruct (extract_metadata_returns _ _ _ _ _ Hexif Hr)
    as (size & kb & _ & _ & [[_ ->] | [_ Hc]]); [repeat split|].
  apply classify_returns in Hc as (g & dev & dat & img & _ & Hdev & Hdat & Himg & ->).
  cbn [device datetime image other initial] in *.
  unfold device_loop, datetime_loop, image_loop in *.
  rewrite (tag_loop_mem _ _ _ _ k Hdev), (tag_loop_mem _ _ _ _ k Hdat),
    (tag_loop_mem _ _ _ _ k Himg), Hk, !andb_false_r.
  repeat split.
  rewrite other_loop_mem; cbn [Dict.mem Dict.get orb].
  apply not_true_is_false; intros Hex.
  apply existsb_exists in Hex as ([k0 v0] & Hin & Hk0); cbn [fst snd] in Hk0.
  apply andb_true_iff in Hk0 as [Hk0 _]; apply key_eqb_eq in Hk0; subst k0.
  assert (Hmem : Dict.mem k exif = true).
  { apply mem_keys; unfold Dict.keys.
    change k with (fst (k, v0)); now apply in_map. }
  congruence.
Qed.

(** X17. The order of the entries of a returned report: the device,
    date and image-settings blocks list the tags present in the order of
    their allow-lists, not in that of the tag map; the catch-all block
    follows the order of the tag map. *)
Theorem bucket_order (fs : filesystem) (image_path : string)
        (out : list string) (exif : Dict.t pyval) (r : report) :
  get_exif_data fs image_path = (out, Ok exif) ->
  snd (extract_metadata fs image_path) = Ok r ->
  Dict.keys (device r)
  = map KStr (filter (fun t => Dict.mem (KStr t) exif) device_tags) /\
  Dict.keys (datetime r)
  = map KStr (filter (fun t => Dict.mem (KStr t) exif) datetime_tags) /\
  Dict.keys (image r)
  = map KStr (filter (fun t => Dict.mem (KStr t) exif) image_tags) /\
  Dict.keys (other r)
  = map fst (filter (fun kv => negb (key_in (fst kv) skip)
                               && is_ok (py_str (snd kv))) exif).
Proof.
  intros Hexif Hr.
  pose proof (get_exif_data_wf _ _ _ _ Hexif) as Hwf.
  destruct (extract_metadata_returns _ _ _ _ _ Hexif Hr)
    as (size & kb & _ & _ & [[-> ->] | [_ Hc]]); [repeat split|].
  apply classify_returns in Hc as (g & dev & dat & img & _ & Hdev & Hdat & Himg & ->).
  cbn [device datetime image other initial] in *.
  unfold device_loop, datetime_loop, image_loop in *.
  rewrite (tag_loop_keys _ _ _ NoDup_device_tags [] dev (fun _ _ => eq_refl) Hdev),
    (tag_loop_keys _ _ _ NoDup_datetime_tags [] dat (fun _ _ => eq_refl) Hdat),
    (tag_loop_keys _ _ _ NoDup_image_tags [] img (fun _ _ => eq_refl) Himg),
    (other_loop_keys exif Hwf [] (fun _ _ => eq_refl)).
  repeat split.
Qed.

(** X18. When [extract_gps] raises on the tag map of an image,
    [extract_metadata] raises the same exception: no report is returned,
    whatever the other tags are. *)
Theorem gps_error_aborts_report (fs : filesystem) (image_path : string)
        (size : Z) (raw exif : Dict.t pyval) (kb : float) (e : exc) :
  fs image_path = ImageFile size (ExifTags raw) ->
  snd (get_exif_data fs image_path) = Ok exif ->
  int_truediv size 1024 = Ok kb ->
  extract_gps exif = Raise e ->
  extract_metadata fs image_path = ([], Raise e).
Proof.
  intros Hfs Hexif Hkb Hgps.
  assert (Hne : Dict.truthy exif = true).
  { destruct exif; [discriminate Hgps | reflexivity]. }
  unfold extract_metadata.
  destruct (get_exif_data fs image_path) as [out r] eqn:Hg.
  cbn [snd] in Hexif; subst r.
  assert (out = []) as ->.
  { unfold get_exif_data in Hg; rewrite Hfs in Hg; cbn [image_open] in Hg.
    now injection Hg as <- _. }
  rewrite Hfs; cbn [os_path_getsize bind]; rewrite Hkb; cbn [bind].
  rewrite Hne; cbn [negb]; unfold classify; rewrite Hgps; reflexivity.
Qed.

(** X19. A device or date tag whose conversion to a string raises makes
    [extract_metadata] raise: unlike the image-settings and catch-all
    loops, these two loops have no fallback. *)
Theorem unprintable_tag_aborts_report (fs : filesystem) (image_path : string)
        (out : list string) (exif : Dict.t pyval) (tag : string) (v : pyval) :
  get_exif_data fs image_path = (out, Ok exif) ->
  In tag (device_tags ++ datetime_tags) ->
  Dict.get (KStr tag) exif = Some v ->
  is_ok (py_str v) = false ->
  exists e, snd (extract_metadata fs image_path) = Raise e.
Proof.
  intros Hexif Hin Hget Hstr.
  unfold extract_metadata; rewrite Hexif; cbn [snd bind].
  destruct (os_path_getsize (fs image_path)) as [size|e]; cbn [bind]; [|eauto].
  destruct (int_truediv size 1024) as [kb|e]; cbn [bind]; [|eauto].
  destruct exif as [|kv exif']; [discriminate|]; cbn [Dict.truthy negb].
  unfold classify.
  destruct (extract_gps _) as [g|e]; cbn [bind]; [|eauto].
  apply in_app_or in Hin as [Hin | Hin].
  - destruct (tag_loop_raises device_value device_tags _ tag v Hin Hget)
      with (bucket := @nil (pykey * pyval)) as [e He].
    { unfold device_value; destruct (py_str v); [discriminate | reflexivity]. }
    unfold device_loop; cbn [device]; rewrite He; cbn [bind]; eauto.
  - destruct (device_loop _ _ _) as [dev|e]; cbn [bind]; [|eauto].
    destruct (tag_loop_raises stringified datetime_tags _ tag v Hin Hget)
      with (bucket := @nil (pykey * pyval)) as [e He].
    { unfold stringified; destruct (py_str v); [discriminate | reflexivity]. }
    unfold datetime_loop; cbn [datetime]; rewrite He; cbn [bind]; eauto.
Qed.

(** X21. When [get_exif_data] gives an empty tag map and the file
    exists (an unreadable file, a file that is no image, an image
    without EXIF data or with an empty directory), [extract_metadata]
    returns a report with the file block filled, no GPS block and four
    empty buckets, after the messages of [get_exif_data]. *)
Theorem empty_tag_map_report (fs : filesystem) (image_path : string)
        (out : list string) (size : Z) (kb : float) :
  get_exif_data fs image_path = (out, Ok []) ->
  os_path_getsize (fs image_path) = Ok size ->
  int_truediv size 1024 = Ok kb ->
  extract_metadata fs image_path
  = (out,
     Ok {| file := {| path := abspath image_path;
                      filename := basename image_path;
                      size_kb := F64.round kb 2 |};
           gps := None; device := []; datetime := []; image := [];
           other := [] |}).
Proof.
  intros Hexif Hsize Hkb; unfold extract_metadata.
  rewrite Hexif, Hsize; cbn [bind]; rewrite Hkb; reflexivity.
Qed.

Lemma int_truediv_nonneg (size : Z) (d : positive) (kb : float) :
  0 <= size -> int_truediv size (Zpos d) = Ok kb -> F64.nonneg kb = true.
Proof.
  intros Hpos; unfold int_truediv.
  destruct size as [|p|p]; [| |lia].
  - intros H; injection H as <-; reflexivity.
  - unfold F64.of_fraction, checked.
    pose proof (nearest_sign false p d) as Hs.
    destruct (F64.nearest false p d) eqn:E; try discriminate;
      intros H; injection H as <-; now apply has_sign_nonneg.
Qed.

(** X22. The file block of every returned report holds the absolute
    path, the base name and the size divided by 1024 and rounded to 2
    places, whatever the tags are; the size in KB is not below zero when
    the size is not. *)
Theorem file_block (fs : filesystem) (image_path : string) (r : report) :
  snd (extract_metadata fs image_path) = Ok r ->
  exists size kb,
    os_path_getsize (fs image_path) = Ok size /\
    int_truediv size 1024 = Ok kb /\
    file r = {| path := abspath image_path;
                filename := basename image_path;
                size_kb := F64.round kb 2 |} /\
    (0 <= size -> F64.nonneg (size_kb (file r)) = true).
Proof.
  intros Hr.
  destruct (get_exif_data fs image_path) as [out [exif|e]] eqn:Hexif.
  2:{ unfold extract_metadata in Hr; rewrite Hexif in Hr; discriminate. }
  destruct (extract_metadata_returns _ _ _ _ _ Hexif Hr)
    as (size & kb & Hsize & Hkb & Hcase).
  exists size, kb; split; auto; split; auto.
  assert (Hfile : file r = file (initial image_path kb)).
  { destruct Hcase as [[_ ->] | [_ Hc]]; auto.
    apply classify_returns in Hc as (g & dev & dat & img & _ & _ & _ & _ & ->).
    reflexivity. }
  rewrite Hfile; split; [reflexivity|].
  intros Hpos; cbn [initial file size_kb].
  apply round_nonneg, (int_truediv_nonneg size 1024 kb Hpos Hkb).
Qed.

(** X20. [extract_metadata] returns a report, silently, for an image
    with a tag directory when the file size divides, [extract_gps]
    returns, every device and date tag present has a string form, and so
    has every image-settings tag that needs one. *)
Theorem extract_metadata_returns_when (fs : filesystem) (image_path : string)
        (size : Z) (raw exif : Dict.t pyval) (kb : float) :
  fs image_path = ImageFile size (ExifTags raw) ->
  snd (get_exif_data fs image_path) = Ok exif ->
  int_truediv size 1024 = Ok kb ->
  is_ok (extract_gps exif) = true ->
  (forall tag v, In tag (device_tags ++ datetime_tags) ->
                 Dict.get (KStr tag) exif = Some v -> is_ok (py_str v) = true) ->
  (forall tag v, In tag image_tags -> Dict.get (KStr tag) exif = Some v ->
                 needs_str v -> is_ok (py_str v) = true) ->
  exists r, extract_metadata fs image_path = ([], Ok r).
Proof.
  intros Hfs Hexif Hkb Hgps Hstr Himg.
  unfold extract_metadata.
  destruct (get_exif_data fs image_path) as [out r] eqn:Hg.
  cbn [snd] in Hexif; subst r.
  assert (out = []) as ->.
  { unfold get_exif_data in Hg; rewrite Hfs in Hg; cbn [image_open] in Hg.
    now injection Hg as <- _. }
  rewrite Hfs; cbn [os_path_getsize bind]; rewrite Hkb; cbn [bind].
  destruct (negb (Dict.truthy exif)); [eauto|].
  unfold classify.
  destruct (extract_gps exif) as [g|e]; [cbn [bind] | discriminate].
  destruct (tag_loop_ok device_value device_tags exif)
    with (bucket := @nil (pykey * pyval)) as [dev Hdev].
  { intros tag v Hin Hget; unfold device_value.
    pose proof (Hstr tag v (in_or_app _ _ _ (or_introl Hin)) Hget) as Hs.
    destruct (py_str v); [simpl; eauto | discriminate]. }
  destruct (tag_loop_ok stringified datetime_tags exif)
    with (bucket := @nil (pykey * pyval)) as [dat Hdat].
  { intros tag v Hin Hget; unfold stringified.
    pose proof (Hstr tag v (in_or_app _ _ _ (or_intror Hin)) Hget) as Hs.
    destruct (py_str v); [simpl; eauto | discriminate]. }
  destruct (tag_loop_ok image_value image_tags exif)
    with (bucket := @nil (pykey * pyval)) as [img Hi].
  { intros tag v Hin Hget.
    destruct (image_value_entry v) as (x & Hx & _); eauto.
    intros Hn; pose proof (Himg tag v Hin Hget Hn) as Hs.
    destruct (py_str v); [eauto | discriminate]. }
  unfold device_loop, datetime_loop, image_loop; cbn [device datetime image].
  rewrite Hdev; cbn [bind]; rewrite Hdat; cbn [bind]; rewrite Hi; cbn [bind].
  eauto.
Qed.

End Reports.

(** * The printed report *)

Section Printing.
Context {rt : Runtime}.

Lemma and_then_ok {A B : Type} (c : printing A) (k : A -> printing B)
      (lines : list string) (b : B) :
  and_then c k = (lines, Ok b) ->
  exists l1 a l2,
    c = (l1, Ok a) /\ k a = (l2, Ok b) /\ lines = (l1 ++ l2)%list.
Proof.
  destruct c as [l1 [a|e]]; unfold and_then; cbn [fst snd]; [|discriminate].
  destruct (k a) as [l2 r] eqn:Hk; cbn [fst snd].
  intros H; injection H as <- ->; exists l1, a, l2; auto.
Qed.

Lemma and_then_print {A : Type} (s : string) (k : printing A) :
  and_then (print s) (fun _ => k) = (s :: fst k, snd k).
Proof. reflexivity. Qed.

Lemma and_then_value {A B : Type} (a : A) (k : A -> printing B) :
  and_then (silent (Ok a)) k = k a.
Proof. unfold and_then, silent; cbn [fst snd app]; now destruct (k a). Qed.

Lemma fmt_printable (v : pyval) :
  printable v = true -> exists s, fmt v = Ok s.
Proof. destruct v; try discriminate; simpl; eauto. Qed.

(** The entries of a block print, one line each, when every value has a
    text. *)
Lemma print_entries_ok (data : Dict.t pyval) :
  Forall (fun kv => exists s, fmt (snd kv) = Ok s) data ->
  exists lines, print_entries data = (lines, Ok tt) /\
                List.length lines = List.length data.
Proof.
  induction data as [|[k v] data IH]; intros Hall; cbn [print_entries].
  - exists []; auto.
  - inversion Hall as [|? ? [s Hs] Htail]; subst; cbn [snd] in Hs.
    destruct (IH Htail) as (lines & Hlines & Hlen).
    rewrite Hs, and_then_value, and_then_print, Hlines; cbn [fst snd].
    eexists; split; [reflexivity|]; simpl; now rewrite Hlen.
Qed.

Lemma print_entries_length (data : Dict.t pyval) (lines : list string) :
  print_entries data = (lines, Ok tt) -> List.length lines = List.length data.
Proof.
  revert lines; induction data as [|[k v] data IH]; intros lines;
    cbn [print_entries].
  - intros H; injection H as <-; reflexivity.
  - intros H; apply and_then_ok in H as (l1 & s & l2 & Hs & H & ->).
    injection Hs as <- Hs.
    rewrite and_then_print in H.
    destruct (print_entries data) as [l3 [[]|e]] eqn:Hrest; cbn [fst snd] in H;
      [|discriminate].
    injection H as <-; simpl; now rewrite (IH l3).
Qed.

(** X23. [print_section] prints nothing for an empty block; for a block
    whose values have a text it prints the header and then one line for
    each entry, and returns. *)
Theorem print_section_lines (title : string) (data : Dict.t pyval) :
  Forall (fun kv => is_ok (fmt (snd kv)) = true) data ->
  exists lines,
    print_section title data = (lines, Ok tt) /\
    List.length lines = section_size data /\
    (data <> [] -> hd_error lines = Some (section_header title)).
Proof.
  intros Hall; unfold print_section.
  destruct data as [|kv data]; cbn [Dict.truthy negb].
  - exists []; repeat split; congruence.
  - destruct (print_entries_ok (kv :: data)) as (lines & Hlines & Hlen).
    { eapply Forall_impl; [|exact Hall].
      intros [k v]; cbn [snd]; destruct (fmt v); [eauto | discriminate]. }
    rewrite and_then_print, Hlines; cbn [fst snd].
    eexists; split; [reflexivity|]; split; [|reflexivity].
    cbn [section_size List.length]; now rewrite Hlen.
Qed.

Lemma print_section_length (title : string) (data : Dict.t pyval)
      (lines : list string) :
  print_section title data = (lines, Ok tt) ->
  List.length lines = section_size data.
Proof.
  unfold print_section; destruct data as [|kv data]; cbn [Dict.truthy negb].
  - intros H; injection H as <-; reflexivity.
  - rewrite and_then_print.
    destruct (print_entries (kv :: data)) as [l [[]|e]] eqn:Hl; cbn [fst snd];
      [|discriminate].
    intros H; injection H as <-.
    cbn [section_size List.length]; now rewrite (print_entries_length _ _ Hl).
Qed.

Lemma print_section_ok (title : string) (data : Dict.t pyval) :
  Forall (fun kv => printable (snd kv) = true) data ->
  exists lines, print_section title data = (lines, Ok tt).
Proof.
  intros Hall; unfold print_section.
  destruct (negb (Dict.truthy data)); [eexists; reflexivity|].
  destruct (print_entries_ok data) as (lines & Hlines & _).
  { eapply Forall_impl; [|exact Hall].
    intros [k v] Hp; now apply fmt_printable. }
  rewrite and_then_print, Hlines; eexists; reflexivity.
Qed.

Lemma print_gps_length (g : option (Dict.t pyval)) (lines : list string) :
  print_gps g = (lines, Ok tt) -> List.length lines = gps_size g.
Proof.
  unfold print_gps, gps_size.
  destruct (gps_truthy g); [|intros H; injection H as <-; reflexivity].
  set (gps := match g with Some block => block | None => [] end).
  rewrite and_then_print.
  intros H; injection H as <- H.
  destruct (Dict.mem (KStr "latitude") gps).
  - destruct (v <- getkey "latitude" gps ;; fmt v) as [s1|e]; [|discriminate].
    rewrite and_then_value, and_then_print in H |- *.
    destruct (v <- getkey "longitude" gps ;; fmt v) as [s2|e]; [|discriminate].
    rewrite and_then_value, and_then_print in H |- *.
    destruct (v <- getkey "maps_url" gps ;; fmt v) as [s3|e]; [|discriminate].
    rewrite and_then_value in H |- *.
    destruct (Dict.mem (KStr "altitude_meters") gps); [|reflexivity].
    destruct (v <- getkey "altitude_meters" gps ;; fmt v) as [s4|e];
      [reflexivity | discriminate].
  - rewrite and_then_value in H |- *.
    destruct (Dict.mem (KStr "altitude_meters") gps); [|reflexivity].
    destruct (v <- getkey "altitude_meters" gps ;; fmt v) as [s4|e];
      [reflexivity | discriminate].
Qed.

End Printing.

Section Reporting.
Context {rt : Runtime}.

Lemma and_then_section {A : Type} (c : printing unit) (k : printing A)
      (lines : list string) :
  c = (lines, Ok tt) ->
  and_then c (fun _ => k) = ((lines ++ fst k)%list, snd k).
Proof. intros ->; reflexivity. Qed.

Lemma print_report_length (meta : report) (lines : list string) :
  print_report meta = (lines, Ok tt) ->
  List.length lines =
  (8 + gps_size (gps meta) + section_size (device meta)
   + section_size (datetime meta) + section_size (image meta)
   + section_size (other meta))%nat.
Proof.
  unfold print_report; intros H.
  do 7 (apply and_then_ok in H as (? & [] & ? & Hp & H & ->);
        injection Hp as <-).
  apply and_then_ok in H as (l1 & [] & l1' & Hgps & H & ->).
  apply and_then_ok in H as (l2 & [] & l2' & Hdev & H & ->).
  apply and_then_ok in H as (l3 & [] & l3' & Hdat & H & ->).
  apply and_then_ok in H as (l4 & [] & l4' & Himg & H & ->).
  apply and_then_ok in H as (l5 & [] & l5' & Hoth & H & ->).
  injection H as <-.
  assert (Hother : List.length l5 = section_size (other meta)).
  { destruct (other meta) as [|kv o]; cbn [Dict.truthy] in Hoth.
    - injection Hoth as <-; reflexivity.
    - now apply print_section_length in Hoth. }
  rewrite !length_app, (print_gps_length _ _ Hgps),
    (print_section_length _ _ _ Hdev), (print_section_length _ _ _ Hdat),
    (print_section_length _ _ _ Himg), Hother; simpl; lia.
Qed.

(** The values of a returned GPS block print. *)
Lemma print_gps_block (gps g : Dict.t pyval) :
  gps_block gps = Ok (Some g) ->
  exists lines, print_gps (Some g) = (lines, Ok tt).
Proof.
  intros H; apply gps_block_shape in H as (coords & alt & -> & Hc & Ha).
  destruct (coordinates_present gps);
    destruct (py_truthy (get_or_none "GPSAltitude" gps));
    repeat match goal with
           | H : exists _, _ |- _ => destruct H
           end; subst; eexists; reflexivity.
Qed.

Lemma image_value_printable (val x : pyval) :
  image_value val = Ok x -> printable x = true.
Proof.
  unfold image_value, stringified.
  destruct (has_float val).
  - destruct (py_float val); simpl.
    + intros H; now injection H as <-.
    + destruct (py_str val); simpl; [|discriminate].
      intros H; now injection H as <-.
  - destruct (py_str val); simpl; [|discriminate].
    intros H; now injection H as <-.
Qed.

Lemma print_report_returns (fs : filesystem) (image_path : string)
        (meta : report) :
  snd (extract_metadata fs image_path) = Ok meta ->
  exists lines, print_report meta = (lines, Ok tt).
Proof.
  intros Hr.
  destruct (get_exif_data fs image_path) as [out [exif|e]] eqn:Hexif.
  2:{ unfold extract_metadata in Hr; rewrite Hexif in Hr; discriminate. }
  destruct (extract_metadata_returns _ _ _ _ _ Hexif Hr)
    as (size & kb & _ & _ & [[_ ->] | [_ Hc]]); [eexists; reflexivity|].
  apply classify_returns in Hc as (g & dev & dat & img & Hg & Hdev & Hdat & Himg & ->).
  cbn [device datetime image other initial] in *.
  assert (Hgps : exists lines, print_gps g = (lines, Ok tt)).
  { destruct g as [g|]; [|eexists; reflexivity].
    apply extract_gps_some in Hg as (items & _ & Hb).
    eapply print_gps_block; eauto. }
  assert (Hpdev : exists lines, print_section "Device / Camera" dev = (lines, Ok tt)).
  { apply print_section_ok.
    apply (tag_loop_values (fun x => printable x = true) device_value
             device_tags exif) with (bucket := []); auto.
    intros v x; unfold device_value; destruct (py_str v); simpl; [|discriminate].
    intros H; now injection H as <-. }
  assert (Hpdat : exists lines, print_section "Date & Time" dat = (lines, Ok tt)).
  { apply print_section_ok.
    apply (tag_loop_values (fun x => printable x = true) stringified
             datetime_tags exif) with (bucket := []); auto.
    intros v x; unfold stringified; destruct (py_str v); simpl; [|discriminate].
    intros H; now injection H as <-. }
  assert (Hpimg : exists lines, print_section "Image Settings" img = (lines, Ok tt)).
  { apply print_section_ok.
    apply (tag_loop_values (fun x => printable x = true) image_value
             image_tags exif) with (bucket := []); auto.
    apply image_value_printable. }
  assert (Hpoth : exists lines,
             (if Dict.truthy (other_loop exif [])
              then print_section "Other Metadata" (other_loop exif [])
              else silent (Ok tt)) = (lines, Ok tt)).
  { destruct (Dict.truthy (other_loop exif [])); [|eexists; reflexivity].
    apply print_section_ok.
    apply (other_loop_values (fun x => printable x = true)); auto. }
  destruct Hgps as [l1 H1], Hpdev as [l2 H2], Hpdat as [l3 H3],
    Hpimg as [l4 H4], Hpoth as [l5 H5].
  unfold print_report; cbn [file gps device datetime image other].
  rewrite !and_then_print; cbn [fst snd].
  rewrite (and_then_section _ _ _ H1); cbn [fst snd].
  rewrite (and_then_section _ _ _ H2); cbn [fst snd].
  rewrite (and_then_section _ _ _ H3); cbn [fst snd].
  rewrite (and_then_section _ _ _ H4); cbn [fst snd].
  rewrite (and_then_section _ _ _ H5); cbn [fst snd].
  eexists; reflexivity.
Qed.

(** X25. [print_report] relies on the coordinate keys coming together:
    on a report whose GPS block has a latitude and no longitude it
    prints 9 lines, the last being the latitude, and raises
    [KeyError]. *)
Theorem print_report_needs_longitude (meta : report) (g : Dict.t pyval)
        (la : pyval) :
  gps meta = Some g ->
  Dict.get (KStr "latitude") g = Some la -> printable la = true ->
  Dict.mem (KStr "longitude") g = false ->
  snd (print_report meta) = Raise KeyError /\
  List.length (fst (print_report meta)) = 9%nat /\
  exists s,
    fmt la = Ok s /\
    nth_error (fst (print_report meta)) 8
    = Some ("  " ++ ljust 25 "Latitude" ++ " " ++ s).
Proof.
  intros Hg Hla Hp Hlo.
  destruct (fmt_printable la Hp) as [s Hs].
  assert (Hne : Dict.truthy g = true) by (destruct g; [discriminate | reflexivity]).
  assert (Hgps : print_gps (Some g)
                 = ([section_header "GPS Location";
                     "  " ++ ljust 25 "Latitude" ++ " " ++ s], Raise KeyError)).
  { unfold print_gps; cbn [gps_truthy]; rewrite Hne.
    unfold Dict.mem at 1; rewrite Hla.
    unfold getkey at 1 2; rewrite Hla; cbn [bind]; rewrite Hs.
    unfold Dict.mem in Hlo.
    destruct (Dict.get (KStr "longitude") g) eqn:Hl; [discriminate|].
    reflexivity. }
  unfold print_report; rewrite Hg, Hgps.
  split; [reflexivity|]; split; [reflexivity|].
  exists s; split; [exact Hs | reflexivity].
Qed.

(** X24. [print_report] never raises on a report [extract_metadata]
    returned, and prints 8 fixed lines, the GPS section (2 lines when
    there is no block; else the header, 3 lines for the coordinates when
    present and 1 for the altitude when present), and for each
    non-empty bucket its header and one line for each entry; an empty
    bucket prints nothing. *)
Theorem print_report_succeeds (fs : filesystem) (image_path : string)
        (meta : report) :
  snd (extract_metadata fs image_path) = Ok meta ->
  exists lines,
    print_report meta = (lines, Ok tt) /\
    List.length lines =
    (8 + gps_size (gps meta) + section_size (device meta)
     + section_size (datetime meta) + section_size (image meta)
     + section_size (other meta))%nat.
Proof.
  intros Hr; destruct (print_report_returns _ _ _ Hr) as [lines Hlines].
  exists lines; split; [exact Hlines | now apply print_report_length].
Qed.

End Reporting.

(** * Runs of the command line *)

Section Runs.
Context {rt : Runtime}.
Variable now : string.
Variable json_dump : report -> string.
Variable open_for_writing : string -> result unit.

Lemma not_written_by_print (lines : list string) (name content : string) :
  ~ In (WriteFile name content) (map Print lines).
Proof.
  intros H; apply in_map_iff in H as (s & Hs & _); discriminate.
Qed.

(** A file written while a path is analysed: the report of that path,
    after the answer yes. *)
Lemma analyse_writes (fs : filesystem) (image_path : string)
      (stdin : list string) (name content : string) :
  In (WriteFile name content)
     (fst (analyse now json_dump open_for_writing fs image_path stdin)) ->
  exists answer rest meta,
    stdin = answer :: rest /\
    String.eqb (lower (strip answer)) "y" = true /\
    snd (extract_metadata fs image_path) = Ok meta /\
    name = filename (file meta) ++ "_metadata_" ++ now ++ ".json" /\
    content = json_dump meta /\
    open_for_writing name = Ok tt.
Proof.
  unfold analyse, after; cbn [fst snd].
  destruct (extract_metadata fs image_path) as [messages [meta|e]];
    cbn [fst snd app].
  2:{ intros [H | H]; [discriminate|].
      rewrite app_nil_r in H; now apply not_written_by_print in H. }
  destruct (print_report meta) as [lines [[]|e]]; cbn [fst snd].
  2:{ intros [H | H]; [discriminate|].
      rewrite app_nil_r in H.
      apply in_app_or in H as [H | H]; now apply not_written_by_print in H. }
  intros [H | H]; [discriminate|].
  apply in_app_or in H as [H | H]; [now apply not_written_by_print in H|].
  apply in_app_or in H as [H | H]; [now apply not_written_by_print in H|].
  unfold ask_to_save, after in H; cbn [fst snd app] in H.
  destruct H as [H | H]; [discriminate|].
  destruct stdin as [|answer rest]; [contradiction|].
  destruct (String.eqb (lower (strip answer)) "y") eqn:Hy; [|contradiction].
  unfold save_report in H.
  destruct (open_for_writing _) as [[]|e] eqn:Hopen; [|contradiction].
  destruct H as [H | [H | []]]; [|discriminate].
  injection H as <- <-.
  exists answer, rest, meta; auto 10.
Qed.

(** X28. Every file a run of [main] writes is the JSON text of the
    report that [extract_metadata] returned for the path [main] chose
    (the first argument, or the typed line stripped), which is not
    empty; it goes under the name made of the base name, "_metadata_",
    the time stamp and ".json", which could be created; and it is
    written only when the line read after the path is "y" once stripped
    and lowered. *)
Theorem main_writes_only_on_yes (fs : filesystem) (argv stdin : list string)
        (name content : string) :
  In (WriteFile name content)
     (fst (main now json_dump open_for_writing fs argv stdin)) ->
  exists asked image_path answer rest meta,
    choose_path argv stdin = (asked, Some (image_path, answer :: rest)) /\
    image_path <> "" /\
    lower (strip answer) = "y" /\
    snd (extract_metadata fs image_path) = Ok meta /\
    name = filename (file meta) ++ "_metadata_" ++ now ++ ".json" /\
    content = json_dump meta /\
    open_for_writing name = Ok tt.
Proof.
  unfold main, after; cbn [fst snd].
  intros H; apply in_app_or in H as [H | H];
    [now apply not_written_by_print in H|].
  destruct (choose_path argv stdin) as [asked chosen] eqn:Hc; cbn [fst snd] in H.
  assert (Hasked : ~ In (WriteFile name content) asked).
  { unfold choose_path in Hc.
    destruct argv as [|prog [|arg more]]; injection Hc as <- _;
      simpl; intuition discriminate. }
  apply in_app_or in H as [H | H]; [contradiction|].
  destruct chosen as [[image_path rest]|]; [|contradiction].
  destruct (String.eqb image_path "") eqn:Hne;
    [destruct H as [H | []]; discriminate|].
  apply String.eqb_neq in Hne.
  apply analyse_writes
    in H as (answer & rest' & meta & -> & Hy & Hmeta & Hname & Hcontent & Hopen).
  apply String.eqb_eq in Hy.
  exists asked, image_path, answer, rest', meta; auto 10.
Qed.

(** X26. With an empty first argument, or with no argument and a typed
    line that is empty or whitespace only, [main] prints the banner and
    the notice that no file was provided (after the prompt, if it asked)
    and returns: nothing is analysed and nothing is written. *)
Theorem main_without_a_path (fs : filesystem) (argv stdin : list string) :
  (exists prog more, argv = prog :: "" :: more) \/
  ((List.length argv <= 1)%nat /\
   exists line rest, stdin = line :: rest /\ strip line = "") ->
  main now json_dump open_for_writing fs argv stdin
  = ((map Print banner ++ fst (choose_path argv stdin)
      ++ [Print (RED ++ "No file provided. Exiting." ++ RESET)])%list,
     Returned).
Proof.
  intros [(prog & more & ->) | (Hlen & line & rest & -> & Hline)].
  - reflexivity.
  - unfold main, after.
    destruct argv as [|prog [|arg more]]; simpl in Hlen; try lia;
      cbn [choose_path fst snd]; rewrite Hline; reflexivity.
Qed.

(** X27. For a path with no file behind it, [main] prints the banner,
    the line that announces the analysis and the message that the file
    was not found, and then ends with [FileNotFoundError]: no report is
    printed and the question about saving is not asked. *)
Theorem main_missing_file (fs : filesystem) (argv stdin : list string)
        (asked : list event) (image_path : string) (rest : list string) :
  choose_path argv stdin = (asked, Some (image_path, rest)) ->
  image_path <> "" ->
  fs image_path = Missing ->
  main now json_dump open_for_writing fs argv stdin
  = ((map Print banner ++ asked
      ++ [Print (LF ++ CYAN ++ "Analyzing: " ++ image_path ++ RESET);
          Print (RED ++ "Error: File not found: " ++ image_path ++ RESET)])%list,
     Raised FileNotFoundError).
Proof.
  intros Hc Hne Hfs; unfold main, after; rewrite Hc; cbn [fst snd].
  apply String.eqb_neq in Hne; rewrite Hne.
  unfold analyse, after, extract_metadata, get_exif_data.
  rewrite Hfs; reflexivity.
Qed.

(** X29. For a path that is not empty and for which [extract_metadata]
    returns a report, an answer that is "y" once stripped and lowered,
    and a file that can be created, [main] prints the banner, the
    messages and the whole report, asks, writes the file, confirms with
    its name and returns. *)
Theorem main_saves_report (fs : filesystem) (argv stdin : list string)
        (asked : list event) (image_path answer : string)
        (rest : list string) (meta : report) :
  choose_path argv stdin = (asked, Some (image_path, answer :: rest)) ->
  image_path <> "" ->
  snd (extract_metadata fs image_path) = Ok meta ->
  lower (strip answer) = "y" ->
  open_for_writing (filename (file meta) ++ "_metadata_" ++ now ++ ".json")
  = Ok tt ->
  exists lines,
    print_report meta = (lines, Ok tt) /\
    main now json_dump open_for_writing fs argv stdin
    = ((map Print banner ++ asked
        ++ [Print (LF ++ CYAN ++ "Analyzing: " ++ image_path ++ RESET)]
        ++ map Print (fst (extract_metadata fs image_path))
        ++ map Print lines
        ++ [Prompt "Save report as JSON? (y/n): ";
            WriteFile (filename (file meta) ++ "_metadata_" ++ now ++ ".json")
                      (json_dump meta);
            Print (GREEN ++ "Report saved to: "
                   ++ (filename (file meta) ++ "_metadata_" ++ now ++ ".json")
                   ++ RESET ++ LF)])%list,
       Returned).
Proof.
  intros Hc Hne Hmeta Hy Hopen.
  destruct (print_report_returns _ _ _ Hmeta) as [lines Hlines].
  exists lines; split; [exact Hlines|].
  unfold main, after; rewrite Hc; cbn [fst snd].
  apply String.eqb_neq in Hne; rewrite Hne.
  unfold analyse, after.
  destruct (extract_metadata fs image_path) as [messages r]; cbn [fst snd] in *.
  subst r; rewrite Hlines; cbn [fst snd].
  unfold ask_to_save, after; rewrite Hy; cbn [String.eqb Ascii.eqb].
  unfold save_report; rewrite Hopen; reflexivity.
Qed.

End Runs.

(** * The further theorems at sample inputs *)

(** X3, at a latitude of two parts. *)
Lemma convert_short_sequence_witness :
  convert_gps_coordinate (rt := Sample.runtime)
    (PyTuple [PyRational 40 1; PyRational 26 1]) (PyStr "N")
  = Raise IndexError.
Proof.
  apply (convert_short_sequence (rt := Sample.runtime)).
  - simpl; lia.
  - repeat constructor.
Defined.

(** X4, at a latitude already in decimal degrees. *)
Lemma convert_not_a_sequence_witness :
  convert_gps_coordinate (rt := Sample.runtime) (PyRational 40446111 1000000)
    (PyStr "N")
  = Raise TypeError.
Proof.
  exact (convert_not_a_sequence (rt := Sample.runtime)
           (PyRational 40446111 1000000) (PyStr "N") (or_intror eq_refl)).
Defined.

(** X5, at the reference "w" in lower case. *)
Lemma convert_reference_exact_witness :
  convert_gps_coordinate (rt := Sample.runtime) (Inputs.dms 73 59 11) (PyStr "w")
  = convert_gps_coordinate (rt := Sample.runtime) (Inputs.dms 73 59 11) (PyStr "N").
Proof.
  apply (convert_reference_exact (rt := Sample.runtime)); discriminate.
Defined.


(** X1, at a directory with a tag id that has no name. *)
Lemma get_exif_data_last_wins_witness :
  exists exif,
    get_exif_data (rt := Sample.runtime) (Cases.image_with Cases.raw_tags) "a.jpg"
    = ([], Ok exif) /\
    Dict.wf exif /\
    forall k, Dict.get k exif
              = last_assigned k (renamed Sample.tag_name Cases.raw_tags).
Proof.
  exact (get_exif_data_last_wins (rt := Sample.runtime)
           (Cases.image_with Cases.raw_tags) "a.jpg" 2048 Cases.raw_tags eq_refl).
Defined.

(** X2, at an image of 2048 bytes. *)
Lemma image_without_exif_reader_witness :
  get_exif_data (rt := Sample.runtime)
    (fun _ => ImageFile 2048 NoExifMethod) "a.png"
  = ([], Raise AttributeError) /\
  extract_metadata (rt := Sample.runtime)
    (fun _ => ImageFile 2048 NoExifMethod) "a.png"
  = ([], Raise AttributeError).
Proof.
  exact (image_without_exif_reader (rt := Sample.runtime)
           (fun _ => ImageFile 2048 NoExifMethod) "a.png" 2048 eq_refl).
Defined.

(** X9, at an offset. *)
Lemma extract_gps_not_a_mapping_witness :
  extract_gps (rt := Sample.runtime) Cases.exif_offset = Raise AttributeError.
Proof.
  apply (extract_gps_not_a_mapping (rt := Sample.runtime) _ (PyInt 8190));
    [reflexivity | reflexivity | discriminate].
Defined.

(** X10, at a position with an altitude. *)
Lemma extract_gps_keys_witness :
  exists g,
    extract_gps (rt := Sample.runtime) Cases.exif_above = Ok (Some g) /\
    exists items,
      Dict.get (KStr "GPSInfo") Cases.exif_above = Some (PyDict items) /\
      Dict.keys g =
        ((if coordinates_present (gps_named items)
          then [KStr "latitude"; KStr "longitude"; KStr "maps_url"] else [])
         ++ (if py_truthy (get_or_none "GPSAltitude" (gps_named items))
             then [KStr "altitude_meters"] else []))%list.
Proof.
  eexists; split; [vm_compute; reflexivity|].
  apply (extract_gps_keys (rt := Sample.runtime) Cases.exif_above).
  vm_compute; reflexivity.
Defined.

(** X11, at the scenario with coordinates. *)
Lemma extract_gps_link_witness :
  exists g,
    extract_gps (rt := Sample.runtime) Inputs.exif_with_gps = Ok (Some g) /\
    exists la lo,
      Dict.get (KStr "latitude") g = Some (PyFloat la) /\
      Dict.get (KStr "longitude") g = Some (PyFloat lo) /\
      PyStr "https://maps.google.com/?q=40.446111,-73.986389"
      = PyStr ("https://maps.google.com/?q=" ++ Sample.float_text la ++ ","
               ++ Sample.float_text lo).
Proof.
  eexists; split; [vm_compute; reflexivity|].
  apply (extract_gps_link (rt := Sample.runtime) Inputs.exif_with_gps);
    vm_compute; reflexivity.
Defined.

(** X12, at an altitude of 100 m above and below sea level. *)
Lemma extract_gps_reads_five_fields_witness :
  extract_gps (rt := Sample.runtime) Cases.exif_above
  = extract_gps (rt := Sample.runtime) Cases.exif_below.
Proof.
  apply (extract_gps_reads_five_fields (rt := Sample.runtime)
           Cases.exif_above Cases.exif_below Cases.gps_above Cases.gps_below);
    [reflexivity | reflexivity |].
  intros name Hin; simpl in Hin.
  repeat (destruct Hin as [<- | Hin]; [reflexivity|]).
  contradiction.
Defined.

(** X13, at the tag "Make", whose text ends with a no-break space. *)
Lemma device_and_datetime_values_witness :
  exists r,
    snd (extract_metadata (rt := Sample.runtime)
           (Cases.image_with Cases.raw_tags) "a.jpg") = Ok r /\
    (In "Make" device_tags ->
     exists s, Sample.str_text (PyStr (" Canon" ++ Cases.nbsp)) = Ok s /\
               Dict.get (KStr "Make") (device r) = Some (PyStr (strip s))) /\
    (In "Make" datetime_tags ->
     exists s, Sample.str_text (PyStr (" Canon" ++ Cases.nbsp)) = Ok s /\
               Dict.get (KStr "Make") (datetime r) = Some (PyStr s)).
Proof.
  eexists; split; [vm_compute; reflexivity|].
  eapply (device_and_datetime_values (rt := Sample.runtime)
            (Cases.image_with Cases.raw_tags) "a.jpg");
    vm_compute; reflexivity.
Defined.

(** X14, at a maker between a space and a no-break space. *)
Lemma device_values_trimmed_witness :
  exists t, PyStr "Canon" = PyStr t /\
            starts_with_space t = false /\ ends_with_space t = false.
Proof.
  eapply (device_values_trimmed (rt := Sample.runtime)
            (Cases.image_with Cases.raw_tags) "a.jpg" _ (KStr "Make"));
    vm_compute; reflexivity.
Defined.

(** X15, at the tag id 59932. *)
Lemma other_bucket_values_witness :
  exists r,
    snd (extract_metadata (rt := Sample.runtime)
           (Cases.image_with Cases.raw_tags) "a.jpg") = Ok r /\
    Dict.get (KInt 59932) (other r) =
    match Sample.str_text (PyInt 7) with
    | Ok s => Some (PyStr s)
    | Raise _ => None
    end.
Proof.
  eexists; split; [vm_compute; reflexivity|].
  eapply (other_bucket_values (rt := Sample.runtime)
            (Cases.image_with Cases.raw_tags) "a.jpg");
    vm_compute; reflexivity.
Defined.

(** X16, at the tag "Model", which the directory does not hold. *)
Lemma buckets_hold_only_tags_read_witness :
  exists r,
    snd (extract_metadata (rt := Sample.runtime)
           (Cases.image_with Cases.raw_tags) "a.jpg") = Ok r /\
    Dict.mem (KStr "Model") (device r) = false /\
    Dict.mem (KStr "Model") (datetime r) = false /\
    Dict.mem (KStr "Model") (image r) = false /\
    Dict.mem (KStr "Model") (other r) = false.
Proof.
  eexists; split; [vm_compute; reflexivity|].
  eapply (buckets_hold_only_tags_read (rt := Sample.runtime)
            (Cases.image_with Cases.raw_tags) "a.jpg");
    vm_compute; reflexivity.
Defined.

(** X17, at a tag map that holds FNumber before Flash. *)
Lemma bucket_order_witness :
  exists r,
    snd (extract_metadata (rt := Sample.runtime)
           (Cases.image_with Inputs.exif_mixed) "a.jpg") = Ok r /\
    Dict.keys (device r) = [KStr "Make"] /\
    Dict.keys (datetime r) = [KStr "DateTime"] /\
    Dict.keys (image r) = [KStr "Flash"; KStr "FNumber"] /\
    Dict.keys (other r) = [KInt 59932; KStr "Copyright"].
Proof.
  eexists; split; [vm_compute; reflexivity|].
  exact (bucket_order (rt := Sample.runtime)
           (Cases.image_with Inputs.exif_mixed) "a.jpg" [] Inputs.exif_mixed _
           eq_refl eq_refl).
Defined.

(** X18, at a latitude whose parts are pairs. *)
Lemma gps_error_aborts_report_witness :
  extract_metadata (rt := Sample.runtime)
    (Cases.image_with Cases.raw_bad_gps) "a.jpg"
  = ([], Raise TypeError).
Proof.
  eapply (gps_error_aborts_report (rt := Sample.runtime)
            (Cases.image_with Cases.raw_bad_gps) "a.jpg" 2048 Cases.raw_bad_gps).
  - reflexivity.
  - vm_compute; reflexivity.
  - vm_compute; reflexivity.
  - vm_compute; reflexivity.
Defined.

(** X19, at a maker that is a rational too large for a float. *)
Lemma unprintable_tag_aborts_report_witness :
  exists e,
    snd (extract_metadata (rt := Sample.runtime)
           (Cases.image_with Cases.raw_huge) "a.jpg") = Raise e.
Proof.
  eapply (unprintable_tag_aborts_report (rt := Sample.runtime)
            (Cases.image_with Cases.raw_huge) "a.jpg" [] _ "Make").
  - vm_compute; reflexivity.
  - now left.
  - vm_compute; reflexivity.
  - vm_compute; reflexivity.
Defined.

(** X21, at an image with an empty directory. *)
Lemma empty_tag_map_report_witness :
  extract_metadata (rt := Sample.runtime)
    (fun _ => ImageFile 2048 (ExifTags [])) "a.png"
  = ([],
     Ok {| file := {| path := "/a.png"; filename := "a.png";
                      size_kb := F64.round (F64.of_Z 2) 2 |};
           gps := None; device := []; datetime := []; image := [];
           other := [] |}).
Proof.
  exact (empty_tag_map_report (rt := Sample.runtime)
           (fun _ => ImageFile 2048 (ExifTags [])) "a.png" [] 2048 (F64.of_Z 2)
           eq_refl eq_refl eq_refl).
Defined.

(** X22, at an image of 2048 bytes in a directory. *)
Lemma file_block_witness :
  exists r size kb,
    snd (extract_metadata (rt := Sample.runtime)
           (Cases.image_with Cases.raw_tags) "photos/a.jpg") = Ok r /\
    os_path_getsize (Cases.image_with Cases.raw_tags "photos/a.jpg") = Ok size /\
    int_truediv size 1024 = Ok kb /\
    file r = {| path := "/photos/a.jpg"; filename := "a.jpg";
                size_kb := F64.round kb 2 |} /\
    (0 <= size -> F64.nonneg (size_kb (file r)) = true).
Proof.
  eexists.
  assert (H : snd (extract_metadata (rt := Sample.runtime)
                     (Cases.image_with Cases.raw_tags) "photos/a.jpg") = Ok _)
    by (vm_compute; reflexivity).
  destruct (file_block (rt := Sample.runtime) _ _ _ H)
    as (size & kb & H1 & H2 & H3 & H4).
  exists size, kb; repeat split; auto.
Defined.

(** The device and date tags of the sample tag map have a string form. *)
Lemma sample_text_tags (tag : string) (v : pyval) :
  In tag (device_tags ++ datetime_tags) ->
  Dict.get (KStr tag) Inputs.exif_mixed = Some v ->
  is_ok (py_str (Runtime := Sample.runtime) v) = true.
Proof.
  intros Hin Hget; simpl in Hin.
  repeat (destruct Hin as [<- | Hin];
          [vm_compute in Hget; try discriminate Hget;
           injection Hget as <-; reflexivity|]).
  contradiction.
Defined.

(** So have its image-settings tags. *)
Lemma sample_image_tags (tag : string) (v : pyval) :
  In tag image_tags ->
  Dict.get (KStr tag) Inputs.exif_mixed = Some v ->
  needs_str (rt := Sample.runtime) v ->
  is_ok (py_str (Runtime := Sample.runtime) v) = true.
Proof.
  intros Hin Hget _; simpl in Hin.
  repeat (destruct Hin as [<- | Hin];
          [vm_compute in Hget; try discriminate Hget;
           injection Hget as <-; reflexivity|]).
  contradiction.
Defined.

(** X20, at the sample tag map. *)
Lemma extract_metadata_returns_when_witness :
  exists r,
    extract_metadata (rt := Sample.runtime)
      (Cases.image_with Inputs.exif_mixed) "a.jpg" = ([], Ok r).
Proof.
  exact (extract_metadata_returns_when (rt := Sample.runtime)
           (Cases.image_with Inputs.exif_mixed) "a.jpg" 2048 Inputs.exif_mixed
           Inputs.exif_mixed (F64.of_Z 2)
           eq_refl eq_refl eq_refl eq_refl sample_text_tags sample_image_tags).
Defined.

(** X23, at a block of two entries. *)
Lemma print_section_lines_witness :
  exists lines,
    print_section (rt := Sample.runtime) "Image Settings"
      [(KStr "Flash", PyStr "off"); (KInt 59932, PyFloat (F64.of_Z 2))]
    = (lines, Ok tt) /\
    List.length lines = 3%nat /\
    ([(KStr "Flash", PyStr "off"); (KInt 59932, PyFloat (F64.of_Z 2))] <> [] ->
     hd_error lines = Some (section_header "Image Settings")).
Proof.
  apply (print_section_lines (rt := Sample.runtime) "Image Settings"
           [(KStr "Flash", PyStr "off"); (KInt 59932, PyFloat (F64.of_Z 2))]).
  repeat constructor.
Defined.

(** X24, at the report of the sample image. *)
Lemma print_report_succeeds_witness :
  exists meta,
    snd (extract_metadata (rt := Sample.runtime) Desk.fs "a.jpg") = Ok meta /\
    exists lines,
      print_report (rt := Sample.runtime) meta = (lines, Ok tt) /\
      List.length lines = 20%nat.
Proof.
  exists Desk.report_a; split; [vm_compute; reflexivity|].
  refine (print_report_succeeds (rt := Sample.runtime) Desk.fs "a.jpg"
            Desk.report_a _).
  vm_compute; reflexivity.
Defined.

(** X25, at a hand-made report. *)
Lemma print_report_needs_longitude_witness :
  snd (print_report (rt := Sample.runtime) Cases.report_latitude_only)
  = Raise KeyError /\
  List.length (fst (print_report (rt := Sample.runtime)
                      Cases.report_latitude_only)) = 9%nat /\
  exists s,
    fmt (rt := Sample.runtime) (PyFloat (F64.of_Z 40)) = Ok s /\
    nth_error (fst (print_report (rt := Sample.runtime)
                      Cases.report_latitude_only)) 8
    = Some ("  " ++ ljust 25 "Latitude" ++ " " ++ s).
Proof.
  apply (print_report_needs_longitude (rt := Sample.runtime)
           Cases.report_latitude_only
           [(KStr "latitude", PyFloat (F64.of_Z 40))] (PyFloat (F64.of_Z 40)));
    reflexivity.
Defined.

(** X28, at a run that answers "y" after a no-break space. *)
Lemma main_writes_only_on_yes_witness :
  exists asked image_path answer rest meta,
    choose_path ["extractor"; "a.jpg"] [Cases.nbsp ++ "y"]
    = (asked, Some (image_path, answer :: rest)) /\
    image_path <> "" /\
    lower (strip answer) = "y" /\
    snd (extract_metadata (rt := Sample.runtime) Desk.fs image_path) = Ok meta /\
    "a.jpg_metadata_2024-01-02_03-04-05.json"
    = filename (file meta) ++ "_metadata_" ++ Desk.now ++ ".json" /\
    Desk.json_dump Desk.report_a = Desk.json_dump meta /\
    Desk.open_for_writing "a.jpg_metadata_2024-01-02_03-04-05.json" = Ok tt.
Proof.
  apply (main_writes_only_on_yes (rt := Sample.runtime) Desk.now Desk.json_dump
           Desk.open_for_writing Desk.fs ["extractor"; "a.jpg"]
           [Cases.nbsp ++ "y"]).
  vm_compute.
  repeat (try (left; reflexivity); right).
Defined.

(** X26, at a typed line of three spaces. *)
Lemma main_without_a_path_witness :
  main (rt := Sample.runtime) Desk.now Desk.json_dump Desk.open_for_writing
    Desk.fs ["extractor"] ["   "; "y"]
  = ((map Print banner
      ++ [Prompt (BOLD ++ "Enter path to image file:" ++ RESET ++ " ");
          Print (RED ++ "No file provided. Exiting." ++ RESET)])%list,
     Returned).
Proof.
  apply (main_without_a_path (rt := Sample.runtime) Desk.now Desk.json_dump
           Desk.open_for_writing Desk.fs ["extractor"] ["   "; "y"]).
  right; split; [simpl; lia|].
  exists "   ", ["y"]; split; reflexivity.
Defined.

(** X27, at a path given as argument. *)
Lemma main_missing_file_witness :
  main (rt := Sample.runtime) Desk.now Desk.json_dump Desk.open_for_writing
    Desk.fs ["extractor"; "gone.jpg"] ["y"]
  = ((map Print banner
      ++ [Print (LF ++ CYAN ++ "Analyzing: gone.jpg" ++ RESET);
          Print (RED ++ "Error: File not found: gone.jpg" ++ RESET)])%list,
     Raised FileNotFoundError).
Proof.
  apply (main_missing_file (rt := Sample.runtime) Desk.now Desk.json_dump
           Desk.open_for_writing Desk.fs ["extractor"; "gone.jpg"] ["y"]
           [] "gone.jpg" ["y"]);
    [reflexivity | discriminate | reflexivity].
Defined.

(** X29, at a typed path and the answer "Y". *)
Lemma main_saves_report_witness :
  exists lines,
    print_report (rt := Sample.runtime) Desk.report_a = (lines, Ok tt) /\
    main (rt := Sample.runtime) Desk.now Desk.json_dump Desk.open_for_writing
      Desk.fs ["extractor"] [" a.jpg"; "Y"; "ignored"]
    = ((map Print banner
        ++ [Prompt (BOLD ++ "Enter path to image file:" ++ RESET ++ " ")]
        ++ [Print (LF ++ CYAN ++ "Analyzing: a.jpg" ++ RESET)]
        ++ map Print (fst (extract_metadata (rt := Sample.runtime) Desk.fs "a.jpg"))
        ++ map Print lines
        ++ [Prompt "Save report as JSON? (y/n): ";
            WriteFile "a.jpg_metadata_2024-01-02_03-04-05.json"
                      (Desk.json_dump Desk.report_a);
            Print (GREEN ++ "Report saved to: "
                   ++ "a.jpg_metadata_2024-01-02_03-04-05.json"
                   ++ RESET ++ LF)])%list,
       Returned).
Proof.
  apply (main_saves_report (rt := Sample.runtime) Desk.now Desk.json_dump
           Desk.open_for_writing Desk.fs ["extractor"] [" a.jpg"; "Y"; "ignored"]
           [Prompt (BOLD ++ "Enter path to image file:" ++ RESET ++ " ")]
           "a.jpg" "Y" ["ignored"] Desk.report_a);
    [reflexivity | discriminate | vm_compute; reflexivity | reflexivity
     | reflexivity].
Defined.

(** C5 on the code, at sea level with coordinates. *)
Lemma extract_gps_zero_altitude_witness :
  (exists a, py_float (rt := Sample.runtime) (PyRational 0 1) = Ok a /\
             F64.truthy a = false) /\
  (forall g,
      extract_gps (rt := Sample.runtime) Inputs.exif_sea_level_located
      = Ok (Some g) ->
      Dict.mem (KStr "altitude_meters") g = false) /\
  (coordinates_present
     (gps_named (Inputs.gps_dir ++ [(KInt 6, PyRational 0 1)])%list) = false ->
   extract_gps (rt := Sample.runtime) Inputs.exif_sea_level_located = Ok None).
Proof.
  exact (extract_gps_zero_altitude (rt := Sample.runtime)
           Inputs.exif_sea_level_located
           (Inputs.gps_dir ++ [(KInt 6, PyRational 0 1)])%list (PyRational 0 1)
           eq_refl eq_refl eq_refl).
Defined.
